(** * GLTriangleBatch: the vertex-dedup indexer, its finalizer and its codec

    A shallow embedding of [src/GLTriangleBatch.cpp].  The batch object is a
    record that every member function takes and returns; the caller's normal
    array, which [AddTriangle] overwrites, is returned next to the batch.

    Numbers are modelled as the code has them: [GLuint] counters are integers
    reduced modulo [2^32], [GLushort] cells are reduced modulo [2^16], [int]
    is the two's complement reading of 32 bits, and [GLfloat] is IEEE-754
    binary32 ([spec_float] at precision 24 and maximal exponent 128, rounding
    to nearest even).  Heap blocks are lists of cells of the allocated
    length; a store at a position past the end of a block, which C++ leaves
    undefined, changes nothing in the block while the counters advance as
    the compiled code advances them.  The stores to the index array, the
    one array that the code overruns, are followed a second time as stores
    to the memory at [pIndexes] ([indexes_written]), so that the index
    emitted at a position past the end of the block can be spoken of.
    Where C++ defines a read, an upload or a [delete []] only for some
    pointers, a predicate says for which ([readable], [End_defined],
    [guarded_deletes_defined]). *)

From Stdlib Require Import ZArith Bool Strings.Byte Floats.SpecFloat.
From stdpp Require Import base list gmap strings.

Local Open Scope Z_scope.

(** ** Machine integers *)

Definition GLuint_of (z : Z) : Z := z mod 2 ^ 32.
Definition GLushort_of (z : Z) : Z := z mod 2 ^ 16.

(** Conversion of a 32-bit unsigned value to [int]. *)
Definition int_of (z : Z) : Z :=
  let u := GLuint_of z in if u <? 2 ^ 31 then u else u - 2 ^ 32.

(** ** binary32 *)

Definition GLfloat : Type := spec_float.

Definition f32_add : GLfloat -> GLfloat -> GLfloat := SFadd 24 128.
Definition f32_sub : GLfloat -> GLfloat -> GLfloat := SFsub 24 128.
Definition f32_mul : GLfloat -> GLfloat -> GLfloat := SFmul 24 128.
Definition f32_sqrt : GLfloat -> GLfloat := SFsqrt 24 128.
Definition f32_zero : GLfloat := S754_zero false.

(** The binary32 value nearest to [m * 2^e]. *)
Definition f32_of (m e : Z) : GLfloat := binary_normalize 24 128 m e false.

(** Neither an infinity nor a NaN. *)
Definition f32_finite (x : GLfloat) : bool :=
  match x with
  | S754_zero _ | S754_finite _ _ _ => true
  | S754_infinity _ | S754_nan => false
  end.

#[global] Instance GLfloat_inhabited : Inhabited GLfloat := populate f32_zero.

(** ** math3d

    [math3d.h] is not among the sources. *)

(** [typedef float M3DVector3f[3]] and [typedef float M3DVector2f[2]]. *)
Record M3DVector3f : Type := Vec3 { v3_0 : GLfloat; v3_1 : GLfloat; v3_2 : GLfloat }.
Record M3DVector2f : Type := Vec2 { v2_0 : GLfloat; v2_1 : GLfloat }.

#[global] Instance M3DVector3f_inhabited : Inhabited M3DVector3f :=
  populate (Vec3 f32_zero f32_zero f32_zero).
#[global] Instance M3DVector2f_inhabited : Inhabited M3DVector2f :=
  populate (Vec2 f32_zero f32_zero).

(** Modelled from the spec: [m3dCloseEnough] of math3d.h, the tolerance
    predicate [close(a,b,eps) = |a - b| < eps], evaluated in binary32. *)
Definition m3dCloseEnough (fCandidate fCompare fEpsilon : GLfloat) : bool :=
  SFltb (SFabs (f32_sub fCandidate fCompare)) fEpsilon.

(** Modelled from the spec: [m3dGetVectorLengthSquared3] of math3d.h, the
    squared Euclidean length of a position. *)
Definition m3dGetVectorLengthSquared3 (u : M3DVector3f) : GLfloat :=
  f32_add (f32_add (f32_mul (v3_0 u) (v3_0 u)) (f32_mul (v3_1 u) (v3_1 u)))
          (f32_mul (v3_2 u) (v3_2 u)).

(** ** Pointers and heap blocks *)

Inductive ptr (A : Type) : Type :=
  | nullptr
  | NOT_VALID_BUT_USED
  | stale
  | block (cells : list A).
Arguments nullptr {A}.
Arguments NOT_VALID_BUT_USED {A}.
Arguments stale {A}.
Arguments block {A} cells.

(** [stale] is the address of a block that [delete[]] has already given back
    and that the code did not overwrite. *)

(** The test [if(p)]. *)
Definition non_null {A} (p : ptr A) : bool :=
  match p with nullptr => false | _ => true end.

Definition cells {A} (p : ptr A) : list A :=
  match p with block l => l | _ => [] end.

(** [p[i]] as an rvalue. *)
Definition peek {A} `{Inhabited A} (p : ptr A) (i : Z) : A :=
  cells p !!! Z.to_nat i.

(** [p[i] = v]. *)
Definition poke {A} (p : ptr A) (i : Z) (v : A) : ptr A :=
  match p with
  | block l => block (<[Z.to_nat i := v]> l)
  | _ => p
  end.

(** [new T[n]]: the cells of a fresh block are indeterminate in C++; the
    model fills them with a fixed value, which no function below reads
    before writing it. *)
Definition new_array {A} `{Inhabited A} (n : Z) : ptr A :=
  block (replicate (Z.to_nat n) inhabitant).

(** An argument array of three elements, [T a[3]]. *)
Definition array3 (A : Type) : Type := (A * A * A)%type.

Definition at3 {A} (a : array3 A) (i : Z) : A :=
  let '(a0, a1, a2) := a in
  if i =? 0 then a0 else if i =? 1 then a1 else a2.

Definition map3 {A B} (f : A -> B) (a : array3 A) : array3 B :=
  let '(a0, a1, a2) := a in (f a0, f a1, f a2).

(** Reading [a[i]] through an argument pointer that may be null. *)
Definition at3_opt {A} `{Inhabited A} (a : option (array3 A)) (i : Z) : A :=
  match a with Some a => at3 a i | None => inhabitant end.

(** ** The batch *)

(** The four buffer objects on the graphics side; [None] is a buffer that
    holds no data yet. *)
Record GLbuffers : Type := Buffers {
  VERTEX_DATA : option (list M3DVector3f);
  NORMAL_DATA : option (list M3DVector3f);
  TEXTURE_DATA : option (list M3DVector2f);
  INDEX_DATA : option (list Z)
}.

Definition glGenBuffers : GLbuffers := Buffers None None None None.

Record GLTriangleBatch : Type := Batch {
  pIndexes : ptr Z;
  pVerts : ptr M3DVector3f;
  pNorms : ptr M3DVector3f;
  pTexCoords : ptr M3DVector2f;
  nMaxIndexes : Z;
  nNumIndexes : Z;
  nNumVerts : Z;
  bufferObjects : GLbuffers;
  bMadeStuff : bool;
  boundingSphereRadius : GLfloat
}.

Definition set_pIndexes (b : GLTriangleBatch) (p : ptr Z) : GLTriangleBatch :=
  Batch p (pVerts b) (pNorms b) (pTexCoords b) (nMaxIndexes b) (nNumIndexes b)
        (nNumVerts b) (bufferObjects b) (bMadeStuff b) (boundingSphereRadius b).
Definition set_pVerts (b : GLTriangleBatch) (p : ptr M3DVector3f) : GLTriangleBatch :=
  Batch (pIndexes b) p (pNorms b) (pTexCoords b) (nMaxIndexes b) (nNumIndexes b)
        (nNumVerts b) (bufferObjects b) (bMadeStuff b) (boundingSphereRadius b).
Definition set_pNorms (b : GLTriangleBatch) (p : ptr M3DVector3f) : GLTriangleBatch :=
  Batch (pIndexes b) (pVerts b) p (pTexCoords b) (nMaxIndexes b) (nNumIndexes b)
        (nNumVerts b) (bufferObjects b) (bMadeStuff b) (boundingSphereRadius b).
Definition set_pTexCoords (b : GLTriangleBatch) (p : ptr M3DVector2f) : GLTriangleBatch :=
  Batch (pIndexes b) (pVerts b) (pNorms b) p (nMaxIndexes b) (nNumIndexes b)
        (nNumVerts b) (bufferObjects b) (bMadeStuff b) (boundingSphereRadius b).
Definition set_nNumIndexes (b : GLTriangleBatch) (n : Z) : GLTriangleBatch :=
  Batch (pIndexes b) (pVerts b) (pNorms b) (pTexCoords b) (nMaxIndexes b) n
        (nNumVerts b) (bufferObjects b) (bMadeStuff b) (boundingSphereRadius b).
Definition set_nNumVerts (b : GLTriangleBatch) (n : Z) : GLTriangleBatch :=
  Batch (pIndexes b) (pVerts b) (pNorms b) (pTexCoords b) (nMaxIndexes b)
        (nNumIndexes b) n (bufferObjects b) (bMadeStuff b) (boundingSphereRadius b).
Definition set_bufferObjects (b : GLTriangleBatch) (g : GLbuffers) : GLTriangleBatch :=
  Batch (pIndexes b) (pVerts b) (pNorms b) (pTexCoords b) (nMaxIndexes b)
        (nNumIndexes b) (nNumVerts b) g (bMadeStuff b) (boundingSphereRadius b).
Definition set_bMadeStuff (b : GLTriangleBatch) (m : bool) : GLTriangleBatch :=
  Batch (pIndexes b) (pVerts b) (pNorms b) (pTexCoords b) (nMaxIndexes b)
        (nNumIndexes b) (nNumVerts b) (bufferObjects b) m (boundingSphereRadius b).
Definition set_boundingSphereRadius (b : GLTriangleBatch) (r : GLfloat) : GLTriangleBatch :=
  Batch (pIndexes b) (pVerts b) (pNorms b) (pTexCoords b) (nMaxIndexes b)
        (nNumIndexes b) (nNumVerts b) (bufferObjects b) (bMadeStuff b) r.

(** The channel flags of the spec: a channel is present while its pointer is
    not null. *)
Definition hasN (b : GLTriangleBatch) : bool := non_null (pNorms b).
Definition hasT (b : GLTriangleBatch) : bool := non_null (pTexCoords b).

(** The constructor.  Its body sets the counters; the pointer members get
    their initial value in the class declaration, which is not among the
    sources, and are null here, as the constructor's comment says. *)
Definition GLTriangleBatch_new : GLTriangleBatch :=
  Batch nullptr nullptr nullptr nullptr 0 0 0 glGenBuffers false f32_zero.

(** [BeginMesh]: the batch that the function leaves, four fresh blocks of
    [nMaxVerts] cells and the counters at zero.  The four guarded
    [delete []] that open the function are [guarded_deletes] below; they
    leave no trace in the batch, and C++ defines them, and with them the
    call, only when [guarded_deletes_defined] holds of the old batch. *)
Definition BeginMesh (b : GLTriangleBatch) (nMaxVerts : Z) : GLTriangleBatch :=
  Batch (new_array nMaxVerts) (new_array nMaxVerts) (new_array nMaxVerts)
        (new_array nMaxVerts) nMaxVerts 0 0
        (bufferObjects b) (bMadeStuff b) (boundingSphereRadius b).

Section AddTriangle.

(** [m3dNormalizeVector3] of math3d.h, of which the spec only says that it
    is a 3-vector normalizer: a parameter of the development. *)
Variable m3dNormalizeVector3 : M3DVector3f -> M3DVector3f.

Definition close_pos (b : GLTriangleBatch) (iMatch : Z) (v : M3DVector3f)
    (epsilon : GLfloat) : bool :=
  m3dCloseEnough (v3_0 (peek (pVerts b) iMatch)) (v3_0 v) epsilon &&
  m3dCloseEnough (v3_1 (peek (pVerts b) iMatch)) (v3_1 v) epsilon &&
  m3dCloseEnough (v3_2 (peek (pVerts b) iMatch)) (v3_2 v) epsilon.

Definition close_norm (b : GLTriangleBatch) (iMatch : Z) (n : M3DVector3f)
    (epsilon : GLfloat) : bool :=
  m3dCloseEnough (v3_0 (peek (pNorms b) iMatch)) (v3_0 n) epsilon &&
  m3dCloseEnough (v3_1 (peek (pNorms b) iMatch)) (v3_1 n) epsilon &&
  m3dCloseEnough (v3_2 (peek (pNorms b) iMatch)) (v3_2 n) epsilon.

Definition close_tex (b : GLTriangleBatch) (iMatch : Z) (t : M3DVector2f)
    (epsilon : GLfloat) : bool :=
  m3dCloseEnough (v2_0 (peek (pTexCoords b) iMatch)) (v2_0 t) epsilon &&
  m3dCloseEnough (v2_1 (peek (pTexCoords b) iMatch)) (v2_1 t) epsilon.

(** The body of the inner loop: the four blocks, one per combination of
    present channels; [true] when one of them reaches its [break]. *)
Definition vertex_matches (b : GLTriangleBatch) (iMatch : Z)
    (v n : M3DVector3f) (t : M3DVector2f) (epsilon : GLfloat) : bool :=
  (non_null (pTexCoords b) && non_null (pNorms b) &&
     (close_pos b iMatch v epsilon && close_norm b iMatch n epsilon
      && close_tex b iMatch t epsilon))
  || (non_null (pNorms b) && negb (non_null (pTexCoords b)) &&
     (close_pos b iMatch v epsilon && close_norm b iMatch n epsilon))
  || (non_null (pTexCoords b) && negb (non_null (pNorms b)) &&
     (close_pos b iMatch v epsilon && close_tex b iMatch t epsilon))
  || (negb (non_null (pNorms b)) && negb (non_null (pTexCoords b)) &&
     close_pos b iMatch v epsilon).

(** The inner loop [for(iMatch = nSearchStart; iMatch < nNumVerts; iMatch++)]
    with [trips] iterations left: the value of [iMatch] on leaving the loop,
    and whether it was left through [break]. *)
Fixpoint search (b : GLTriangleBatch) (v n : M3DVector3f) (t : M3DVector2f)
    (epsilon : GLfloat) (trips : nat) (iMatch : Z) : bool * Z :=
  match trips with
  | O => (false, iMatch)
  | S trips' =>
      if vertex_matches b iMatch v n t epsilon then (true, iMatch)
      else search b v n t epsilon trips' (iMatch + 1)
  end.

(** [pIndexes[nNumIndexes] = i; nNumIndexes++;] *)
Definition emit_index (b : GLTriangleBatch) (i : Z) : GLTriangleBatch :=
  set_nNumIndexes
    (set_pIndexes b (poke (pIndexes b) (nNumIndexes b) (GLushort_of i)))
    (GLuint_of (nNumIndexes b + 1)).

(** The three [memcpy] of the no-match branch. *)
Definition store_vertex (b : GLTriangleBatch) (v n : M3DVector3f)
    (t : M3DVector2f) : GLTriangleBatch :=
  let b := set_pVerts b (poke (pVerts b) (nNumVerts b) v) in
  let b := if non_null (pNorms b)
           then set_pNorms b (poke (pNorms b) (nNumVerts b) n) else b in
  if non_null (pTexCoords b)
  then set_pTexCoords b (poke (pTexCoords b) (nNumVerts b) t) else b.

(** One turn of the outer loop, for the corner with attributes [v], [n],
    [t]. *)
Definition add_corner (b : GLTriangleBatch) (nSearchStart : Z)
    (v n : M3DVector3f) (t : M3DVector2f) (epsilon : GLfloat) : GLTriangleBatch :=
  let '(hit, iMatch) :=
    search b v n t epsilon (Z.to_nat (nNumVerts b - nSearchStart)) nSearchStart in
  let b := if hit then emit_index b iMatch else b in
  if (iMatch =? nNumVerts b) && (nNumVerts b <? nMaxIndexes b)
     && (nNumIndexes b <? nMaxIndexes b)
  then
    let b := store_vertex b v n t in
    let b := emit_index b (nNumVerts b) in
    set_nNumVerts b (GLuint_of (nNumVerts b + 1))
  else b.

(** The stores [pIndexes[nNumIndexes] = ...] of one turn of the outer loop,
    as they reach the memory at [pIndexes]: [mem] maps an offset [k] to the
    value last stored at [pIndexes + k], within the block or past its end
    (where [poke] has no cell to change). *)
Definition corner_writes (b : GLTriangleBatch) (nSearchStart : Z)
    (v n : M3DVector3f) (t : M3DVector2f) (epsilon : GLfloat) (mem : gmap Z Z)
    : gmap Z Z :=
  let '(hit, iMatch) :=
    search b v n t epsilon (Z.to_nat (nNumVerts b - nSearchStart)) nSearchStart in
  let mem := if hit then <[nNumIndexes b := GLushort_of iMatch]> mem else mem in
  let b := if hit then emit_index b iMatch else b in
  if (iMatch =? nNumVerts b) && (nNumVerts b <? nMaxIndexes b)
     && (nNumIndexes b <? nMaxIndexes b)
  then <[nNumIndexes b := GLushort_of (nNumVerts b)]> mem
  else mem.

(** [int nSearchStart = nNumVerts - nCheckRange; if(nSearchStart < 0) ...] *)
Definition search_start (b : GLTriangleBatch) (nCheckRange : Z) : Z :=
  let nSearchStart := int_of (nNumVerts b - nCheckRange) in
  if nSearchStart <? 0 then 0 else nSearchStart.

(** The two blocks that give a channel up when its argument is null. *)
Definition release_channels (b : GLTriangleBatch)
    (vNorms : option (array3 M3DVector3f))
    (vTexCoords : option (array3 M3DVector2f)) : GLTriangleBatch :=
  let b := if negb (bool_decide (is_Some vTexCoords)) && non_null (pTexCoords b)
           then set_pTexCoords b nullptr else b in
  if negb (bool_decide (is_Some vNorms)) && non_null (pNorms b)
  then set_pNorms b nullptr else b.

(** [AddTriangle].  The second component is the content of the caller's
    normal array when the call returns. *)
Definition AddTriangle (b : GLTriangleBatch) (verts : array3 M3DVector3f)
    (vNorms : option (array3 M3DVector3f))
    (vTexCoords : option (array3 M3DVector2f))
    (epsilon : GLfloat) (nCheckRange : Z)
    : GLTriangleBatch * option (array3 M3DVector3f) :=
  if nMaxIndexes b <=? nNumIndexes b then (b, vNorms)
  else
    let vNorms := map3 m3dNormalizeVector3 <$> vNorms in
    let b := release_channels b vNorms vTexCoords in
    let nSearchStart := search_start b nCheckRange in
    let b := foldl (fun b iVertex =>
                      add_corner b nSearchStart (at3 verts iVertex)
                        (at3_opt vNorms iVertex) (at3_opt vTexCoords iVertex)
                        epsilon)
                   b [0; 1; 2] in
    (b, vNorms).

(** The stores of one [AddTriangle] call into the memory at [pIndexes]. *)
Definition AddTriangle_writes (b : GLTriangleBatch) (verts : array3 M3DVector3f)
    (vNorms : option (array3 M3DVector3f))
    (vTexCoords : option (array3 M3DVector2f))
    (epsilon : GLfloat) (nCheckRange : Z) (mem : gmap Z Z) : gmap Z Z :=
  if nMaxIndexes b <=? nNumIndexes b then mem
  else
    let vNorms := map3 m3dNormalizeVector3 <$> vNorms in
    let b := release_channels b vNorms vTexCoords in
    let nSearchStart := search_start b nCheckRange in
    snd (foldl (fun '(b, mem) iVertex =>
                  (add_corner b nSearchStart (at3 verts iVertex)
                     (at3_opt vNorms iVertex) (at3_opt vTexCoords iVertex) epsilon,
                   corner_writes b nSearchStart (at3 verts iVertex)
                     (at3_opt vNorms iVertex) (at3_opt vTexCoords iVertex) epsilon
                     mem))
               (b, mem) [0; 1; 2]).

End AddTriangle.

(** ** The finalizer *)

(** Reading the [n] cells at [p]: C++ defines it when [p] is a live block
    of at least [n] cells, or when there is nothing to read. *)
Definition readable {A} (p : ptr A) (n : Z) : bool :=
  match p with
  | block l => n <=? Z.of_nat (length l)
  | _ => n <=? 0
  end.

(** [glBufferData(target, n * sizeof(T), p, GL_STATIC_DRAW)]: the content of
    a buffer object after the upload of the [n] cells at [p].  The source
    passes the byte count of [n] cells whatever the size of the block; the
    model has the cells of the block only, so that the content is the one
    of the source when [readable p n] holds and is cut at the end of the
    block otherwise, where the source reads past it. *)
Definition glBufferData {A} (n : Z) (p : ptr A) : option (list A) :=
  Some (take (Z.to_nat n) (cells p)).

(** The loop of [End] over the stored positions. *)
Definition largest_length_squared (b : GLTriangleBatch) : GLfloat :=
  foldl (fun radius i =>
           let r := m3dGetVectorLengthSquared3 (peek (pVerts b) i) in
           if SFltb radius r then r else radius)
        f32_zero (seqZ 0 (nNumVerts b)).

(** [End]: the batch that the function leaves.  Its reads and its deletes
    are [End_reads] and [End_deletes] below; C++ defines the call when
    [End_defined] holds. *)
Definition End_ (b : GLTriangleBatch) : GLTriangleBatch :=
  let b := set_bMadeStuff b true in
  let b := set_boundingSphereRadius b (f32_sqrt (largest_length_squared b)) in
  let vertex := glBufferData (nNumVerts b) (pVerts b) in
  let b := set_pVerts b NOT_VALID_BUT_USED in
  let normal :=
    if non_null (pNorms b) then glBufferData (nNumVerts b) (pNorms b) else None in
  let b := set_pNorms b (if non_null (pNorms b) then NOT_VALID_BUT_USED else nullptr) in
  let texture :=
    if non_null (pTexCoords b) then glBufferData (nNumVerts b) (pTexCoords b)
    else None in
  let b := if non_null (pTexCoords b) then set_pTexCoords b NOT_VALID_BUT_USED else b in
  let index := glBufferData (nNumIndexes b) (pIndexes b) in
  let b := set_pIndexes b NOT_VALID_BUT_USED in
  set_bufferObjects b (Buffers vertex normal texture index).

(** ** The codec *)

(** A stream opened for reading is the list of the bytes not yet read; a
    stream opened for writing is the list of the bytes written so far. *)
Definition FILE : Type := list Byte.byte.

(** [SaveMesh] on an open stream: the body that writes is commented out in
    the source; what is left ignores the stream and returns [true]. *)
Definition SaveMesh (b : GLTriangleBatch) (pFile : FILE) : bool * FILE :=
  (true, pFile).

(** [fread(dst, size, 1, pFile)]: the bytes of the element when a whole
    element was read (the call returns 1), [None] otherwise (it returns 0);
    a short read leaves the stream at its end.  When the stream ends inside
    the element, C leaves the value of the element indeterminate (the bytes
    that were left may have been copied); [None] does not tell how many
    there were. *)
Definition fread (size : Z) (pFile : FILE) : option (list Byte.byte) * FILE :=
  if (0 <? size) && (size <=? Z.of_nat (length pFile))
  then (Some (take (Z.to_nat size) pFile), drop (Z.to_nat size) pFile)
  else (None, if 0 <? size then [] else pFile).

(** The unsigned integer that a little-endian run of bytes holds. *)
Definition le_uint (bs : list Byte.byte) : Z :=
  foldr (fun byte rest => Z.of_N (Byte.to_N byte) + 256 * rest) 0 bs.

(** The binary32 value of a 32-bit pattern (the payload of a NaN is lost). *)
Definition f32_of_bits (w : Z) : GLfloat :=
  let s := Z.testbit w 31 in
  let e := Z.land (Z.shiftr w 23) 255 in
  let m := Z.land w (2 ^ 23 - 1) in
  if e =? 0 then
    match m with Zpos p => S754_finite s p (-149) | _ => S754_zero s end
  else if e =? 255 then
    if m =? 0 then S754_infinity s else S754_nan
  else
    match m + 2 ^ 23 with Zpos p => S754_finite s p (e - 150) | _ => S754_nan end.

(** [n] consecutive elements of [width] bytes each. *)
Fixpoint elements (width n : nat) (bs : list Byte.byte) : list (list Byte.byte) :=
  match n with
  | O => []
  | S n' => take width bs :: elements width n' (drop width bs)
  end.

Definition GLushorts_of_bytes (n : Z) (bs : list Byte.byte) : list Z :=
  le_uint <$> elements 2 (Z.to_nat n) bs.

Definition GLfloat_of_bytes (bs : list Byte.byte) : GLfloat :=
  f32_of_bits (le_uint bs).

Definition M3DVector3f_of_bytes (bs : list Byte.byte) : M3DVector3f :=
  Vec3 (GLfloat_of_bytes (take 4 bs)) (GLfloat_of_bytes (take 4 (drop 4 bs)))
       (GLfloat_of_bytes (take 4 (drop 8 bs))).

Definition M3DVector2f_of_bytes (bs : list Byte.byte) : M3DVector2f :=
  Vec2 (GLfloat_of_bytes (take 4 bs)) (GLfloat_of_bytes (take 4 (drop 4 bs))).

Definition M3DVector3fs_of_bytes (n : Z) (bs : list Byte.byte) : list M3DVector3f :=
  M3DVector3f_of_bytes <$> elements 12 (Z.to_nat n) bs.

Definition M3DVector2fs_of_bytes (n : Z) (bs : list Byte.byte) : list M3DVector2f :=
  M3DVector2f_of_bytes <$> elements 8 (Z.to_nat n) bs.

(** The first part of [LoadMesh]: the three header words, whose [fread]
    results the code does not look at, then the index block and the
    position block.  A word or a block that could not be read whole keeps
    its old value, or its fresh cells, in the model: this is the source
    when the stream had no byte left for it, and one of the values that C
    allows when the stream ended inside it.  No property below is stated
    for a stream that ends inside a header word or inside one of these two
    blocks. *)
Definition load_geometry (b : GLTriangleBatch) (pFile : FILE) : GLTriangleBatch * FILE :=
  let b := set_bufferObjects b glGenBuffers in
  let '(got, pFile) := fread 4 pFile in
  let b := match got with Some bs => set_nNumIndexes b (le_uint bs) | None => b end in
  let '(got, pFile) := fread 4 pFile in
  let b := match got with Some bs => set_nNumVerts b (le_uint bs) | None => b end in
  let '(got, pFile) := fread 4 pFile in
  let b := match got with
           | Some bs => set_boundingSphereRadius b (GLfloat_of_bytes bs)
           | None => b
           end in
  let b := set_pIndexes b (new_array (nNumIndexes b)) in
  let '(got, pFile) := fread (2 * nNumIndexes b) pFile in
  let b := match got with
           | Some bs => set_pIndexes b (block (GLushorts_of_bytes (nNumIndexes b) bs))
           | None => b
           end in
  let b := set_pVerts b (new_array (nNumVerts b)) in
  let '(got, pFile) := fread (12 * nNumVerts b) pFile in
  let b := match got with
           | Some bs => set_pVerts b (block (M3DVector3fs_of_bytes (nNumVerts b) bs))
           | None => b
           end in
  (b, pFile).

(** [if(bNormals) { ... }] *)
Definition load_normals (b : GLTriangleBatch) (pFile : FILE) (bNormals : bool)
    : GLTriangleBatch * FILE :=
  if bNormals then
    let '(got, pFile) := fread (12 * nNumVerts b) pFile in
    match got with
    | Some bs => (set_pNorms b (block (M3DVector3fs_of_bytes (nNumVerts b) bs)), pFile)
    | None => (set_pNorms b nullptr, pFile)
    end
  else (b, pFile).

(** [if(bTexCoords) { ... }] *)
Definition load_texcoords (b : GLTriangleBatch) (pFile : FILE) (bTexCoords : bool)
    : GLTriangleBatch * FILE :=
  if bTexCoords then
    let '(got, pFile) := fread (8 * nNumVerts b) pFile in
    match got with
    | Some bs => (set_pTexCoords b (block (M3DVector2fs_of_bytes (nNumVerts b) bs)), pFile)
    | None => (set_pTexCoords b nullptr, pFile)
    end
  else (b, pFile).

(** The uploads that end [LoadMesh]; each block is given back after its
    upload and its pointer keeps the old address. *)
Definition load_upload (b : GLTriangleBatch) : GLTriangleBatch :=
  let vertex := glBufferData (nNumVerts b) (pVerts b) in
  let b := set_pVerts b stale in
  let normal :=
    if non_null (pNorms b) then glBufferData (nNumVerts b) (pNorms b)
    else NORMAL_DATA (bufferObjects b) in
  let b := if non_null (pNorms b) then set_pNorms b stale else b in
  let texture :=
    if non_null (pTexCoords b) then glBufferData (nNumVerts b) (pTexCoords b)
    else TEXTURE_DATA (bufferObjects b) in
  let b := if non_null (pTexCoords b) then set_pTexCoords b stale else b in
  let index := glBufferData (nNumIndexes b) (pIndexes b) in
  let b := set_pIndexes b stale in
  set_bufferObjects b (Buffers vertex normal texture index).

(** [LoadMesh] on an open stream: the value returned, the batch and the
    rest of the stream. *)
Definition LoadMesh (b : GLTriangleBatch) (pFile : FILE) (bNormals bTexCoords : bool)
    : bool * GLTriangleBatch * FILE :=
  let '(b, pFile) := load_geometry b pFile in
  let '(b, pFile) := load_normals b pFile bNormals in
  let '(b, pFile) := load_texcoords b pFile bTexCoords in
  (true, load_upload b, pFile).

(** ** The renderer facade *)

(** [Draw]: the index count that [glDrawElements] is given, a [GLsizei];
    [None] when the function returns without drawing. *)
Definition Draw (b : GLTriangleBatch) : option Z :=
  if nNumIndexes b <=? 0 then None else Some (int_of (nNumIndexes b)).

(** ** Giving blocks back *)

(** What [delete [] p] is handed: nothing (the statement is skipped), a null
    pointer, a live block, a block that was given back before, or the
    sentinel address. *)
Inductive deletion : Type :=
  | kept
  | deletes_null
  | deletes_block
  | deletes_stale
  | deletes_sentinel.

(** [delete [] p;] *)
Definition plain_delete {A} (p : ptr A) : deletion :=
  match p with
  | nullptr => deletes_null
  | block _ => deletes_block
  | stale => deletes_stale
  | NOT_VALID_BUT_USED => deletes_sentinel
  end.

(** [if(p != NOT_VALID_BUT_USED) delete [] p;] *)
Definition guarded_delete {A} (p : ptr A) : deletion :=
  match p with
  | NOT_VALID_BUT_USED => kept
  | _ => plain_delete p
  end.

(** C++ defines [delete []] of a null pointer and of a live block only. *)
Definition defined_deletion (d : deletion) : bool :=
  match d with
  | kept | deletes_null | deletes_block => true
  | deletes_stale | deletes_sentinel => false
  end.

(** The four guarded deletes that open the destructor and [BeginMesh], for
    [pIndexes], [pVerts], [pNorms] and [pTexCoords]. *)
Definition guarded_deletes (b : GLTriangleBatch) : list deletion :=
  [guarded_delete (pIndexes b); guarded_delete (pVerts b);
   guarded_delete (pNorms b); guarded_delete (pTexCoords b)].

(** The destructor and [BeginMesh] hand nothing to [delete []] but live
    blocks and null pointers. *)
Definition guarded_deletes_defined (b : GLTriangleBatch) : bool :=
  forallb defined_deletion (guarded_deletes b).

(** The destructor: its deletes, and whether it deletes the vertex array
    object and the four buffer objects. *)
Definition GLTriangleBatch_delete (b : GLTriangleBatch) : list deletion * bool :=
  (guarded_deletes b, bMadeStuff b).

(** The deletes of [End], in the order of the source: [pVerts], [pNorms]
    (in both branches), [pTexCoords] (when it is not null), [pIndexes].
    [End] gets to them after its loop over [pVerts] and between its
    uploads, that is only when the reads of [End_reads] are defined. *)
Definition End_deletes (b : GLTriangleBatch) : list deletion :=
  [plain_delete (pVerts b); plain_delete (pNorms b);
   if non_null (pTexCoords b) then plain_delete (pTexCoords b) else kept;
   plain_delete (pIndexes b)].

(** The reads of [End]: the loop for the radius reads [pVerts[i]] for
    [i < nNumVerts], and the uploads read [nNumVerts] cells at [pVerts],
    at [pNorms] and at [pTexCoords] when these are not null, and
    [nNumIndexes] cells at [pIndexes]. *)
Definition End_reads (b : GLTriangleBatch) : bool :=
  readable (pVerts b) (nNumVerts b) &&
  (negb (non_null (pNorms b)) || readable (pNorms b) (nNumVerts b)) &&
  (negb (non_null (pTexCoords b)) || readable (pTexCoords b) (nNumVerts b)) &&
  readable (pIndexes b) (nNumIndexes b).

(** [End] stays within what C++ defines: its reads and its deletes. *)
Definition End_defined (b : GLTriangleBatch) : bool :=
  End_reads b && forallb defined_deletion (End_deletes b).

(** ** Files by name *)

(** The files that [fopen] can reach, and the names that it cannot open
    for writing. *)
Record disk : Type := Disk {
  files : gmap string FILE;
  locked : gset string
}.

(** [fopen(szFileName, "rb")]: the content of the file, [None] for [NULL]. *)
Definition fopen_rb (d : disk) (szFileName : string) : option FILE :=
  files d !! szFileName.

(** [fopen(szFileName, "wb")]: the file is created, or cut to length zero. *)
Definition fopen_wb (d : disk) (szFileName : string) : option disk :=
  if decide (szFileName ∈ locked d) then None
  else Some (Disk (<[szFileName := []]> (files d)) (locked d)).

(** [SaveMesh] by name: [fopen], [SaveMesh] on the stream, whose result is
    not looked at, and [fclose], after which the file holds what was
    written. *)
Definition SaveMesh_named (b : GLTriangleBatch) (d : disk) (szFileName : string)
    : bool * disk :=
  match fopen_wb d szFileName with
  | None => (false, d)
  | Some d' =>
      let '(_, written) := SaveMesh b [] in
      (true, Disk (<[szFileName := written]> (files d')) (locked d'))
  end.

(** [LoadMesh] by name: [fopen], [LoadMesh] on the stream, whose result is
    not looked at, and [fclose]. *)
Definition LoadMesh_named (b : GLTriangleBatch) (d : disk) (szFileName : string)
    (bNormals bTexCoords : bool) : bool * GLTriangleBatch :=
  match fopen_rb d szFileName with
  | None => (false, b)
  | Some pFile =>
      let '(_, b', _) := LoadMesh b pFile bNormals bTexCoords in
      (true, b')
  end.

(** ** Sequences of calls *)

(** The arguments of one [AddTriangle] call. *)
Record call : Type := Call {
  call_verts : array3 M3DVector3f;
  call_norms : option (array3 M3DVector3f);
  call_tex : option (array3 M3DVector2f);
  call_epsilon : GLfloat;
  call_range : Z
}.

(** The attributes of one corner as the matching loop sees them. *)
Record corner : Type := Corner {
  at_pos : M3DVector3f;
  at_norm : M3DVector3f;
  at_tex : M3DVector2f
}.

Section Calls.

Variable m3dNormalizeVector3 : M3DVector3f -> M3DVector3f.

(** The batch after one call. *)
Definition add_triangle (b : GLTriangleBatch) (c : call) : GLTriangleBatch :=
  fst (AddTriangle m3dNormalizeVector3 b (call_verts c) (call_norms c) (call_tex c)
         (call_epsilon c) (call_range c)).

(** The batch after a sequence of calls. *)
Definition add_triangles (b : GLTriangleBatch) (cs : list call) : GLTriangleBatch :=
  foldl add_triangle b cs.

(** The memory at [pIndexes] after a sequence of calls on a batch whose
    index block is fresh: offset [k] holds the index emitted at position
    [k], also when [k] lies past the end of the block. *)
Definition indexes_written (b : GLTriangleBatch) (cs : list call) : gmap Z Z :=
  snd (foldl (fun '(b, mem) c =>
                (add_triangle b c,
                 AddTriangle_writes m3dNormalizeVector3 b (call_verts c) (call_norms c)
                   (call_tex c) (call_epsilon c) (call_range c) mem))
             (b, ∅) cs).

(** Corner [iVertex] of a call, its normal already normalized. *)
Definition corner_of (c : call) (iVertex : Z) : corner :=
  Corner (at3 (call_verts c) iVertex)
         (at3_opt (map3 m3dNormalizeVector3 <$> call_norms c) iVertex)
         (at3_opt (call_tex c) iVertex).


(** The corners of a sequence of calls, in the order of their processing. *)
Definition corners (cs : list call) : list corner :=
  c ← cs; corner_of c <$> [0; 1; 2].

(** Every call of a sequence is made with a range that is at least the
    number of vertices stored at that moment. *)
Fixpoint ranges_cover (b : GLTriangleBatch) (cs : list call) : Prop :=
  match cs with
  | [] => True
  | c :: cs' =>
      nNumVerts b <= call_range c < 2 ^ 31 /\ ranges_cover (add_triangle b c) cs'
  end.

End Calls.

(** ** The corner rule, computed with the code's test *)

Definition matches (b : GLTriangleBatch) (i : Z) (c : corner) (epsilon : GLfloat) : bool :=
  vertex_matches b i (at_pos c) (at_norm c) (at_tex c) epsilon.

(** [i] is the smallest vertex number in [start, V) that matches [c]. *)
Definition first_match (b : GLTriangleBatch) (start : Z) (c : corner)
    (epsilon : GLfloat) (i : Z) : Prop :=
  start <= i < nNumVerts b /\ matches b i c epsilon = true /\
  forall j, start <= j < i -> matches b j c epsilon = false.

Definition no_match (b : GLTriangleBatch) (start : Z) (c : corner)
    (epsilon : GLfloat) : Prop :=
  forall i, start <= i < nNumVerts b -> matches b i c epsilon = false.

(** The batch once [i] is appended to the index array: [V] is unchanged. *)
Definition reuses (b : GLTriangleBatch) (i : Z) : GLTriangleBatch :=
  set_nNumIndexes (set_pIndexes b (poke (pIndexes b) (nNumIndexes b) i))
                  (nNumIndexes b + 1).

(** The batch once the attributes of [c] are stored at slot [V] (for the
    position and for every present channel), [V] is appended to the index
    array and [V] is incremented. *)
Definition appends (b : GLTriangleBatch) (c : corner) : GLTriangleBatch :=
  set_nNumVerts
    (reuses (store_vertex b (at_pos c) (at_norm c) (at_tex c)) (nNumVerts b))
    (nNumVerts b + 1).

Definition corner_rule (b : GLTriangleBatch) (start : Z) (c : corner)
    (epsilon : GLfloat) (b' : GLTriangleBatch) : Prop :=
  (exists i, first_match b start c epsilon i /\ b' = reuses b i) \/
  (no_match b start c epsilon /\ b' = appends b c).

(** The rule applied to the three corners in order; [start_of] gives the
    start of the window from the batch that a corner finds. *)
Definition triangle_rule (start_of : GLTriangleBatch -> Z) (b : GLTriangleBatch)
    (c0 c1 c2 : corner) (epsilon : GLfloat) (b' : GLTriangleBatch) : Prop :=
  exists b1 b2,
    corner_rule b (start_of b) c0 epsilon b1 /\
    corner_rule b1 (start_of b1) c1 epsilon b2 /\
    corner_rule b2 (start_of b2) c2 epsilon b'.

(** The batch that the corner rule prescribes, computed: the window is
    scanned upwards from [start]. *)
Definition corner_rule_result (b : GLTriangleBatch) (start : Z) (c : corner)
    (epsilon : GLfloat) : GLTriangleBatch :=
  let '(hit, i) :=
    search b (at_pos c) (at_norm c) (at_tex c) epsilon
           (Z.to_nat (nNumVerts b - start)) start in
  if hit then reuses b i else appends b c.

Definition triangle_rule_result (start_of : GLTriangleBatch -> Z)
    (b : GLTriangleBatch) (c0 c1 c2 : corner) (epsilon : GLfloat) : GLTriangleBatch :=
  let b1 := corner_rule_result b (start_of b) c0 epsilon in
  let b2 := corner_rule_result b1 (start_of b1) c1 epsilon in
  corner_rule_result b2 (start_of b2) c2 epsilon.

(** Two corners agree on the position and on every channel that [b] has. *)
Definition same_attributes (b : GLTriangleBatch) (c1 c2 : corner) : Prop :=
  at_pos c1 = at_pos c2 /\
  (hasN b = true -> at_norm c1 = at_norm c2) /\
  (hasT b = true -> at_tex c1 = at_tex c2).

Definition finite3 (v : M3DVector3f) : Prop :=
  f32_finite (v3_0 v) = true /\ f32_finite (v3_1 v) = true /\ f32_finite (v3_2 v) = true.

Definition finite2 (t : M3DVector2f) : Prop :=
  f32_finite (v2_0 t) = true /\ f32_finite (v2_1 t) = true.

(** The position and every attribute on a channel that [b] has are finite
    numbers. *)
Definition finite_attributes (b : GLTriangleBatch) (c : corner) : Prop :=
  finite3 (at_pos c) /\
  (hasN b = true -> finite3 (at_norm c)) /\
  (hasT b = true -> finite2 (at_tex c)).

(** A call that releases no channel of [b]. *)
Definition keeps_channels (b : GLTriangleBatch) (c : call) : Prop :=
  (hasN b = true -> is_Some (call_norms c)) /\
  (hasT b = true -> is_Some (call_tex c)).

(** ** The corner rule in the words of the spec *)

(** [close(a, b, eps)] on each component. *)
Definition within_epsilon3 (u v : M3DVector3f) (epsilon : GLfloat) : bool :=
  m3dCloseEnough (v3_0 u) (v3_0 v) epsilon &&
  m3dCloseEnough (v3_1 u) (v3_1 v) epsilon &&
  m3dCloseEnough (v3_2 u) (v3_2 v) epsilon.

Definition within_epsilon2 (u v : M3DVector2f) (epsilon : GLfloat) : bool :=
  m3dCloseEnough (v2_0 u) (v2_0 v) epsilon &&
  m3dCloseEnough (v2_1 u) (v2_1 v) epsilon.

(** Stored vertex [i] matches the corner: on the position, and on the
    normal and on the texture coordinates when the batch has the channel,
    each component is within [epsilon]. *)
Definition stored_vertex_matches (b : GLTriangleBatch) (i : Z) (c : corner)
    (epsilon : GLfloat) : bool :=
  within_epsilon3 (peek (pVerts b) i) (at_pos c) epsilon &&
  implb (hasN b) (within_epsilon3 (peek (pNorms b) i) (at_norm c) epsilon) &&
  implb (hasT b) (within_epsilon2 (peek (pTexCoords b) i) (at_tex c) epsilon).

(** Array [p'] is array [p] with [x] in slot [k], a slot that it has. *)
Definition slot_written {A} (p : ptr A) (k : Z) (x : A) (p' : ptr A) : Prop :=
  cells p' !! Z.to_nat k = Some x /\
  length (cells p') = length (cells p) /\
  forall j : nat, j <> Z.to_nat k -> cells p' !! j = cells p !! j.

(** [i] is appended to the index array. *)
Definition index_appended (b : GLTriangleBatch) (i : Z) (b' : GLTriangleBatch) : Prop :=
  slot_written (pIndexes b) (nNumIndexes b) i (pIndexes b') /\
  nNumIndexes b' = nNumIndexes b + 1.

(** [i] is appended to the index array and [V] and the vertices stay. *)
Definition vertex_reused (b : GLTriangleBatch) (i : Z) (b' : GLTriangleBatch) : Prop :=
  index_appended b i b' /\ nNumVerts b' = nNumVerts b /\
  pVerts b' = pVerts b /\ pNorms b' = pNorms b /\ pTexCoords b' = pTexCoords b.

(** The attributes of [c] are stored at slot [V], for the position and for
    every channel that the batch has, [V] is appended to the index array
    and [V] grows by one. *)
Definition vertex_appended (b : GLTriangleBatch) (c : corner) (b' : GLTriangleBatch)
    : Prop :=
  slot_written (pVerts b) (nNumVerts b) (at_pos c) (pVerts b') /\
  (if hasN b then slot_written (pNorms b) (nNumVerts b) (at_norm c) (pNorms b')
   else pNorms b' = nullptr) /\
  (if hasT b then slot_written (pTexCoords b) (nNumVerts b) (at_tex c) (pTexCoords b')
   else pTexCoords b' = nullptr) /\
  index_appended b (nNumVerts b) b' /\ nNumVerts b' = nNumVerts b + 1.

(** The rule for one corner, with the window [start, V). *)
Definition corner_rule_of_spec (b : GLTriangleBatch) (start : Z) (c : corner)
    (epsilon : GLfloat) (b' : GLTriangleBatch) : Prop :=
  (exists i, start <= i < nNumVerts b /\
     stored_vertex_matches b i c epsilon = true /\
     (forall j, start <= j < i -> stored_vertex_matches b j c epsilon = false) /\
     vertex_reused b i b') \/
  ((forall i, start <= i < nNumVerts b -> stored_vertex_matches b i c epsilon = false) /\
   vertex_appended b c b').

(** The rule for the three corners of a call in order, the start of the
    window being the same for the three. *)
Definition triangle_rule_of_spec (start : Z) (b : GLTriangleBatch) (c0 c1 c2 : corner)
    (epsilon : GLfloat) (b' : GLTriangleBatch) : Prop :=
  exists b1 b2,
    corner_rule_of_spec b start c0 epsilon b1 /\
    corner_rule_of_spec b1 start c1 epsilon b2 /\
    corner_rule_of_spec b2 start c2 epsilon b'.

(** The batch that the corners of a call find: a channel whose argument is
    null is gone, a channel whose argument is given is as it was. *)
Definition channels_given (b : GLTriangleBatch) (vNorms : option (array3 M3DVector3f))
    (vTexCoords : option (array3 M3DVector2f)) : GLTriangleBatch :=
  set_pTexCoords
    (set_pNorms b (if vNorms is Some _ then pNorms b else nullptr))
    (if vTexCoords is Some _ then pTexCoords b else nullptr).

(** ** The state of a batch under assembly *)

(** The four blocks, when present, have [nMaxIndexes] cells, the counters
    are 32-bit values, and [V] is within the capacity. *)
Definition batch_ok (b : GLTriangleBatch) : Prop :=
  0 <= nMaxIndexes b < 2 ^ 32 /\
  0 <= nNumVerts b <= nMaxIndexes b /\
  0 <= nNumIndexes b < 2 ^ 32 /\
  (exists l, pIndexes b = block l /\ length l = Z.to_nat (nMaxIndexes b)) /\
  (exists l, pVerts b = block l /\ length l = Z.to_nat (nMaxIndexes b)) /\
  (pNorms b = nullptr \/
   exists l, pNorms b = block l /\ length l = Z.to_nat (nMaxIndexes b)) /\
  (pTexCoords b = nullptr \/
   exists l, pTexCoords b = block l /\ length l = Z.to_nat (nMaxIndexes b)).

(** Every slot of the index array below [I] holds the number of a stored
    vertex. *)
Definition indices_valid (b : GLTriangleBatch) : Prop :=
  forall k v, 0 <= k < nNumIndexes b ->
    cells (pIndexes b) !! Z.to_nat k = Some v -> 0 <= v < nNumVerts b.

(** [mem] is the memory at [pIndexes] of the batch [b]: every position
    below [I] was stored to, every value stored is the number of a stored
    vertex, and the cells of the block hold what was stored to them. *)
Definition writes_ok (b : GLTriangleBatch) (mem : gmap Z Z) : Prop :=
  (forall k, 0 <= k < nNumIndexes b -> is_Some (mem !! k)) /\
  (forall k v, mem !! k = Some v -> 0 <= k /\ 0 <= v < nNumVerts b) /\
  (forall k v, k < nMaxIndexes b -> mem !! k = Some v ->
     cells (pIndexes b) !! Z.to_nat k = Some v).

(** The corners [cs] were emitted, in this order, from slot [first] of the
    index array on, and the slot of each corner with finite attributes holds
    the smallest stored vertex that matches it. *)
Definition logged (b : GLTriangleBatch) (first : Z) (epsilon : GLfloat)
    (cs : list corner) : Prop :=
  nNumIndexes b = first + Z.of_nat (length cs) /\
  forall (k : nat) (c : corner), cs !! k = Some c -> finite_attributes b c ->
    exists i, cells (pIndexes b) !! Z.to_nat (first + Z.of_nat k) = Some i /\
              first_match b 0 c epsilon i.

(** [b'] continues [b]: no count has gone down, and no more vertices than
    indices were added; the capacity and the graphics side are those of
    [b]; a channel that [b] lacks is lacking in [b'] too; the vertices that
    [b] holds are in place, on every channel that [b'] still has; and so
    are the indices that [b] holds. *)
Definition continues (b b' : GLTriangleBatch) : Prop :=
  nNumVerts b <= nNumVerts b' /\ nNumIndexes b <= nNumIndexes b' /\
  nNumVerts b' - nNumVerts b <= nNumIndexes b' - nNumIndexes b /\
  (nMaxIndexes b' = nMaxIndexes b /\ bufferObjects b' = bufferObjects b /\
   bMadeStuff b' = bMadeStuff b /\
   boundingSphereRadius b' = boundingSphereRadius b) /\
  ((pNorms b = nullptr -> pNorms b' = nullptr) /\
   (pTexCoords b = nullptr -> pTexCoords b' = nullptr)) /\
  (forall k, 0 <= k < nNumVerts b ->
     cells (pVerts b') !! Z.to_nat k = cells (pVerts b) !! Z.to_nat k /\
     (pNorms b' = nullptr \/
      cells (pNorms b') !! Z.to_nat k = cells (pNorms b) !! Z.to_nat k) /\
     (pTexCoords b' = nullptr \/
      cells (pTexCoords b') !! Z.to_nat k = cells (pTexCoords b) !! Z.to_nat k)) /\
  (forall k, 0 <= k < nNumIndexes b ->
     cells (pIndexes b') !! Z.to_nat k = cells (pIndexes b) !! Z.to_nat k).

(** ** Sample data *)

Module Sample.

(** The integer [z] as a binary32 value. *)
Definition num (z : Z) : GLfloat := f32_of z 0.

Definition pos (x y z : Z) : M3DVector3f := Vec3 (num x) (num y) (num z).

Definition half : GLfloat := f32_of 1 (-1).

(** Modelled from the spec: the 3-vector normalizer, here each component
    divided by the Euclidean length, in binary32. *)
Definition unit_length (u : M3DVector3f) : M3DVector3f :=
  let len := f32_sqrt (m3dGetVectorLengthSquared3 u) in
  Vec3 (SFdiv 24 128 (v3_0 u) len) (SFdiv 24 128 (v3_1 u) len)
       (SFdiv 24 128 (v3_2 u) len).

(** The triangle of scenario S1 and three others. *)
Definition abc : array3 M3DVector3f := (pos 0 0 0, pos 1 0 0, pos 0 1 0).
Definition dec : array3 M3DVector3f := (pos 5 0 0, pos 6 0 0, pos 0 1 0).
Definition def : array3 M3DVector3f := (pos 5 0 0, pos 6 0 0, pos 7 1 0).
Definition ghi : array3 M3DVector3f := (pos 8 0 0, pos 9 0 0, pos 10 1 0).

(** A triangle whose first two corners share their position, and one whose
    first corner has a NaN in it. *)
Definition aab : array3 M3DVector3f := (pos 0 0 0, pos 0 0 0, pos 1 0 0).
Definition nan_bc : array3 M3DVector3f :=
  (Vec3 S754_nan (num 0) (num 0), pos 1 0 0, pos 0 1 0).

Definition up : array3 M3DVector3f := (pos 0 0 2, pos 0 0 3, pos 0 0 4).
Definition uv : array3 M3DVector2f :=
  (Vec2 (num 0) (num 0), Vec2 (num 1) (num 0), Vec2 (num 0) (num 1)).

(** A call without normals and without texture coordinates. *)
Definition bare (verts : array3 M3DVector3f) (epsilon : GLfloat) (range : Z) : call :=
  Call verts None None epsilon range.

Definition full (verts : array3 M3DVector3f) (epsilon : GLfloat) (range : Z) : call :=
  Call verts (Some up) (Some uv) epsilon range.

Definition begun (n : Z) : GLTriangleBatch := BeginMesh GLTriangleBatch_new n.

(** The binary32 quotient of two integers. *)
Definition ratio (p q : Z) : GLfloat := SFdiv 24 128 (num p) (num q).

(** The triangle of scenarios S2 and S3, its second corner moved by 5e-4. *)
Definition nudged : array3 M3DVector3f :=
  (pos 0 0 0, Vec3 (ratio 10005 10000) (num 0) (num 0), pos 0 1 0).

(** Scenario S1: the same triangle three times, then [End]. *)
Definition s1 : GLTriangleBatch :=
  End_ (add_triangles unit_length (begun 100)
          [bare abc half 64; bare abc half 64; bare abc half 64]).

(** A stream that ends two bytes into its normal block: three indices,
    three positions at the origin. *)
Definition short_stream : FILE :=
  [x03; x00; x00; x00] ++ [x03; x00; x00; x00] ++ [x00; x00; x00; x00] ++
  [x00; x00; x01; x00; x02; x00] ++ replicate 36 x00 ++ [x00; x00].

End Sample.

(** ** binary32 facts *)

Lemma f32_sub_diag (x : GLfloat) :
  f32_finite x = true -> f32_sub x x = f32_zero.
Proof.
  destruct x as [s|s| |s m e]; try discriminate; intros _.
  - by destruct s.
  - unfold f32_sub, SFsub. by rewrite Z.sub_diag.
Qed.

Lemma m3dCloseEnough_refl (x epsilon : GLfloat) :
  f32_finite x = true -> SFltb f32_zero epsilon = true ->
  m3dCloseEnough x x epsilon = true.
Proof.
  intros Hx He. unfold m3dCloseEnough. by rewrite f32_sub_diag.
Qed.

Lemma m3dCloseEnough_zero (a b : GLfloat) : m3dCloseEnough a b f32_zero = false.
Proof.
  unfold m3dCloseEnough. by destruct (f32_sub a b).
Qed.

(** ** Machine integer facts *)

Lemma GLuint_of_small z : 0 <= z < 2 ^ 32 -> GLuint_of z = z.
Proof. intros. unfold GLuint_of. by apply Z.mod_small. Qed.

Lemma GLushort_of_small z : 0 <= z < 2 ^ 16 -> GLushort_of z = z.
Proof. intros. unfold GLushort_of. by apply Z.mod_small. Qed.

Lemma GLushort_of_le z : 0 <= z -> 0 <= GLushort_of z <= z.
Proof.
  intros. unfold GLushort_of. split.
  - apply Z.mod_pos_bound. lia.
  - apply Z.mod_le; lia.
Qed.

Lemma GLuint_of_succ z :
  0 <= z < 2 ^ 32 -> GLuint_of (z + 1) = z + 1 \/ GLuint_of (z + 1) = 0.
Proof.
  intros. destruct (decide (z + 1 = 2 ^ 32)) as [->|].
  - by right.
  - left. apply GLuint_of_small. lia.
Qed.

(** ** The matching loop and one corner *)

Lemma search_spec b v n t eps trips i0 :
  (forall j, i0 <= j < (search b v n t eps trips i0).2 ->
     vertex_matches b j v n t eps = false) /\
  if (search b v n t eps trips i0).1
  then i0 <= (search b v n t eps trips i0).2 < i0 + Z.of_nat trips /\
       vertex_matches b (search b v n t eps trips i0).2 v n t eps = true
  else (search b v n t eps trips i0).2 = i0 + Z.of_nat trips.
Proof.
  revert i0. induction trips as [|trips IH]; intros i0.
  - simpl. split; lia.
  - cbn [search]. destruct (vertex_matches b i0 v n t eps) eqn:Hm.
    + cbn [fst snd]. split; [lia|]. split; [lia|done].
    + destruct (IH (i0 + 1)) as [Hlt Hr]. split.
      * intros j Hj. destruct (decide (j = i0)) as [->|]; [done|]. apply Hlt. lia.
      * destruct (search b v n t eps trips (i0 + 1)).1; [split; [lia|tauto]|lia].
Qed.

Lemma nNumVerts_store_vertex b v n t :
  nNumVerts (store_vertex b v n t) = nNumVerts b.
Proof.
  destruct b as [pI pV pN pT nMax nI nV g m r].
  by destruct pN, pT.
Qed.

Lemma add_corner_outcome b start v n t eps :
  (exists i, first_match b start (Corner v n t) eps i /\
     add_corner b start v n t eps = emit_index b i) \/
  (no_match b start (Corner v n t) eps /\
     start <= nNumVerts b /\ nNumVerts b < nMaxIndexes b /\
     nNumIndexes b < nMaxIndexes b /\
     add_corner b start v n t eps =
       set_nNumVerts (emit_index (store_vertex b v n t) (nNumVerts b))
                     (GLuint_of (nNumVerts b + 1))) \/
  (no_match b start (Corner v n t) eps /\
     (nNumVerts b < start \/ nMaxIndexes b <= nNumVerts b \/
      nMaxIndexes b <= nNumIndexes b) /\
     add_corner b start v n t eps = b).
Proof.
  unfold add_corner, first_match, no_match, matches. cbn [at_pos at_norm at_tex].
  pose proof (search_spec b v n t eps (Z.to_nat (nNumVerts b - start)) start) as [Hlt Hr].
  destruct (search b v n t eps (Z.to_nat (nNumVerts b - start)) start) as [hit i].
  cbn [fst snd] in *. destruct hit.
  - left. exists i. destruct Hr as [Hi Hm].
    assert (i <> nNumVerts b) as Hne by lia.
    apply Z.eqb_neq in Hne. cbn. rewrite Hne. cbn.
    split; [|done]. split; [lia|]. split; [done|]. intros j Hj. apply Hlt. lia.
  - right. destruct (decide (start <= nNumVerts b)) as [Hle|Hgt].
    + assert (i = nNumVerts b) as -> by lia. rewrite Z.eqb_refl. cbn [andb].
      destruct (nNumVerts b <? nMaxIndexes b) eqn:HV; cbn [andb].
      * destruct (nNumIndexes b <? nMaxIndexes b) eqn:HI.
        -- left. split; [done|]. split; [done|].
           split; [lia|]. split; [lia|].
           cbn. by rewrite nNumVerts_store_vertex.
        -- right. split; [done|]. split; [lia|done].
      * right. split; [done|]. split; [lia|done].
    + right. split; [intros j Hj; lia|]. split; [lia|].
      assert (i <> nNumVerts b) as Hne by lia.
      apply Z.eqb_neq in Hne. by rewrite Hne.
Qed.

(** ** Well-formed batches *)

Lemma emit_index_ok b i : batch_ok b -> batch_ok (emit_index b i).
Proof.
  destruct b as [pI pV pN pT nMax nI nV g m r].
  unfold batch_ok; cbn. intros (HM & HV & HI & (l & -> & Hl) & HpV & HpN & HpT).
  repeat split; try done; try lia.
  - apply Z.mod_pos_bound. lia.
  - apply Z.mod_pos_bound. lia.
  - cbn. eexists. split; [done|]. by rewrite length_insert.
Qed.

Lemma store_vertex_ok b v n t : batch_ok b -> batch_ok (store_vertex b v n t).
Proof.
  destruct b as [pI pV pN pT nMax nI nV g m r].
  unfold batch_ok; cbn.
  intros (HM & HV & HI & HpI & (l & -> & Hl) & HpN & HpT).
  assert (exists l', block (<[Z.to_nat nV:=v]> l) = block l' /\
                     length l' = Z.to_nat nMax) as HpV'.
  { eexists. split; [done|]. by rewrite length_insert. }
  destruct HpN as [->|(ln & -> & Hln)], HpT as [->|(lt & -> & Hlt)]; cbn;
    repeat split; try done; try lia; try (by left);
    right; eexists; (split; [done|]); by rewrite length_insert.
Qed.

Lemma set_nNumVerts_ok b V' :
  batch_ok b -> 0 <= V' <= nMaxIndexes b -> batch_ok (set_nNumVerts b V').
Proof.
  destruct b as [pI pV pN pT nMax nI nV g m r].
  unfold batch_ok; cbn. intros (HM & HV & HI & HpI & HpV & HpN & HpT) HV'.
  repeat split; try done; lia.
Qed.

Lemma add_corner_ok b start v n t eps :
  batch_ok b -> batch_ok (add_corner b start v n t eps).
Proof.
  intros Hok.
  destruct (add_corner_outcome b start v n t eps)
    as [(i & _ & ->)|[(_ & _ & HV & _ & ->)|(_ & _ & ->)]]; [|
    |done].
  - by apply emit_index_ok.
  - assert (0 <= nNumVerts b) by (destruct Hok as (_ & ? & _); lia).
    assert (nMaxIndexes b < 2 ^ 32) by (destruct Hok as (? & _); lia).
    apply set_nNumVerts_ok.
    + by apply emit_index_ok, store_vertex_ok.
    + rewrite GLuint_of_small by lia.
      destruct b as [pI pV pN pT nMax nI nV g m r]. destruct pN, pT; cbn in *; lia.
Qed.

(** ** Valid indices *)

Lemma emit_index_valid b i :
  batch_ok b -> indices_valid b -> 0 <= i < nNumVerts b ->
  indices_valid (emit_index b i).
Proof.
  destruct b as [pI pV pN pT nMax nI nV g m r].
  unfold batch_ok, indices_valid; cbn.
  intros (HM & HV & HI & (l & -> & Hl) & _) Hval Hi k v Hk. cbn.
  destruct (GLuint_of_succ nI HI) as [Hs|Hs]; rewrite Hs in Hk; [|lia].
  destruct (decide (k = nI)) as [->|Hne].
  - intros Hlook. apply list_lookup_insert_Some in Hlook as [(_ & <- & _)|(? & _)]; [|done].
    pose proof (GLushort_of_le i). lia.
  - rewrite list_lookup_insert_ne by lia. apply Hval. lia.
Qed.

Lemma indices_valid_store_vertex b v n t :
  indices_valid b -> indices_valid (store_vertex b v n t).
Proof.
  destruct b as [pI pV pN pT nMax nI nV g m r].
  unfold indices_valid. by destruct pN, pT.
Qed.

Lemma indices_valid_grow b V' :
  indices_valid b -> nNumVerts b <= V' -> indices_valid (set_nNumVerts b V').
Proof.
  destruct b as [pI pV pN pT nMax nI nV g m r].
  unfold indices_valid; cbn. intros Hval HV k v Hk Hlook.
  specialize (Hval k v Hk Hlook). lia.
Qed.

Lemma append_valid b v n t :
  batch_ok b -> indices_valid b -> nNumVerts b < nMaxIndexes b ->
  indices_valid (set_nNumVerts (emit_index (store_vertex b v n t) (nNumVerts b))
                               (GLuint_of (nNumVerts b + 1))).
Proof.
  destruct b as [pI pV pN pT nMax nI nV g m r].
  unfold batch_ok, indices_valid; cbn.
  intros (HM & HV & HI & (l & -> & Hl) & _) Hval HVN.
  rewrite (GLuint_of_small (nV + 1)) by lia.
  assert (forall k v, 0 <= k < GLuint_of (nI + 1) ->
            <[Z.to_nat nI:=GLushort_of nV]> l !! Z.to_nat k = Some v ->
            0 <= v < nV + 1) as Hgoal.
  { intros k w Hk.
    destruct (GLuint_of_succ nI HI) as [Hs|Hs]; rewrite Hs in Hk; [|lia].
    destruct (decide (k = nI)) as [->|Hne].
    - intros Hlook.
      apply list_lookup_insert_Some in Hlook as [(_ & <- & _)|(? & _)]; [|done].
      pose proof (GLushort_of_le nV). lia.
    - rewrite list_lookup_insert_ne by lia. intros Hlook.
      assert (0 <= w < nV) by (apply (Hval k); [lia|done]). lia. }
  destruct pN, pT; cbn; apply Hgoal.
Qed.

Lemma add_corner_valid b start v n t eps :
  batch_ok b -> indices_valid b -> 0 <= start ->
  indices_valid (add_corner b start v n t eps).
Proof.
  intros Hok Hval Hstart.
  destruct (add_corner_outcome b start v n t eps)
    as [(i & (Hi & _) & ->)|[(_ & _ & HV & _ & ->)|(_ & _ & ->)]]; [| |done].
  - apply emit_index_valid; [done|done|lia].
  - by apply append_valid.
Qed.

Lemma search_start_nonneg b range : 0 <= search_start b range.
Proof. unfold search_start. case_match; [lia|]. by apply Z.ltb_ge. Qed.

Lemma release_channels_ok b vNorms vTexCoords :
  batch_ok b -> batch_ok (release_channels b vNorms vTexCoords).
Proof.
  destruct b as [pI pV pN pT nMax nI nV g m r].
  unfold batch_ok, release_channels; cbn.
  intros (HM & HV & HI & HpI & HpV & HpN & HpT).
  repeat case_match; cbn; repeat split; try done; try lia; by left.
Qed.

Lemma release_channels_valid b vNorms vTexCoords :
  indices_valid b -> indices_valid (release_channels b vNorms vTexCoords).
Proof.
  destruct b as [pI pV pN pT nMax nI nV g m r].
  unfold indices_valid, release_channels; cbn. by repeat case_match.
Qed.

Lemma BeginMesh_ok b n :
  0 <= n < 2 ^ 32 -> batch_ok (BeginMesh b n) /\ indices_valid (BeginMesh b n).
Proof.
  intros Hn. split.
  - unfold batch_ok; cbn. repeat split; try lia;
      try right; eexists; (split; [done|]); by rewrite length_replicate.
  - intros k v Hk. cbn in Hk. lia.
Qed.

(** ** A corner that finds room *)

Lemma int_of_small z : - 2 ^ 31 <= z < 2 ^ 31 -> int_of z = z.
Proof.
  intros Hz. unfold int_of, GLuint_of.
  destruct (decide (0 <= z)) as [Hpos|Hneg].
  - rewrite Z.mod_small by lia. case_match; [done|]. apply Z.ltb_ge in H. lia.
  - replace (z mod 2 ^ 32) with (z + 2 ^ 32).
    + case_match; [|lia]. apply Z.ltb_lt in H. lia.
    + apply Z.mod_unique with (-1); lia.
Qed.

Lemma search_start_window b range :
  - 2 ^ 31 <= nNumVerts b - range < 2 ^ 31 ->
  search_start b range = Z.max 0 (nNumVerts b - range).
Proof.
  intros Hr. unfold search_start. rewrite int_of_small by lia.
  case_match; [apply Z.ltb_lt in H|apply Z.ltb_ge in H]; lia.
Qed.

Lemma emit_index_reuses b i :
  0 <= i < 2 ^ 16 -> 0 <= nNumIndexes b < 2 ^ 32 - 1 -> emit_index b i = reuses b i.
Proof.
  intros Hi HI. unfold emit_index, reuses.
  by rewrite GLushort_of_small, GLuint_of_small by lia.
Qed.

Lemma nNumIndexes_store_vertex b v n t :
  nNumIndexes (store_vertex b v n t) = nNumIndexes b.
Proof.
  destruct b as [pI pV pN pT nMax nI nV g m r]. by destruct pN, pT.
Qed.

Lemma nMaxIndexes_store_vertex b v n t :
  nMaxIndexes (store_vertex b v n t) = nMaxIndexes b.
Proof.
  destruct b as [pI pV pN pT nMax nI nV g m r]. by destruct pN, pT.
Qed.

(** A corner that finds room follows the corner rule. *)
Lemma add_corner_room b start v n t eps :
  batch_ok b -> 0 <= start <= nNumVerts b ->
  nNumVerts b <= nNumIndexes b -> nNumIndexes b < nMaxIndexes b ->
  nMaxIndexes b <= 2 ^ 16 ->
  corner_rule b start (Corner v n t) eps (add_corner b start v n t eps) /\
  nNumIndexes (add_corner b start v n t eps) = nNumIndexes b + 1 /\
  nNumVerts b <= nNumVerts (add_corner b start v n t eps) <= nNumIndexes b + 1 /\
  nMaxIndexes (add_corner b start v n t eps) = nMaxIndexes b.
Proof.
  intros Hok Hstart HVI HI HN.
  assert (0 <= nNumVerts b) as HV0 by lia.
  destruct (add_corner_outcome b start v n t eps)
    as [(i & Hfirst & ->)|[(Hno & _ & HV & _ & ->)|(_ & Hfull & _)]]; [| |lia].
  - assert (0 <= i < nNumVerts b) as Hi by (destruct Hfirst as (? & _); lia).
    rewrite emit_index_reuses by lia.
    split; [left; by exists i|]. cbn. lia.
  - rewrite emit_index_reuses, GLuint_of_small;
      rewrite ?nNumIndexes_store_vertex; try lia.
    split; [right; split; [done|]|].
    + unfold appends. cbn [at_pos at_norm at_tex]. done.
    + cbn. rewrite nNumIndexes_store_vertex, nMaxIndexes_store_vertex. lia.
Qed.

Lemma release_channels_counters b vNorms vTexCoords :
  nNumVerts (release_channels b vNorms vTexCoords) = nNumVerts b /\
  nNumIndexes (release_channels b vNorms vTexCoords) = nNumIndexes b /\
  nMaxIndexes (release_channels b vNorms vTexCoords) = nMaxIndexes b.
Proof.
  destruct b as [pI pV pN pT nMax nI nV g m r].
  unfold release_channels; cbn. by repeat case_match.
Qed.

(** ** Counters *)

Lemma add_corner_counts b start v n t eps :
  batch_ok b -> nNumVerts b <= nNumIndexes b -> nNumIndexes b < 2 ^ 32 - 1 ->
  nNumVerts (add_corner b start v n t eps) <= nNumIndexes (add_corner b start v n t eps) /\
  nNumIndexes (add_corner b start v n t eps) <= nNumIndexes b + 1 /\
  nMaxIndexes (add_corner b start v n t eps) = nMaxIndexes b.
Proof.
  intros Hok HVI HI.
  assert (0 <= nNumVerts b <= nMaxIndexes b /\ nMaxIndexes b < 2 ^ 32) as HV0
    by (destruct Hok as (? & ? & _); lia).
  destruct (add_corner_outcome b start v n t eps)
    as [(i & _ & ->)|[(_ & _ & HV & _ & ->)|(_ & _ & ->)]]; [| |lia].
  - cbn. rewrite GLuint_of_small by lia. lia.
  - cbn. rewrite nNumIndexes_store_vertex, nMaxIndexes_store_vertex.
    rewrite !GLuint_of_small by lia. lia.
Qed.

(** ** Matching against a growing batch *)

Lemma peek_poke_ne {A} `{Inhabited A} (p : ptr A) i j x :
  0 <= i -> 0 <= j -> i <> j -> peek (poke p i x) j = peek p j.
Proof.
  intros Hi Hj Hne. destruct p; try done.
  unfold peek; cbn. apply list_lookup_total_insert_ne. lia.
Qed.

Lemma peek_poke_eq {A} `{Inhabited A} (l : list A) i x :
  0 <= i -> (Z.to_nat i < length l)%nat -> peek (poke (block l) i x) i = x.
Proof.
  intros Hi Hl. unfold peek; cbn. by apply list_lookup_total_insert_eq.
Qed.

Lemma matches_reuses b i j c eps : matches (reuses b i) j c eps = matches b j c eps.
Proof. by destruct b. Qed.

Lemma matches_appends_lt b c j c' eps :
  0 <= j < nNumVerts b -> matches (appends b c) j c' eps = matches b j c' eps.
Proof.
  intros Hj. destruct b as [pI pV pN pT nMax nI nV g m r]. cbn in Hj.
  unfold matches, vertex_matches, close_pos, close_norm, close_tex, appends.
  destruct pN, pT; cbn -[peek poke]; rewrite ?peek_poke_ne by lia; done.
Qed.

Lemma close_refl_3 (v : M3DVector3f) eps :
  finite3 v -> SFltb f32_zero eps = true ->
  m3dCloseEnough (v3_0 v) (v3_0 v) eps && m3dCloseEnough (v3_1 v) (v3_1 v) eps
  && m3dCloseEnough (v3_2 v) (v3_2 v) eps = true.
Proof.
  intros (H0 & H1 & H2) He. by rewrite !m3dCloseEnough_refl.
Qed.

Lemma close_refl_2 (t : M3DVector2f) eps :
  finite2 t -> SFltb f32_zero eps = true ->
  m3dCloseEnough (v2_0 t) (v2_0 t) eps && m3dCloseEnough (v2_1 t) (v2_1 t) eps = true.
Proof.
  intros (H0 & H1) He. by rewrite !m3dCloseEnough_refl.
Qed.

Lemma matches_appends_self b c eps :
  batch_ok b -> nNumVerts b < nMaxIndexes b ->
  finite_attributes b c -> SFltb f32_zero eps = true ->
  matches (appends b c) (nNumVerts b) c eps = true.
Proof.
  destruct b as [pI pV pN pT nMax nI nV g m r].
  unfold batch_ok, finite_attributes, hasN, hasT; cbn.
  intros (HM & HV & HI & _ & (lv & -> & Hlv) & HpN & HpT) HVN (Fp & Fn & Ft) He.
  unfold matches, vertex_matches, close_pos, close_norm, close_tex, appends.
  destruct HpN as [->|(ln & -> & Hln)], HpT as [->|(lt & -> & Hlt)];
    cbn -[peek poke]; rewrite ?peek_poke_eq by lia;
    rewrite ?close_refl_3, ?close_refl_2 by auto; done.
Qed.

Lemma matches_same_attributes b j c1 c2 eps :
  same_attributes b c1 c2 -> matches b j c1 eps = matches b j c2 eps.
Proof.
  unfold same_attributes, hasN, hasT, matches, vertex_matches, close_norm, close_tex,
    close_pos.
  intros (-> & Hn & Ht).
  destruct (non_null (pNorms b)), (non_null (pTexCoords b)); cbn;
    rewrite ?Hn, ?Ht by done; done.
Qed.

Lemma first_match_unique b start c eps i1 i2 :
  first_match b start c eps i1 -> first_match b start c eps i2 -> i1 = i2.
Proof.
  intros (H1 & M1 & L1) (H2 & M2 & L2).
  destruct (Z.lt_trichotomy i1 i2) as [Hlt|[->|Hgt]]; [|done|].
  - rewrite L2 in M1 by lia. done.
  - rewrite L1 in M2 by lia. done.
Qed.

Lemma channels_reuses b i :
  hasN (reuses b i) = hasN b /\ hasT (reuses b i) = hasT b.
Proof. by destruct b. Qed.

Lemma channels_appends b c :
  hasN (appends b c) = hasN b /\ hasT (appends b c) = hasT b.
Proof.
  destruct b as [pI pV pN pT nMax nI nV g m r]. by destruct pN, pT.
Qed.

(** ** The log of emitted corners *)

Lemma cells_poke {A} (p : ptr A) i x : cells (poke p i x) = <[Z.to_nat i:=x]> (cells p).
Proof. by destruct p. Qed.

Lemma indexes_reuses b i :
  cells (pIndexes (reuses b i)) = <[Z.to_nat (nNumIndexes b):=i]> (cells (pIndexes b)).
Proof. destruct b. cbn. apply cells_poke. Qed.

Lemma indexes_appends b c :
  cells (pIndexes (appends b c)) =
  <[Z.to_nat (nNumIndexes b):=nNumVerts b]> (cells (pIndexes b)).
Proof.
  destruct b as [pI pV pN pT nMax nI nV g m r]. destruct pN, pT; cbn; apply cells_poke.
Qed.

Lemma nNumVerts_appends b c : nNumVerts (appends b c) = nNumVerts b + 1.
Proof. by destruct b. Qed.

Lemma first_match_reuses b i start c eps i0 :
  first_match b start c eps i0 -> first_match (reuses b i) start c eps i0.
Proof.
  intros (Hi & Hm & Hl). unfold first_match.
  rewrite matches_reuses. split; [by destruct b|]. split; [done|].
  intros j Hj. rewrite matches_reuses. by apply Hl.
Qed.

Lemma first_match_appends b c start c0 eps i0 :
  0 <= start -> first_match b start c0 eps i0 ->
  first_match (appends b c) start c0 eps i0.
Proof.
  intros Hs (Hi & Hm & Hl). unfold first_match.
  rewrite nNumVerts_appends, matches_appends_lt by lia.
  split; [lia|]. split; [done|].
  intros j Hj. rewrite matches_appends_lt by lia. by apply Hl.
Qed.

Lemma finite_attributes_channels b b' c :
  hasN b' = hasN b -> hasT b' = hasT b ->
  finite_attributes b' c -> finite_attributes b c.
Proof. unfold finite_attributes. by intros -> ->. Qed.

Lemma add_corner_logged b first eps cs c :
  batch_ok b -> 0 <= first ->
  nNumVerts b <= nNumIndexes b -> nNumIndexes b < nMaxIndexes b ->
  nMaxIndexes b <= 2 ^ 16 -> SFltb f32_zero eps = true ->
  logged b first eps cs ->
  logged (add_corner b 0 (at_pos c) (at_norm c) (at_tex c) eps) first eps (cs ++ [c]) /\
  hasN (add_corner b 0 (at_pos c) (at_norm c) (at_tex c) eps) = hasN b /\
  hasT (add_corner b 0 (at_pos c) (at_norm c) (at_tex c) eps) = hasT b.
Proof.
  intros Hok Hfirst HVI HI HN He (Hlen & Hlog).
  assert (0 <= nNumVerts b) as HV0 by (destruct Hok as (_ & ? & _); lia).
  assert (length (cells (pIndexes b)) = Z.to_nat (nMaxIndexes b)) as Hcells.
  { destruct Hok as (_ & _ & _ & (l & -> & Hl) & _). done. }
  destruct (add_corner_room b 0 (at_pos c) (at_norm c) (at_tex c) eps)
    as (Hrule & HI' & HV' & HN'); [done|lia|done|done|done|].
  replace (Corner (at_pos c) (at_norm c) (at_tex c)) with c in Hrule by by destruct c.
  destruct Hrule as [(i & Hf & Hb')|(Hno & Hb')]; rewrite Hb' in *; clear Hb'.
  - destruct (channels_reuses b i) as (EN & ET).
    split; [|done]. split.
    + rewrite length_app. cbn [length]. lia.
    + intros k c0 Hk Hfin. rewrite indexes_reuses.
      apply lookup_app_Some in Hk as [Hk|(Hge & Hk)].
      * destruct (Hlog k c0 Hk) as (i0 & Hi0 & Hf0);
          [by apply (finite_attributes_channels _ _ _ EN ET)|].
        exists i0. apply lookup_lt_Some in Hk.
        rewrite list_lookup_insert_ne by lia.
        split; [done|]. by apply first_match_reuses.
      * apply list_lookup_singleton_Some in Hk as (Hk & <-).
        exists i. replace (first + Z.of_nat k) with (nNumIndexes b) by lia.
        rewrite list_lookup_insert_eq by lia.
        split; [done|]. by apply first_match_reuses.
  - destruct (channels_appends b c) as (EN & ET).
    split; [|done]. split.
    + rewrite length_app. cbn [length]. lia.
    + intros k c0 Hk Hfin. rewrite indexes_appends.
      apply lookup_app_Some in Hk as [Hk|(Hge & Hk)].
      * destruct (Hlog k c0 Hk) as (i0 & Hi0 & Hf0);
          [by apply (finite_attributes_channels _ _ _ EN ET)|].
        exists i0. apply lookup_lt_Some in Hk.
        rewrite list_lookup_insert_ne by lia.
        split; [done|]. by apply first_match_appends.
      * apply list_lookup_singleton_Some in Hk as (Hk & <-).
        exists (nNumVerts b). replace (first + Z.of_nat k) with (nNumIndexes b) by lia.
        rewrite list_lookup_insert_eq by lia.
        split; [done|]. unfold first_match. rewrite nNumVerts_appends.
        split; [lia|]. split.
        -- apply matches_appends_self; [done|lia| |done].
           by apply (finite_attributes_channels _ _ _ EN ET).
        -- intros j Hj. rewrite matches_appends_lt by lia. apply Hno. lia.
Qed.

Lemma first_match_same_attributes b start c1 c2 eps i :
  same_attributes b c1 c2 -> first_match b start c1 eps i -> first_match b start c2 eps i.
Proof.
  intros Hsame (Hi & Hm & Hl). split; [done|]. split.
  - by rewrite <- (matches_same_attributes b i c1 c2).
  - intros j Hj. rewrite <- (matches_same_attributes b j c1 c2) by done. by apply Hl.
Qed.

(** ** The corner rule determines the batch *)

Lemma corner_rule_result_spec b start c eps b' :
  corner_rule b start c eps b' -> b' = corner_rule_result b start c eps.
Proof.
  unfold corner_rule_result.
  pose proof (search_spec b (at_pos c) (at_norm c) (at_tex c) eps
                (Z.to_nat (nNumVerts b - start)) start) as [Hlt Hr].
  destruct (search b (at_pos c) (at_norm c) (at_tex c) eps
              (Z.to_nat (nNumVerts b - start)) start) as [hit i].
  cbn [fst snd] in *. fold (matches b i c eps) in Hr.
  assert (forall j, start <= j < i -> matches b j c eps = false) as Hlt' by exact Hlt.
  intros [(j & (Hj & Hm & Hl) & ->)|(Hno & ->)]; destruct hit; try done.
  - destruct Hr as [Hi Hmi]. f_equal.
    destruct (Z.lt_trichotomy i j) as [Hlt1|[->|Hgt]]; [|done|].
    + rewrite Hl in Hmi by lia. done.
    + rewrite Hlt' in Hm by lia. done.
  - rewrite Hlt' in Hm by lia. done.
  - destruct Hr as [Hi Hmi]. rewrite Hno in Hmi by lia. done.
Qed.

Lemma triangle_rule_result_spec start_of b c0 c1 c2 eps b' :
  triangle_rule start_of b c0 c1 c2 eps b' ->
  b' = triangle_rule_result start_of b c0 c1 c2 eps.
Proof.
  intros (b1 & b2 & R1 & R2 & R3). unfold triangle_rule_result.
  apply corner_rule_result_spec in R1 as ->.
  apply corner_rule_result_spec in R2 as ->.
  by apply corner_rule_result_spec in R3.
Qed.

(** ** A channel that is gone *)

Lemma vertex_matches_no_norms b i v n n' t eps :
  pNorms b = nullptr ->
  vertex_matches b i v n t eps = vertex_matches b i v n' t eps.
Proof.
  intros Hn. unfold vertex_matches. rewrite Hn.
  by destruct (non_null (pTexCoords b)).
Qed.

Lemma vertex_matches_no_tex b i v n t t' eps :
  pTexCoords b = nullptr ->
  vertex_matches b i v n t eps = vertex_matches b i v n t' eps.
Proof.
  intros Ht. unfold vertex_matches. rewrite Ht.
  by destruct (non_null (pNorms b)).
Qed.

Lemma search_no_norms b v n n' t eps trips i :
  pNorms b = nullptr -> search b v n t eps trips i = search b v n' t eps trips i.
Proof.
  intros Hn. revert i. induction trips as [|trips IH]; intros i; [done|].
  cbn. rewrite (vertex_matches_no_norms b i v n n') by done. by rewrite IH.
Qed.

Lemma search_no_tex b v n t t' eps trips i :
  pTexCoords b = nullptr -> search b v n t eps trips i = search b v n t' eps trips i.
Proof.
  intros Ht. revert i. induction trips as [|trips IH]; intros i; [done|].
  cbn. rewrite (vertex_matches_no_tex b i v n t t') by done. by rewrite IH.
Qed.

Lemma add_corner_no_norms b start v n n' t eps :
  pNorms b = nullptr -> add_corner b start v n t eps = add_corner b start v n' t eps.
Proof.
  intros Hn. unfold add_corner. rewrite (search_no_norms b v n n') by done.
  destruct b as [pI pV pN pT nMax nI nV g m r]. cbn in Hn. subst pN.
  destruct (search _ v n' t eps _ start) as [[] i]; by destruct pT.
Qed.

Lemma add_corner_no_tex b start v n t t' eps :
  pTexCoords b = nullptr -> add_corner b start v n t eps = add_corner b start v n t' eps.
Proof.
  intros Ht. unfold add_corner. rewrite (search_no_tex b v n t t') by done.
  destruct b as [pI pV pN pT nMax nI nV g m r]. cbn in Ht. subst pT.
  destruct (search _ v n t' eps _ start) as [[] i]; by destruct pN.
Qed.

Lemma add_corner_pointers b start v n t eps :
  (pNorms b = nullptr -> pNorms (add_corner b start v n t eps) = nullptr) /\
  (pTexCoords b = nullptr -> pTexCoords (add_corner b start v n t eps) = nullptr).
Proof.
  destruct (add_corner_outcome b start v n t eps)
    as [(i & _ & ->)|[(_ & _ & _ & _ & ->)|(_ & _ & ->)]]; [| |done].
  - by destruct b.
  - destruct b as [pI pV pN pT nMax nI nV g m r]. cbn.
    split; intros ->; [by destruct pT|by destruct pN].
Qed.

Lemma release_channels_pointers b vNorms vTexCoords :
  ((vNorms = None \/ pNorms b = nullptr) ->
   pNorms (release_channels b vNorms vTexCoords) = nullptr) /\
  ((vTexCoords = None \/ pTexCoords b = nullptr) ->
   pTexCoords (release_channels b vNorms vTexCoords) = nullptr).
Proof.
  destruct b as [pI pV pN pT nMax nI nV g m r]. unfold release_channels. cbn.
  split; (intros [->| ->]; [|by repeat case_match]).
  - destruct pN; cbn; by repeat case_match.
  - destruct pT; cbn; by repeat case_match.
Qed.

(** ** The code's test is the test of the spec *)

Lemma vertex_matches_of_spec b i c eps :
  vertex_matches b i (at_pos c) (at_norm c) (at_tex c) eps
  = stored_vertex_matches b i c eps.
Proof.
  unfold vertex_matches, stored_vertex_matches, hasN, hasT.
  change (close_pos b i (at_pos c) eps)
    with (within_epsilon3 (peek (pVerts b) i) (at_pos c) eps).
  change (close_norm b i (at_norm c) eps)
    with (within_epsilon3 (peek (pNorms b) i) (at_norm c) eps).
  change (close_tex b i (at_tex c) eps)
    with (within_epsilon2 (peek (pTexCoords b) i) (at_tex c) eps).
  destruct (non_null (pNorms b)), (non_null (pTexCoords b)),
    (within_epsilon3 (peek (pVerts b) i) (at_pos c) eps),
    (within_epsilon3 (peek (pNorms b) i) (at_norm c) eps),
    (within_epsilon2 (peek (pTexCoords b) i) (at_tex c) eps); reflexivity.
Qed.

Lemma matches_of_spec b i c eps : matches b i c eps = stored_vertex_matches b i c eps.
Proof. apply vertex_matches_of_spec. Qed.

(** ** What the two branches of a corner leave in the arrays *)

Lemma slot_written_poke {A} (l : list A) (k : Z) (x : A) :
  0 <= k -> (Z.to_nat k < length l)%nat ->
  slot_written (block l) k x (poke (block l) k x).
Proof.
  intros Hk Hlt. unfold slot_written; cbn.
  split; [by apply list_lookup_insert_eq|].
  split; [by rewrite length_insert|].
  intros j Hj. by apply list_lookup_insert_ne.
Qed.

Lemma reuses_of_spec b i :
  batch_ok b -> nNumIndexes b < nMaxIndexes b -> vertex_reused b i (reuses b i).
Proof.
  destruct b as [pI pV pN pT nMax nI nV g m r].
  unfold batch_ok, vertex_reused, index_appended, reuses; cbn.
  intros (HM & HV & HI & (l & -> & Hl) & _) Hroom.
  repeat split; try done; apply slot_written_poke; lia.
Qed.

Lemma appends_of_spec b c :
  batch_ok b -> nNumVerts b < nMaxIndexes b -> nNumIndexes b < nMaxIndexes b ->
  vertex_appended b c (appends b c).
Proof.
  destruct b as [pI pV pN pT nMax nI nV g m r].
  unfold batch_ok, vertex_appended, index_appended, appends, reuses, hasN, hasT; cbn.
  intros (HM & HV & HI & (li & -> & Hli) & (lv & -> & Hlv) & HpN & HpT) HVroom HIroom.
  destruct HpN as [->|(ln & -> & Hln)], HpT as [->|(lt & -> & Hlt)]; cbn;
    repeat split; try done; apply slot_written_poke; lia.
Qed.

Lemma corner_rule_of_spec_intro b start c eps b' :
  batch_ok b -> nNumVerts b <= nNumIndexes b -> nNumIndexes b < nMaxIndexes b ->
  corner_rule b start c eps b' -> corner_rule_of_spec b start c eps b'.
Proof.
  intros Hok HVI HI [(i & (Hi & Hm & Hfirst) & ->)|(Hno & ->)].
  - left. exists i. split; [done|]. split; [by rewrite <- matches_of_spec|].
    split; [|by apply reuses_of_spec].
    intros j Hj. rewrite <- matches_of_spec. by apply Hfirst.
  - right. split; [|apply appends_of_spec; [done|lia|done]].
    intros i Hi. rewrite <- matches_of_spec. by apply Hno.
Qed.

Lemma release_channels_given b vNorms vNorms' vTexCoords :
  is_Some vNorms' <-> is_Some vNorms ->
  release_channels b vNorms' vTexCoords = channels_given b vNorms vTexCoords.
Proof.
  intros Hsome. destruct b as [pI pV pN pT nMax nI nV g m r].
  unfold release_channels, channels_given.
  destruct vNorms as [vn|], vNorms' as [vn'|], vTexCoords as [vt|];
    try (exfalso; destruct Hsome as [H1 H2];
         first [by destruct H1; eauto|by destruct H2; eauto]);
    cbn; by destruct pN, pT.
Qed.

(** ** The memory at the index array *)

Lemma corner_writes_outcome b start v n t eps mem :
  (exists i, first_match b start (Corner v n t) eps i /\
     add_corner b start v n t eps = emit_index b i /\
     corner_writes b start v n t eps mem = <[nNumIndexes b := GLushort_of i]> mem) \/
  (nNumVerts b < nMaxIndexes b /\
     add_corner b start v n t eps =
       set_nNumVerts (emit_index (store_vertex b v n t) (nNumVerts b))
                     (GLuint_of (nNumVerts b + 1)) /\
     corner_writes b start v n t eps mem
     = <[nNumIndexes b := GLushort_of (nNumVerts b)]> mem) \/
  (add_corner b start v n t eps = b /\ corner_writes b start v n t eps mem = mem).
Proof.
  unfold add_corner, corner_writes, first_match, matches. cbn [at_pos at_norm at_tex].
  pose proof (search_spec b v n t eps (Z.to_nat (nNumVerts b - start)) start) as [Hlt Hr].
  destruct (search b v n t eps (Z.to_nat (nNumVerts b - start)) start) as [hit i].
  cbn [fst snd] in *. destruct hit.
  - left. exists i. destruct Hr as [Hi Hm].
    assert (i <> nNumVerts b) as Hne by lia.
    apply Z.eqb_neq in Hne. cbn. rewrite Hne. cbn.
    split; [|done]. split; [lia|]. split; [done|]. intros j Hj. apply Hlt. lia.
  - right. destruct (i =? nNumVerts b) eqn:Hi; cbn [andb]; [|by right].
    destruct (nNumVerts b <? nMaxIndexes b) eqn:HV; cbn [andb]; [|by right].
    destruct (nNumIndexes b <? nMaxIndexes b) eqn:HI; [|by right].
    left. apply Z.ltb_lt in HV. split; [done|].
    cbn. by rewrite nNumVerts_store_vertex.
Qed.

Lemma emit_index_writes b i mem :
  batch_ok b -> writes_ok b mem -> 0 <= i < nNumVerts b ->
  writes_ok (emit_index b i) (<[nNumIndexes b := GLushort_of i]> mem).
Proof.
  destruct b as [pI pV pN pT nMax nI nV g m r].
  unfold batch_ok, writes_ok; cbn.
  intros (HM & HV & HI & (l & -> & Hl) & _) (Hall & Hval & Hblock) Hi. cbn.
  pose proof (GLushort_of_le i) as Hshort.
  split; [|split].
  - intros k Hk. destruct (GLuint_of_succ nI HI) as [Hs|Hs]; rewrite Hs in Hk; [|lia].
    destruct (decide (k = nI)) as [->|Hne].
    + rewrite lookup_insert_eq. eauto.
    + rewrite lookup_insert_ne by done. apply Hall. lia.
  - intros k w Hw. destruct (decide (k = nI)) as [->|Hne].
    + rewrite lookup_insert_eq in Hw. injection Hw as <-. lia.
    + rewrite lookup_insert_ne in Hw by done. by apply Hval.
  - intros k w Hk Hw. destruct (decide (k = nI)) as [->|Hne].
    + rewrite lookup_insert_eq in Hw. injection Hw as <-.
      apply list_lookup_insert_eq. lia.
    + rewrite lookup_insert_ne in Hw by done.
      destruct (Hval k w Hw) as (Hk0 & _).
      rewrite list_lookup_insert_ne by lia. by apply Hblock.
Qed.

Lemma append_writes b v n t mem :
  batch_ok b -> writes_ok b mem -> nNumVerts b < nMaxIndexes b ->
  writes_ok (set_nNumVerts (emit_index (store_vertex b v n t) (nNumVerts b))
                           (GLuint_of (nNumVerts b + 1)))
            (<[nNumIndexes b := GLushort_of (nNumVerts b)]> mem).
Proof.
  destruct b as [pI pV pN pT nMax nI nV g m r].
  unfold batch_ok, writes_ok; cbn.
  intros (HM & HV & HI & (l & -> & Hl) & _) (Hall & Hval & Hblock) HVN.
  rewrite (GLuint_of_small (nV + 1)) by lia.
  pose proof (GLushort_of_le nV) as Hshort.
  assert ((forall k, 0 <= k < GLuint_of (nI + 1) ->
             is_Some (<[nI:=GLushort_of nV]> mem !! k)) /\
          (forall k w, <[nI:=GLushort_of nV]> mem !! k = Some w ->
             0 <= k /\ 0 <= w < nV + 1) /\
          (forall k w, k < nMax -> <[nI:=GLushort_of nV]> mem !! k = Some w ->
             <[Z.to_nat nI:=GLushort_of nV]> l !! Z.to_nat k = Some w)) as Hgoal.
  { split; [|split].
    - intros k Hk. destruct (GLuint_of_succ nI HI) as [Hs|Hs]; rewrite Hs in Hk; [|lia].
      destruct (decide (k = nI)) as [->|Hne].
      + rewrite lookup_insert_eq. eauto.
      + rewrite lookup_insert_ne by done. apply Hall. lia.
    - intros k w Hw. destruct (decide (k = nI)) as [->|Hne].
      + rewrite lookup_insert_eq in Hw. injection Hw as <-. lia.
      + rewrite lookup_insert_ne in Hw by done.
        destruct (Hval k w Hw) as (? & ?). lia.
    - intros k w Hk Hw. destruct (decide (k = nI)) as [->|Hne].
      + rewrite lookup_insert_eq in Hw. injection Hw as <-.
        apply list_lookup_insert_eq. lia.
      + rewrite lookup_insert_ne in Hw by done.
        destruct (Hval k w Hw) as (Hk0 & _).
        rewrite list_lookup_insert_ne by lia. by apply Hblock. }
  destruct pN, pT; cbn; exact Hgoal.
Qed.

Lemma corner_writes_ok b start v n t eps mem :
  batch_ok b -> writes_ok b mem -> 0 <= start ->
  writes_ok (add_corner b start v n t eps) (corner_writes b start v n t eps mem).
Proof.
  intros Hok Hw Hstart.
  destruct (corner_writes_outcome b start v n t eps mem)
    as [(i & (Hi & _) & -> & ->)|[(HV & -> & ->)|(-> & ->)]]; [| |done].
  - apply emit_index_writes; [done|done|lia].
  - by apply append_writes.
Qed.

Lemma release_channels_writes b vNorms vTexCoords mem :
  writes_ok b mem -> writes_ok (release_channels b vNorms vTexCoords) mem.
Proof.
  destruct b as [pI pV pN pT nMax nI nV g m r].
  unfold writes_ok, release_channels; cbn. by repeat case_match.
Qed.

Lemma BeginMesh_writes b n : writes_ok (BeginMesh b n) ∅.
Proof.
  unfold writes_ok; cbn. split; [intros k Hk; lia|].
  split; intros k v; by rewrite lookup_empty.
Qed.

(** ** Calls and runs of calls *)

Section Facts.

Variable m3dNormalizeVector3 : M3DVector3f -> M3DVector3f.

Lemma AddTriangle_ok b verts vNorms vTexCoords eps range :
  batch_ok b /\ indices_valid b ->
  batch_ok (AddTriangle m3dNormalizeVector3 b verts vNorms vTexCoords eps range).1 /\
  indices_valid (AddTriangle m3dNormalizeVector3 b verts vNorms vTexCoords eps range).1.
Proof.
  intros [Hok Hval]. unfold AddTriangle. case_match; [done|]. cbn [fst foldl].
  set (vn := map3 m3dNormalizeVector3 <$> vNorms).
  set (b0 := release_channels b vn vTexCoords).
  assert (batch_ok b0) as Hok0 by by apply release_channels_ok.
  assert (indices_valid b0) as Hval0 by by apply release_channels_valid.
  pose proof (search_start_nonneg b0 range) as Hs.
  split.
  - by do 3 apply add_corner_ok.
  - apply add_corner_valid; [by do 2 apply add_corner_ok| |done].
    apply add_corner_valid; [by apply add_corner_ok| |done].
    by apply add_corner_valid.
Qed.

Lemma add_triangles_ok cs b :
  batch_ok b /\ indices_valid b ->
  batch_ok (add_triangles m3dNormalizeVector3 b cs) /\
  indices_valid (add_triangles m3dNormalizeVector3 b cs).
Proof.
  revert b. induction cs as [|c cs IH]; intros b Hb; [done|].
  cbn. apply IH. by apply AddTriangle_ok.
Qed.

Lemma AddTriangle_room b verts vNorms vTexCoords eps range :
  batch_ok b -> nNumVerts b <= nNumIndexes b ->
  nNumIndexes b + 3 <= nMaxIndexes b -> nMaxIndexes b <= 2 ^ 16 ->
  0 <= range < 2 ^ 31 ->
  let b' := (AddTriangle m3dNormalizeVector3 b verts vNorms vTexCoords eps range).1 in
  triangle_rule (fun _ => Z.max 0 (nNumVerts b - range))
    (release_channels b (map3 m3dNormalizeVector3 <$> vNorms) vTexCoords)
    (corner_of m3dNormalizeVector3 (Call verts vNorms vTexCoords eps range) 0)
    (corner_of m3dNormalizeVector3 (Call verts vNorms vTexCoords eps range) 1)
    (corner_of m3dNormalizeVector3 (Call verts vNorms vTexCoords eps range) 2)
    eps b' /\
  batch_ok b' /\ nNumIndexes b' = nNumIndexes b + 3 /\
  nNumVerts b <= nNumVerts b' <= nNumIndexes b' /\ nMaxIndexes b' = nMaxIndexes b.
Proof.
  intros Hok HVI HI HN Hr b'. subst b'. unfold AddTriangle.
  assert (0 <= nNumVerts b) as HV0 by (destruct Hok as (_ & ? & _); lia).
  destruct (nMaxIndexes b <=? nNumIndexes b) eqn:Hfull;
    [apply Z.leb_le in Hfull; lia|clear Hfull].
  cbn [fst foldl corner_of call_verts call_norms call_tex].
  set (vn := map3 m3dNormalizeVector3 <$> vNorms).
  set (b0 := release_channels b vn vTexCoords).
  destruct (release_channels_counters b vn vTexCoords) as (EV & EI & EN).
  fold b0 in EV, EI, EN.
  assert (batch_ok b0) as Hok0 by by apply release_channels_ok.
  rewrite search_start_window by lia. rewrite EV.
  set (start := Z.max 0 (nNumVerts b - range)).
  set (b1 := add_corner b0 start (at3 verts 0) (at3_opt vn 0) (at3_opt vTexCoords 0) eps).
  destruct (add_corner_room b0 start (at3 verts 0) (at3_opt vn 0)
              (at3_opt vTexCoords 0) eps) as (R1 & I1 & V1 & N1); try lia; [done|].
  fold b1 in R1, I1, V1, N1.
  assert (batch_ok b1) as Hok1 by by apply add_corner_ok.
  set (b2 := add_corner b1 start (at3 verts 1) (at3_opt vn 1) (at3_opt vTexCoords 1) eps).
  destruct (add_corner_room b1 start (at3 verts 1) (at3_opt vn 1)
              (at3_opt vTexCoords 1) eps) as (R2 & I2 & V2 & N2); try lia; [done|].
  fold b2 in R2, I2, V2, N2.
  assert (batch_ok b2) as Hok2 by by apply add_corner_ok.
  set (b3 := add_corner b2 start (at3 verts 2) (at3_opt vn 2) (at3_opt vTexCoords 2) eps).
  destruct (add_corner_room b2 start (at3 verts 2) (at3_opt vn 2)
              (at3_opt vTexCoords 2) eps) as (R3 & I3 & V3 & N3); try lia; [done|].
  fold b3 in R3, I3, V3, N3.
  split; [by exists b1, b2|].
  split; [by apply add_corner_ok|]. lia.
Qed.

Lemma AddTriangle_batch_ok b verts vNorms vTexCoords eps range :
  batch_ok b ->
  batch_ok (AddTriangle m3dNormalizeVector3 b verts vNorms vTexCoords eps range).1.
Proof.
  intros Hok. unfold AddTriangle. case_match; [done|]. cbn [fst foldl].
  do 3 apply add_corner_ok. by apply release_channels_ok.
Qed.

Lemma AddTriangle_counts b verts vNorms vTexCoords eps range :
  batch_ok b -> nMaxIndexes b <= 2 ^ 16 ->
  nNumVerts b <= nNumIndexes b <= nMaxIndexes b + 2 ->
  let b' := (AddTriangle m3dNormalizeVector3 b verts vNorms vTexCoords eps range).1 in
  nNumVerts b' <= nNumIndexes b' <= nMaxIndexes b' + 2 /\ nMaxIndexes b' = nMaxIndexes b.
Proof.
  intros Hok HN HVI b'. subst b'. unfold AddTriangle.
  destruct (nMaxIndexes b <=? nNumIndexes b) eqn:Hfull; [done|].
  apply Z.leb_gt in Hfull. cbn [fst foldl].
  set (vn := map3 m3dNormalizeVector3 <$> vNorms).
  set (b0 := release_channels b vn vTexCoords).
  destruct (release_channels_counters b vn vTexCoords) as (EV & EI & EN).
  fold b0 in EV, EI, EN.
  assert (batch_ok b0) as Hok0 by by apply release_channels_ok.
  set (start := search_start b0 range).
  set (b1 := add_corner b0 start (at3 verts 0) (at3_opt vn 0) (at3_opt vTexCoords 0) eps).
  assert (nNumVerts b1 <= nNumIndexes b1 /\ nNumIndexes b1 <= nNumIndexes b0 + 1 /\
          nMaxIndexes b1 = nMaxIndexes b0) as (V1 & I1 & N1)
    by (apply add_corner_counts; [done|lia|lia]).
  assert (batch_ok b1) as Hok1 by by apply add_corner_ok.
  set (b2 := add_corner b1 start (at3 verts 1) (at3_opt vn 1) (at3_opt vTexCoords 1) eps).
  assert (nNumVerts b2 <= nNumIndexes b2 /\ nNumIndexes b2 <= nNumIndexes b1 + 1 /\
          nMaxIndexes b2 = nMaxIndexes b1) as (V2 & I2 & N2)
    by (apply add_corner_counts; [done|lia|lia]).
  assert (batch_ok b2) as Hok2 by by apply add_corner_ok.
  set (b3 := add_corner b2 start (at3 verts 2) (at3_opt vn 2) (at3_opt vTexCoords 2) eps).
  assert (nNumVerts b3 <= nNumIndexes b3 /\ nNumIndexes b3 <= nNumIndexes b2 + 1 /\
          nMaxIndexes b3 = nMaxIndexes b2) as (V3 & I3 & N3)
    by (apply add_corner_counts; [done|lia|lia]).
  lia.
Qed.

Lemma add_triangles_counts cs b :
  batch_ok b -> nMaxIndexes b <= 2 ^ 16 ->
  nNumVerts b <= nNumIndexes b <= nMaxIndexes b + 2 ->
  let b' := add_triangles m3dNormalizeVector3 b cs in
  batch_ok b' /\ nNumVerts b' <= nNumIndexes b' <= nMaxIndexes b' + 2 /\
  nMaxIndexes b' = nMaxIndexes b.
Proof.
  revert b. induction cs as [|c cs IH]; intros b Hok HN HVI; [done|].
  cbn.
  destruct (AddTriangle_counts b (call_verts c) (call_norms c) (call_tex c)
              (call_epsilon c) (call_range c) Hok HN HVI) as (HVI' & HN').
  pose proof (AddTriangle_batch_ok b (call_verts c) (call_norms c) (call_tex c)
              (call_epsilon c) (call_range c) Hok) as Hok'.
  fold (add_triangle m3dNormalizeVector3 b c) in HVI', HN', Hok'.
  destruct (IH (add_triangle m3dNormalizeVector3 b c)) as (? & ? & ?); [done|lia|done|].
  unfold add_triangles in *. split; [done|]. split; [done|]. lia.
Qed.

Lemma begun_counts b0 n cs :
  0 <= n <= 2 ^ 16 ->
  let b := add_triangles m3dNormalizeVector3 (BeginMesh b0 n) cs in
  batch_ok b /\ nNumVerts b <= nNumIndexes b <= nMaxIndexes b + 2 /\ nMaxIndexes b = n.
Proof.
  intros Hn. apply add_triangles_counts.
  - apply BeginMesh_ok. lia.
  - cbn. lia.
  - cbn. lia.
Qed.

Lemma release_channels_keeps b c :
  keeps_channels b c ->
  release_channels b (map3 m3dNormalizeVector3 <$> call_norms c) (call_tex c) = b.
Proof.
  destruct b as [pI pV pN pT nMax nI nV g m r].
  unfold keeps_channels, release_channels, hasN, hasT; cbn. intros (Hn & Ht).
  destruct (call_tex c) as [tex|], (call_norms c) as [norms|], pN, pT; cbn in *;
    try done;
    try (by destruct Hn as [? ?]); by destruct Ht as [? ?].
Qed.

Lemma keeps_channels_flags b b' c :
  hasN b' = hasN b -> hasT b' = hasT b -> keeps_channels b c -> keeps_channels b' c.
Proof. unfold keeps_channels. by intros -> ->. Qed.

Lemma add_triangle_logged b c first eps cs :
  batch_ok b -> 0 <= first ->
  nNumVerts b <= nNumIndexes b -> nNumIndexes b + 3 <= nMaxIndexes b ->
  nMaxIndexes b <= 2 ^ 16 -> SFltb f32_zero eps = true ->
  call_epsilon c = eps -> keeps_channels b c ->
  nNumVerts b <= call_range c < 2 ^ 31 ->
  logged b first eps cs ->
  let b' := add_triangle m3dNormalizeVector3 b c in
  logged b' first eps (cs ++ (corner_of m3dNormalizeVector3 c <$> [0; 1; 2])) /\
  hasN b' = hasN b /\ hasT b' = hasT b /\ batch_ok b' /\
  nNumVerts b' <= nNumIndexes b' /\ nNumIndexes b' = nNumIndexes b + 3 /\
  nMaxIndexes b' = nMaxIndexes b.
Proof.
  intros Hok Hfirst HVI HI HN He Heps Hkeep Hr Hlog b'. subst b'.
  assert (0 <= nNumVerts b) as HV0 by (destruct Hok as (_ & ? & _); lia).
  unfold add_triangle, AddTriangle.
  destruct (nMaxIndexes b <=? nNumIndexes b) eqn:Hfull;
    [apply Z.leb_le in Hfull; lia|clear Hfull].
  cbn [fst foldl]. rewrite release_channels_keeps by done.
  rewrite search_start_window by lia.
  replace (Z.max 0 (nNumVerts b - call_range c)) with 0 by lia.
  rewrite Heps.
  set (c0 := corner_of m3dNormalizeVector3 c 0).
  set (c1 := corner_of m3dNormalizeVector3 c 1).
  set (c2 := corner_of m3dNormalizeVector3 c 2).
  change (at3 (call_verts c) 0) with (at_pos c0).
  change (at3_opt (map3 m3dNormalizeVector3 <$> call_norms c) 0) with (at_norm c0).
  change (at3_opt (call_tex c) 0) with (at_tex c0).
  change (at3 (call_verts c) 1) with (at_pos c1).
  change (at3_opt (map3 m3dNormalizeVector3 <$> call_norms c) 1) with (at_norm c1).
  change (at3_opt (call_tex c) 1) with (at_tex c1).
  change (at3 (call_verts c) 2) with (at_pos c2).
  change (at3_opt (map3 m3dNormalizeVector3 <$> call_norms c) 2) with (at_norm c2).
  change (at3_opt (call_tex c) 2) with (at_tex c2).
  set (b1 := add_corner b 0 (at_pos c0) (at_norm c0) (at_tex c0) eps).
  destruct (add_corner_logged b first eps cs c0) as (L1 & FN1 & FT1); try done; [lia|].
  destruct (add_corner_room b 0 (at_pos c0) (at_norm c0) (at_tex c0) eps)
    as (_ & I1 & V1 & N1); [done|lia|done|lia|done|].
  fold b1 in L1, FN1, FT1, I1, V1, N1.
  assert (batch_ok b1) as Hok1 by by apply add_corner_ok.
  set (b2 := add_corner b1 0 (at_pos c1) (at_norm c1) (at_tex c1) eps).
  destruct (add_corner_logged b1 first eps (cs ++ [c0]) c1) as (L2 & FN2 & FT2);
    try done; [lia|lia|lia|].
  destruct (add_corner_room b1 0 (at_pos c1) (at_norm c1) (at_tex c1) eps)
    as (_ & I2 & V2 & N2); [done|lia|lia|lia|lia|].
  fold b2 in L2, FN2, FT2, I2, V2, N2.
  assert (batch_ok b2) as Hok2 by by apply add_corner_ok.
  set (b3 := add_corner b2 0 (at_pos c2) (at_norm c2) (at_tex c2) eps).
  destruct (add_corner_logged b2 first eps ((cs ++ [c0]) ++ [c1]) c2) as (L3 & FN3 & FT3);
    try done; [lia|lia|lia|].
  destruct (add_corner_room b2 0 (at_pos c2) (at_norm c2) (at_tex c2) eps)
    as (_ & I3 & V3 & N3); [done|lia|lia|lia|lia|].
  fold b3 in L3, FN3, FT3, I3, V3, N3.
  rewrite <- !app_assoc in L3.
  split; [done|]. split; [congruence|]. split; [congruence|].
  split; [by apply add_corner_ok|]. lia.
Qed.

Lemma add_triangles_logged cs : forall b first eps done,
  batch_ok b -> 0 <= first ->
  nNumVerts b <= nNumIndexes b ->
  nNumIndexes b + 3 * Z.of_nat (length cs) <= nMaxIndexes b ->
  nMaxIndexes b <= 2 ^ 16 -> SFltb f32_zero eps = true ->
  Forall (fun c => call_epsilon c = eps /\ keeps_channels b c) cs ->
  ranges_cover m3dNormalizeVector3 b cs ->
  logged b first eps done ->
  let b' := add_triangles m3dNormalizeVector3 b cs in
  logged b' first eps (done ++ corners m3dNormalizeVector3 cs) /\
  hasN b' = hasN b /\ hasT b' = hasT b.
Proof.
  induction cs as [|c cs IH]; intros b first eps done Hok Hfirst HVI HI HN He Hall Hr Hlog.
  - cbn. by rewrite app_nil_r.
  - apply Forall_cons in Hall as ((Heps & Hkeep) & Hall).
    destruct Hr as (Hr & Hrs). cbn [length] in HI.
    destruct (add_triangle_logged b c first eps done) as
      (L1 & FN1 & FT1 & Hok1 & HVI1 & HI1 & HN1); try done; [lia|].
    destruct (IH (add_triangle m3dNormalizeVector3 b c) first eps
                (done ++ (corner_of m3dNormalizeVector3 c <$> [0; 1; 2])))
      as (L & FN & FT); try done; try lia.
    + eapply Forall_impl; [exact Hall|]. intros c' (? & ?). split; [done|].
      by apply (keeps_channels_flags b).
    + rewrite <- app_assoc in L.
      change (add_triangles m3dNormalizeVector3 b (c :: cs))
        with (add_triangles m3dNormalizeVector3 (add_triangle m3dNormalizeVector3 b c) cs).
      cbn zeta in *. split; [done|]. split; congruence.
Qed.

Lemma AddTriangle_pointers b verts vNorms vTexCoords eps range :
  let b' := (AddTriangle m3dNormalizeVector3 b verts vNorms vTexCoords eps range).1 in
  (pNorms b = nullptr -> pNorms b' = nullptr) /\
  (pTexCoords b = nullptr -> pTexCoords b' = nullptr) /\
  (nNumIndexes b < nMaxIndexes b -> vNorms = None -> pNorms b' = nullptr) /\
  (nNumIndexes b < nMaxIndexes b -> vTexCoords = None -> pTexCoords b' = nullptr).
Proof.
  cbn zeta. unfold AddTriangle.
  destruct (nMaxIndexes b <=? nNumIndexes b) eqn:Hfull.
  - apply Z.leb_le in Hfull. cbn. repeat split; try done; lia.
  - cbn [fst foldl].
    set (vn := map3 m3dNormalizeVector3 <$> vNorms).
    set (b0 := release_channels b vn vTexCoords).
    destruct (release_channels_pointers b vn vTexCoords) as (Rn & Rt). fold b0 in Rn, Rt.
    set (start := search_start b0 range).
    assert (forall b1 v n t,
              (pNorms b1 = nullptr -> pNorms (add_corner b1 start v n t eps) = nullptr) /\
              (pTexCoords b1 = nullptr ->
               pTexCoords (add_corner b1 start v n t eps) = nullptr)) as Hstep
      by (intros; apply add_corner_pointers).
    assert (pNorms b0 = nullptr -> pNorms
              (add_corner (add_corner (add_corner b0 start (at3 verts 0) (at3_opt vn 0)
                 (at3_opt vTexCoords 0) eps) start (at3 verts 1) (at3_opt vn 1)
                 (at3_opt vTexCoords 1) eps) start (at3 verts 2) (at3_opt vn 2)
                 (at3_opt vTexCoords 2) eps) = nullptr) as Hn
      by (intros H0; by do 3 apply Hstep).
    assert (pTexCoords b0 = nullptr -> pTexCoords
              (add_corner (add_corner (add_corner b0 start (at3 verts 0) (at3_opt vn 0)
                 (at3_opt vTexCoords 0) eps) start (at3 verts 1) (at3_opt vn 1)
                 (at3_opt vTexCoords 1) eps) start (at3 verts 2) (at3_opt vn 2)
                 (at3_opt vTexCoords 2) eps) = nullptr) as Ht
      by (intros H0; by do 3 apply Hstep).
    repeat split.
    + intros H. apply Hn, Rn. by right.
    + intros H. apply Ht, Rt. by right.
    + intros _ ->. apply Hn, Rn. by left.
    + intros _ ->. apply Ht, Rt. by left.
Qed.

Lemma add_triangles_pointers cs b :
  (pNorms b = nullptr -> pNorms (add_triangles m3dNormalizeVector3 b cs) = nullptr) /\
  (pTexCoords b = nullptr ->
   pTexCoords (add_triangles m3dNormalizeVector3 b cs) = nullptr).
Proof.
  revert b. induction cs as [|c cs IH]; intros b; [done|].
  cbn. destruct (IH (add_triangle m3dNormalizeVector3 b c)) as (IHn & IHt).
  destruct (AddTriangle_pointers b (call_verts c) (call_norms c) (call_tex c)
              (call_epsilon c) (call_range c)) as (Hn & Ht & _).
  split; intros H; [apply IHn, Hn|apply IHt, Ht]; done.
Qed.

Lemma AddTriangle_no_norms b verts vNorms vNorms' vTexCoords eps range :
  pNorms b = nullptr ->
  (AddTriangle m3dNormalizeVector3 b verts vNorms vTexCoords eps range).1 =
  (AddTriangle m3dNormalizeVector3 b verts vNorms' vTexCoords eps range).1.
Proof.
  intros Hn. unfold AddTriangle. case_match; [done|]. cbn [fst foldl].
  set (vn := map3 m3dNormalizeVector3 <$> vNorms).
  set (vn' := map3 m3dNormalizeVector3 <$> vNorms').
  assert (release_channels b vn vTexCoords = release_channels b vn' vTexCoords) as ->.
  { destruct b as [pI pV pN pT nMax nI nV g m r]. cbn in Hn. subst pN.
    unfold release_channels. cbn. by repeat case_match. }
  set (b0 := release_channels b vn' vTexCoords).
  assert (pNorms b0 = nullptr) as Hn0 by (apply release_channels_pointers; by right).
  set (start := search_start b0 range).
  rewrite (add_corner_no_norms b0 start _ (at3_opt vn 0) (at3_opt vn' 0)) by done.
  set (b1 := add_corner b0 start _ _ _ eps).
  assert (pNorms b1 = nullptr) as Hn1 by by apply add_corner_pointers.
  rewrite (add_corner_no_norms b1 start _ (at3_opt vn 1) (at3_opt vn' 1)) by done.
  set (b2 := add_corner b1 start _ _ _ eps).
  assert (pNorms b2 = nullptr) as Hn2 by by apply add_corner_pointers.
  by rewrite (add_corner_no_norms b2 start _ (at3_opt vn 2) (at3_opt vn' 2)).
Qed.

Lemma AddTriangle_no_tex b verts vNorms vTexCoords vTexCoords' eps range :
  pTexCoords b = nullptr ->
  (AddTriangle m3dNormalizeVector3 b verts vNorms vTexCoords eps range).1 =
  (AddTriangle m3dNormalizeVector3 b verts vNorms vTexCoords' eps range).1.
Proof.
  intros Ht. unfold AddTriangle. case_match; [done|]. cbn [fst foldl].
  set (vn := map3 m3dNormalizeVector3 <$> vNorms).
  assert (release_channels b vn vTexCoords = release_channels b vn vTexCoords') as ->.
  { destruct b as [pI pV pN pT nMax nI nV g m r]. cbn in Ht. subst pT.
    unfold release_channels. cbn. by rewrite !andb_false_r. }
  set (b0 := release_channels b vn vTexCoords').
  assert (pTexCoords b0 = nullptr) as Ht0 by (apply release_channels_pointers; by right).
  set (start := search_start b0 range).
  rewrite (add_corner_no_tex b0 start _ _ (at3_opt vTexCoords 0) (at3_opt vTexCoords' 0))
    by done.
  set (b1 := add_corner b0 start _ _ _ eps).
  assert (pTexCoords b1 = nullptr) as Ht1 by by apply add_corner_pointers.
  rewrite (add_corner_no_tex b1 start _ _ (at3_opt vTexCoords 1) (at3_opt vTexCoords' 1))
    by done.
  set (b2 := add_corner b1 start _ _ _ eps).
  assert (pTexCoords b2 = nullptr) as Ht2 by by apply add_corner_pointers.
  by rewrite (add_corner_no_tex b2 start _ _ (at3_opt vTexCoords 2) (at3_opt vTexCoords' 2)).
Qed.

(** ** Counts of a batch under assembly *)

Lemma vertex_count_within_capacity b0 n cs :
  0 <= n < 2 ^ 32 ->
  let b := add_triangles m3dNormalizeVector3 (BeginMesh b0 n) cs in
  0 <= nNumVerts b <= nMaxIndexes b.
Proof.
  intros Hn b.
  destruct (add_triangles_ok cs (BeginMesh b0 n) (BeginMesh_ok b0 n Hn))
    as ((_ & HV & _) & _).
  exact HV.
Qed.

Lemma call_with_room_adds_three b0 n before verts vNorms vTexCoords eps range :
  0 <= n <= 2 ^ 16 ->
  let b := add_triangles m3dNormalizeVector3 (BeginMesh b0 n) before in
  nNumIndexes b + 3 <= nMaxIndexes b -> 0 <= range < 2 ^ 31 ->
  nNumIndexes (AddTriangle m3dNormalizeVector3 b verts vNorms vTexCoords eps range).1
  = nNumIndexes b + 3.
Proof.
  intros Hn b Hroom Hrange.
  destruct (begun_counts b0 n before Hn) as (Hok & HVI & HN). fold b in Hok, HVI, HN.
  destruct (AddTriangle_room b verts vNorms vTexCoords eps range)
    as (_ & _ & HI & _); try done; lia.
Qed.

Lemma triangle_count_from cs : forall b,
  batch_ok b -> nNumVerts b <= nNumIndexes b ->
  nNumIndexes b + 3 * Z.of_nat (length cs) <= nMaxIndexes b ->
  nMaxIndexes b <= 2 ^ 16 ->
  Forall (fun c => 0 <= call_range c < 2 ^ 31) cs ->
  nNumIndexes (add_triangles m3dNormalizeVector3 b cs)
  = nNumIndexes b + 3 * Z.of_nat (length cs).
Proof.
  induction cs as [|c cs IH]; intros b Hok HVI Hroom HN Hall; [cbn; lia|].
  apply Forall_cons in Hall as (Hc & Hall). cbn [length] in Hroom.
  destruct (AddTriangle_room b (call_verts c) (call_norms c) (call_tex c)
              (call_epsilon c) (call_range c))
    as (_ & Hok' & HI' & HV' & HN'); try done; try lia.
  change (add_triangles m3dNormalizeVector3 b (c :: cs))
    with (add_triangles m3dNormalizeVector3 (add_triangle m3dNormalizeVector3 b c) cs).
  unfold add_triangle. rewrite IH; try done; try lia.
  cbn [length]. lia.
Qed.

(** With room for every call and no negative range, [n] calls leave
    [I = 3 * n]. *)
Lemma triangle_count b0 n cs :
  0 <= n <= 2 ^ 16 -> 3 * Z.of_nat (length cs) <= n ->
  Forall (fun c => 0 <= call_range c < 2 ^ 31) cs ->
  nNumIndexes (add_triangles m3dNormalizeVector3 (BeginMesh b0 n) cs)
  = 3 * Z.of_nat (length cs).
Proof.
  intros Hn Hroom Hall.
  rewrite triangle_count_from; try done; cbn; try lia.
  apply BeginMesh_ok. lia.
Qed.

(** ** The properties of the spec *)

(** C3 (amended).  In a batch begun with at most [2^16] slots, take a run of
    calls that all find room, release no channel, use the same tolerance
    [epsilon > 0] and a range that is at least the vertex count on entry.
    Two corners of the run whose attributes as they are compared and
    stored (the position, the normal as [m3dNormalizeVector3] has left it,
    the texture coordinates) are the same on the position and on every
    present channel, all of them finite numbers, are given the same
    index. *)
Theorem same_corner_same_index (b0 : GLTriangleBatch) (n : Z) (before cs : list call)
    (epsilon : GLfloat) (k1 k2 : nat) (c1 c2 : corner) :
  0 <= n <= 2 ^ 16 ->
  SFltb f32_zero epsilon = true ->
  nNumIndexes (add_triangles m3dNormalizeVector3 (BeginMesh b0 n) before)
    + 3 * Z.of_nat (length cs)
    <= nMaxIndexes (add_triangles m3dNormalizeVector3 (BeginMesh b0 n) before) ->
  Forall (fun c => call_epsilon c = epsilon /\
            keeps_channels (add_triangles m3dNormalizeVector3 (BeginMesh b0 n) before) c) cs ->
  ranges_cover m3dNormalizeVector3
    (add_triangles m3dNormalizeVector3 (BeginMesh b0 n) before) cs ->
  corners m3dNormalizeVector3 cs !! k1 = Some c1 ->
  corners m3dNormalizeVector3 cs !! k2 = Some c2 ->
  same_attributes (add_triangles m3dNormalizeVector3 (BeginMesh b0 n) before) c1 c2 ->
  finite_attributes (add_triangles m3dNormalizeVector3 (BeginMesh b0 n) before) c1 ->
  let b := add_triangles m3dNormalizeVector3 (BeginMesh b0 n) before in
  exists i,
    cells (pIndexes (add_triangles m3dNormalizeVector3 b cs))
      !! Z.to_nat (nNumIndexes b + Z.of_nat k1) = Some i /\
    cells (pIndexes (add_triangles m3dNormalizeVector3 b cs))
      !! Z.to_nat (nNumIndexes b + Z.of_nat k2) = Some i.
Proof.
  intros Hn He Hroom Hall Hranges Hk1 Hk2 Hsame Hfin b. fold b in Hroom, Hall, Hranges,
    Hsame, Hfin.
  destruct (begun_counts b0 n before Hn) as (Hok & HVI & HN). fold b in Hok, HVI, HN.
  assert (0 <= nNumIndexes b) as HI0 by (destruct Hok as (_ & _ & ? & _); lia).
  destruct (add_triangles_logged cs b (nNumIndexes b) epsilon [])
    as ((_ & Hlog) & FN & FT); try done; try lia.
  { split; [cbn; lia|]. intros k c Hk. by rewrite lookup_nil in Hk. }
  cbn [app] in Hlog.
  set (b' := add_triangles m3dNormalizeVector3 b cs) in *.
  assert (same_attributes b' c1 c2) as Hsame'
    by (unfold same_attributes in *; by rewrite FN, FT).
  assert (finite_attributes b' c1) as Hfin1
    by (unfold finite_attributes in *; by rewrite FN, FT).
  assert (finite_attributes b' c2) as Hfin2.
  { unfold finite_attributes, same_attributes in *. rewrite FN, FT.
    destruct Hsame as (<- & Hsn & Hst), Hfin as (Fp & Fn & Ft).
    split; [done|]. split; intros H.
    - rewrite <- Hsn by done. by apply Fn.
    - rewrite <- Hst by done. by apply Ft. }
  destruct (Hlog k1 c1 Hk1 Hfin1) as (i1 & L1 & F1).
  destruct (Hlog k2 c2 Hk2 Hfin2) as (i2 & L2 & F2).
  apply (first_match_same_attributes b' 0 c1 c2) in F1; [|done].
  rewrite (first_match_unique b' 0 c2 epsilon i2 i1 F2 F1) in L2.
  by exists i1.
Qed.

(** C5 (amended).  A call made when [I >= N_max] is dropped: the batch is
    unchanged and so is the caller's normal array. *)
Theorem full_batch_drops_call (b : GLTriangleBatch) (verts : array3 M3DVector3f)
    (vNorms : option (array3 M3DVector3f)) (vTexCoords : option (array3 M3DVector2f))
    (epsilon : GLfloat) (nCheckRange : Z) :
  nMaxIndexes b <= nNumIndexes b ->
  AddTriangle m3dNormalizeVector3 b verts vNorms vTexCoords epsilon nCheckRange
  = (b, vNorms).
Proof.
  intros Hfull. unfold AddTriangle. apply Z.leb_le in Hfull. by rewrite Hfull.
Qed.

(** C6 (amended).  Once a call that passes the entry check ([I < N_max]) is
    given a null normal array, the normal block is released and [hasN] is
    false, after that call and after any later calls whatever their
    arguments, and the batch that a later call leaves does not depend on the
    normals it is given; likewise for the texture coordinates. *)
Theorem released_channel_stays_released (b : GLTriangleBatch)
    (verts : array3 M3DVector3f) (vNorms : option (array3 M3DVector3f))
    (vTexCoords : option (array3 M3DVector2f)) (epsilon : GLfloat) (nCheckRange : Z)
    (later : list call) :
  nNumIndexes b < nMaxIndexes b ->
  let b1 := (AddTriangle m3dNormalizeVector3 b verts vNorms vTexCoords
                         epsilon nCheckRange).1 in
  let b2 := add_triangles m3dNormalizeVector3 b1 later in
  (vNorms = None ->
     pNorms b1 = nullptr /\ pNorms b2 = nullptr /\ hasN b2 = false /\
     forall v n n' t e r,
       (AddTriangle m3dNormalizeVector3 b2 v n t e r).1
       = (AddTriangle m3dNormalizeVector3 b2 v n' t e r).1) /\
  (vTexCoords = None ->
     pTexCoords b1 = nullptr /\ pTexCoords b2 = nullptr /\ hasT b2 = false /\
     forall v n t t' e r,
       (AddTriangle m3dNormalizeVector3 b2 v n t e r).1
       = (AddTriangle m3dNormalizeVector3 b2 v n t' e r).1).
Proof.
  intros Hroom b1 b2.
  destruct (AddTriangle_pointers b verts vNorms vTexCoords epsilon nCheckRange)
    as (_ & _ & Hn & Ht). fold b1 in Hn, Ht.
  destruct (add_triangles_pointers later b1) as (Ln & Lt). fold b2 in Ln, Lt.
  split; intros Hnone.
  - assert (pNorms b2 = nullptr) as H2 by by apply Ln, Hn.
    split; [by apply Hn|]. split; [done|]. split; [unfold hasN; by rewrite H2|].
    intros. by apply AddTriangle_no_norms.
  - assert (pTexCoords b2 = nullptr) as H2 by by apply Lt, Ht.
    split; [by apply Ht|]. split; [done|]. split; [unfold hasT; by rewrite H2|].
    intros. by apply AddTriangle_no_tex.
Qed.

(** C10.  A call that is given a normal array and passes the entry check
    leaves each of the three normals of the caller's array normalized; the
    batch depends on the given normals through their normalized values only;
    and when the normal channel is already gone the array is normalized all
    the same while the batch stays without normals. *)
Theorem normals_normalized_in_place (b : GLTriangleBatch) (verts : array3 M3DVector3f)
    (n0 n1 n2 : M3DVector3f) (vTexCoords : option (array3 M3DVector2f))
    (epsilon : GLfloat) (nCheckRange : Z) :
  nNumIndexes b < nMaxIndexes b ->
  (AddTriangle m3dNormalizeVector3 b verts (Some (n0, n1, n2)) vTexCoords
               epsilon nCheckRange).2
  = Some (m3dNormalizeVector3 n0, m3dNormalizeVector3 n1, m3dNormalizeVector3 n2) /\
  (forall m0 m1 m2,
     m3dNormalizeVector3 m0 = m3dNormalizeVector3 n0 ->
     m3dNormalizeVector3 m1 = m3dNormalizeVector3 n1 ->
     m3dNormalizeVector3 m2 = m3dNormalizeVector3 n2 ->
     (AddTriangle m3dNormalizeVector3 b verts (Some (m0, m1, m2)) vTexCoords
                  epsilon nCheckRange).1
     = (AddTriangle m3dNormalizeVector3 b verts (Some (n0, n1, n2)) vTexCoords
                    epsilon nCheckRange).1) /\
  (hasN b = false ->
     pNorms (AddTriangle m3dNormalizeVector3 b verts (Some (n0, n1, n2)) vTexCoords
                         epsilon nCheckRange).1 = nullptr).
Proof.
  intros Hroom. split; [|split].
  - unfold AddTriangle. apply Z.leb_gt in Hroom. by rewrite Hroom.
  - intros m0 m1 m2 E0 E1 E2. unfold AddTriangle. case_match; [done|].
    cbn [fmap option_fmap option_map map3]. by rewrite E0, E1, E2.
  - intros Hno.
    destruct (AddTriangle_pointers b verts (Some (n0, n1, n2)) vTexCoords
                epsilon nCheckRange) as (Hn & _).
    apply Hn. unfold hasN in Hno. by destruct (pNorms b).
Qed.

End Facts.

(** ** The corner rule and the emitted indices *)

Section Rule.

Variable m3dNormalizeVector3 : M3DVector3f -> M3DVector3f.

Lemma AddTriangle_rule_of_spec b verts vNorms vTexCoords eps range :
  batch_ok b -> nNumVerts b <= nNumIndexes b ->
  nNumIndexes b + 3 <= nMaxIndexes b -> nMaxIndexes b <= 2 ^ 16 ->
  0 <= range < 2 ^ 31 ->
  triangle_rule_of_spec (Z.max 0 (nNumVerts b - range))
    (channels_given b vNorms vTexCoords)
    (corner_of m3dNormalizeVector3 (Call verts vNorms vTexCoords eps range) 0)
    (corner_of m3dNormalizeVector3 (Call verts vNorms vTexCoords eps range) 1)
    (corner_of m3dNormalizeVector3 (Call verts vNorms vTexCoords eps range) 2)
    eps (AddTriangle m3dNormalizeVector3 b verts vNorms vTexCoords eps range).1.
Proof.
  intros Hok HVI HI HN Hr. unfold AddTriangle.
  assert (0 <= nNumVerts b) as HV0 by (destruct Hok as (_ & ? & _); lia).
  destruct (nMaxIndexes b <=? nNumIndexes b) eqn:Hfull;
    [apply Z.leb_le in Hfull; lia|clear Hfull].
  cbn [fst foldl corner_of call_verts call_norms call_tex].
  set (vn := map3 m3dNormalizeVector3 <$> vNorms).
  rewrite <- (release_channels_given b vNorms vn vTexCoords)
    by (subst vn; by rewrite fmap_is_Some).
  set (b0 := release_channels b vn vTexCoords).
  destruct (release_channels_counters b vn vTexCoords) as (EV & EI & EN).
  fold b0 in EV, EI, EN.
  assert (batch_ok b0) as Hok0 by by apply release_channels_ok.
  rewrite search_start_window by lia. rewrite EV.
  set (start := Z.max 0 (nNumVerts b - range)).
  set (b1 := add_corner b0 start (at3 verts 0) (at3_opt vn 0) (at3_opt vTexCoords 0) eps).
  destruct (add_corner_room b0 start (at3 verts 0) (at3_opt vn 0)
              (at3_opt vTexCoords 0) eps) as (R1 & I1 & V1 & N1); try lia; [done|].
  fold b1 in R1, I1, V1, N1.
  assert (batch_ok b1) as Hok1 by by apply add_corner_ok.
  set (b2 := add_corner b1 start (at3 verts 1) (at3_opt vn 1) (at3_opt vTexCoords 1) eps).
  destruct (add_corner_room b1 start (at3 verts 1) (at3_opt vn 1)
              (at3_opt vTexCoords 1) eps) as (R2 & I2 & V2 & N2); try lia; [done|].
  fold b2 in R2, I2, V2, N2.
  assert (batch_ok b2) as Hok2 by by apply add_corner_ok.
  set (b3 := add_corner b2 start (at3 verts 2) (at3_opt vn 2) (at3_opt vTexCoords 2) eps).
  destruct (add_corner_room b2 start (at3 verts 2) (at3_opt vn 2)
              (at3_opt vTexCoords 2) eps) as (R3 & I3 & V3 & N3); try lia; [done|].
  fold b3 in R3, I3, V3, N3.
  exists b1, b2.
  split; [apply corner_rule_of_spec_intro; [done|lia|lia|done]|].
  split; apply corner_rule_of_spec_intro; try done; lia.
Qed.

Lemma AddTriangle_writes_ok b verts vNorms vTexCoords eps range mem :
  batch_ok b -> writes_ok b mem ->
  writes_ok (AddTriangle m3dNormalizeVector3 b verts vNorms vTexCoords eps range).1
            (AddTriangle_writes m3dNormalizeVector3 b verts vNorms vTexCoords eps range
               mem).
Proof.
  intros Hok Hw. unfold AddTriangle, AddTriangle_writes.
  destruct (nMaxIndexes b <=? nNumIndexes b); [done|].
  cbn [fst snd foldl].
  set (vn := map3 m3dNormalizeVector3 <$> vNorms).
  set (b0 := release_channels b vn vTexCoords).
  assert (batch_ok b0) as Hok0 by by apply release_channels_ok.
  assert (writes_ok b0 mem) as Hw0 by by apply release_channels_writes.
  pose proof (search_start_nonneg b0 range) as Hstart.
  set (start := search_start b0 range) in *.
  apply corner_writes_ok; [by do 2 apply add_corner_ok| |done].
  apply corner_writes_ok; [by apply add_corner_ok| |done].
  by apply corner_writes_ok.
Qed.

Lemma indexes_written_from cs : forall b mem,
  batch_ok b -> writes_ok b mem ->
  let step := fun '(b, mem) c =>
    (add_triangle m3dNormalizeVector3 b c,
     AddTriangle_writes m3dNormalizeVector3 b (call_verts c) (call_norms c)
       (call_tex c) (call_epsilon c) (call_range c) mem) in
  (foldl step (b, mem) cs).1 = add_triangles m3dNormalizeVector3 b cs /\
  writes_ok (add_triangles m3dNormalizeVector3 b cs) (foldl step (b, mem) cs).2.
Proof.
  induction cs as [|c cs IH]; intros b mem Hok Hw; [done|].
  cbn zeta. cbn [foldl].
  change (add_triangles m3dNormalizeVector3 b (c :: cs))
    with (add_triangles m3dNormalizeVector3 (add_triangle m3dNormalizeVector3 b c) cs).
  apply IH.
  - by apply AddTriangle_batch_ok.
  - by apply AddTriangle_writes_ok.
Qed.

Lemma indexes_written_ok b0 n cs :
  0 <= n < 2 ^ 32 ->
  writes_ok (add_triangles m3dNormalizeVector3 (BeginMesh b0 n) cs)
            (indexes_written m3dNormalizeVector3 (BeginMesh b0 n) cs).
Proof.
  intros Hn. unfold indexes_written.
  apply (indexes_written_from cs (BeginMesh b0 n) ∅).
  - by apply BeginMesh_ok.
  - apply BeginMesh_writes.
Qed.

(** C1 (amended).  In a batch begun with at most [2^16] slots and grown by
    any calls, a call that finds room for three more indices and is given a
    range that is not negative treats its three corners in order by the
    corner rule of the spec, on the batch without the channels whose
    argument is null: the window starts at [max(0, V0 - range)], where [V0]
    is the vertex count on entry to the call, and ends before the vertex
    count [V] that the corner finds; when some stored vertex of the window
    is within [epsilon] of the corner on each component of the position
    and of every present channel, the smallest such vertex number is
    written to slot [I] of the index array, [I] grows by one and [V] and
    the vertices stay; otherwise the position of the corner, and its
    normal and its texture coordinates when the channel is present, are
    written to slot [V] of their arrays, [V] is written to slot [I] of the
    index array, and [I] and [V] grow by one. *)
Theorem AddTriangle_corner_rule (b0 : GLTriangleBatch) (n : Z) (before : list call)
    (verts : array3 M3DVector3f) (vNorms : option (array3 M3DVector3f))
    (vTexCoords : option (array3 M3DVector2f)) (epsilon : GLfloat) (nCheckRange : Z) :
  0 <= n <= 2 ^ 16 ->
  nNumIndexes (add_triangles m3dNormalizeVector3 (BeginMesh b0 n) before) + 3
    <= nMaxIndexes (add_triangles m3dNormalizeVector3 (BeginMesh b0 n) before) ->
  0 <= nCheckRange < 2 ^ 31 ->
  let b := add_triangles m3dNormalizeVector3 (BeginMesh b0 n) before in
  let c := Call verts vNorms vTexCoords epsilon nCheckRange in
  triangle_rule_of_spec (Z.max 0 (nNumVerts b - nCheckRange))
    (channels_given b vNorms vTexCoords)
    (corner_of m3dNormalizeVector3 c 0) (corner_of m3dNormalizeVector3 c 1)
    (corner_of m3dNormalizeVector3 c 2) epsilon
    (AddTriangle m3dNormalizeVector3 b verts vNorms vTexCoords epsilon nCheckRange).1.
Proof.
  intros Hn Hroom Hrange b c.
  destruct (begun_counts m3dNormalizeVector3 b0 n before Hn) as (Hok & HVI & HN).
  fold b in Hok, HVI, HN.
  apply AddTriangle_rule_of_spec; try done; lia.
Qed.

(** C4.  After any sequence of calls on a batch begun with [n] slots, the
    index emitted at every position [k] with [0 <= k < I], that is the
    value stored at [pIndexes + k], is a value [v] with [0 <= v < V]; for
    [k] below [n] it is the content of cell [k] of the index array, and for
    [k] from [n] on, which is where the stores of a call that overruns the
    array go, the array has no cell. *)
Theorem index_validity (b0 : GLTriangleBatch) (n : Z) (cs : list call) (k : Z) :
  0 <= n < 2 ^ 32 ->
  0 <= k < nNumIndexes (add_triangles m3dNormalizeVector3 (BeginMesh b0 n) cs) ->
  let b := add_triangles m3dNormalizeVector3 (BeginMesh b0 n) cs in
  exists v,
    indexes_written m3dNormalizeVector3 (BeginMesh b0 n) cs !! k = Some v /\
    0 <= v < nNumVerts b /\
    (k < nMaxIndexes b -> cells (pIndexes b) !! Z.to_nat k = Some v) /\
    (nMaxIndexes b <= k -> cells (pIndexes b) !! Z.to_nat k = None).
Proof.
  intros Hn Hk b. fold b in Hk.
  destruct (indexes_written_ok b0 n cs Hn) as (Hall & Hval & Hblock).
  fold b in Hall, Hval, Hblock.
  destruct (Hall k Hk) as (v & Hv). exists v.
  split; [done|]. split; [by apply (Hval k)|]. split; [intros Hin; by apply Hblock|].
  intros Hout.
  destruct (add_triangles_ok m3dNormalizeVector3 cs (BeginMesh b0 n)
              (BeginMesh_ok b0 n Hn)) as ((_ & _ & _ & (l & Hl & Hlen) & _) & _).
  fold b in Hl, Hlen. rewrite Hl. cbn. apply lookup_ge_None. lia.
Qed.

End Rule.

(** C9.  [LoadMesh] returns [true] whatever the stream holds; when it is
    asked for normals and the read of the normal block comes back short, the
    batch it leaves has a null normal pointer, [hasN] false and an empty
    normal buffer object; likewise for the texture coordinates. *)
Theorem LoadMesh_tolerates_short_read (b : GLTriangleBatch) (pFile : FILE)
    (bNormals bTexCoords : bool) :
  let geometry := load_geometry b pFile in
  let normals := load_normals geometry.1 geometry.2 bNormals in
  let loaded := LoadMesh b pFile bNormals bTexCoords in
  loaded.1.1 = true /\
  (bNormals = true ->
   (fread (12 * nNumVerts geometry.1) geometry.2).1 = None ->
   pNorms loaded.1.2 = nullptr /\ hasN loaded.1.2 = false /\
   NORMAL_DATA (bufferObjects loaded.1.2) = None) /\
  (bTexCoords = true ->
   (fread (8 * nNumVerts normals.1) normals.2).1 = None ->
   pTexCoords loaded.1.2 = nullptr /\ hasT loaded.1.2 = false /\
   TEXTURE_DATA (bufferObjects loaded.1.2) = None).
Proof.
  cbn zeta. unfold LoadMesh.
  assert (bufferObjects (load_geometry b pFile).1 = glGenBuffers) as Hgen.
  { unfold load_geometry. repeat (destruct (fread _ _) as [[?|] ?]); by destruct b. }
  destruct (load_geometry b pFile) as [b1 f1]. cbn [fst snd] in *.
  assert (bufferObjects (load_normals b1 f1 bNormals).1 = glGenBuffers) as Hgen2.
  { unfold load_normals. destruct bNormals; [|done].
    destruct (fread (12 * nNumVerts b1) f1) as [[?|] ?]; destruct b1; cbn in *; done. }
  assert (pNorms (load_normals b1 f1 true).1 = nullptr \/
          (fread (12 * nNumVerts b1) f1).1 <> None) as Hshort.
  { unfold load_normals.
    destruct (fread (12 * nNumVerts b1) f1) as [[?|] ?]; [by right|left].
    by destruct b1. }
  destruct (load_normals b1 f1 bNormals) as [b2 f2] eqn:Hn.
  rewrite ?Hn in Hgen2. cbn [fst snd] in *.
  assert (bufferObjects (load_texcoords b2 f2 bTexCoords).1 = glGenBuffers /\
          pNorms (load_texcoords b2 f2 bTexCoords).1 = pNorms b2) as (Hgen3 & Hsame).
  { unfold load_texcoords. destruct bTexCoords; [|done].
    destruct (fread (8 * nNumVerts b2) f2) as [[?|] ?]; destruct b2; cbn in *; by split. }
  assert (pTexCoords (load_texcoords b2 f2 true).1 = nullptr \/
          (fread (8 * nNumVerts b2) f2).1 <> None) as Hshort2.
  { unfold load_texcoords.
    destruct (fread (8 * nNumVerts b2) f2) as [[?|] ?]; [by right|left].
    by destruct b2. }
  destruct (load_texcoords b2 f2 bTexCoords) as [b3 f3] eqn:Ht.
  rewrite ?Ht in Hgen3, Hsame. cbn [fst snd] in *.
  split; [done|]. split.
  - intros -> Hread. destruct Hshort as [Hnull|?]; [|done].
    rewrite Hn in Hnull. cbn [fst] in Hnull. rewrite Hnull in Hsame.
    clear -Hsame Hgen3.
    destruct b3 as [pI pV pN pT nMax nI nV g m r]. cbn in Hsame, Hgen3. subst pN g.
    unfold hasN. cbn. by destruct pT.
  - intros -> Hread. destruct Hshort2 as [Hnull|?]; [|done].
    rewrite Ht in Hnull. cbn [fst] in Hnull.
    clear -Hnull Hgen3.
    destruct b3 as [pI pV pN pT nMax nI nV g m r]. cbn in Hnull, Hgen3. subst pT g.
    unfold hasT. cbn. by destruct pN.
Qed.

(** ** The scenarios of the spec *)

(** S1: three times the same triangle. *)
Example scenario_S1 :
  let b := add_triangles Sample.unit_length (Sample.begun 100)
             [Sample.bare Sample.abc (Sample.ratio 1 1000000) 64;
              Sample.bare Sample.abc (Sample.ratio 1 1000000) 64;
              Sample.bare Sample.abc (Sample.ratio 1 1000000) 64] in
  nNumVerts b = 3 /\ nNumIndexes b = 9 /\
  take 9 (cells (pIndexes b)) = [0; 1; 2; 0; 1; 2; 0; 1; 2].
Proof. by vm_compute. Qed.

(** S2: a corner moved by 5e-4 is within a tolerance of 1e-3. *)
Example scenario_S2 :
  let b := add_triangles Sample.unit_length (Sample.begun 100)
             [Sample.bare Sample.abc (Sample.ratio 1 1000) 64;
              Sample.bare Sample.nudged (Sample.ratio 1 1000) 64] in
  nNumVerts b = 3 /\ nNumIndexes b = 6.
Proof. by vm_compute. Qed.

(** S3: it is not within a tolerance of 1e-5 and becomes vertex 3. *)
Example scenario_S3 :
  let b := add_triangles Sample.unit_length (Sample.begun 100)
             [Sample.bare Sample.abc (Sample.ratio 1 100000) 64;
              Sample.bare Sample.nudged (Sample.ratio 1 100000) 64] in
  nNumVerts b = 4 /\ nNumIndexes b = 6 /\
  take 6 (cells (pIndexes b)) = [0; 1; 2; 0; 3; 2].
Proof. by vm_compute. Qed.

(** S4: a triangle with normals, then one without. *)
Example scenario_S4 :
  let b := add_triangles Sample.unit_length (Sample.begun 100)
             [Call Sample.abc (Some Sample.up) None Sample.half 64;
              Sample.bare Sample.def Sample.half 64] in
  hasN b = false /\ pNorms b = nullptr.
Proof. by vm_compute. Qed.

(** S5: six slots, three triangles with corners that are all distinct. *)
Example scenario_S5 :
  let b := add_triangles Sample.unit_length (Sample.begun 6)
             [Sample.bare Sample.abc Sample.half 64;
              Sample.bare Sample.def Sample.half 64;
              Sample.bare Sample.ghi Sample.half 64] in
  nNumVerts b = 6 /\ nNumIndexes b = 6.
Proof. by vm_compute. Qed.

(** ** The properties on sample data *)

Lemma AddTriangle_corner_rule_holds :
  let b := add_triangles Sample.unit_length (BeginMesh GLTriangleBatch_new 8)
             [Sample.bare Sample.abc Sample.half 1] in
  let c := Call Sample.dec None None Sample.half 1 in
  triangle_rule_of_spec (Z.max 0 (nNumVerts b - 1))
    (channels_given b None None)
    (corner_of Sample.unit_length c 0) (corner_of Sample.unit_length c 1)
    (corner_of Sample.unit_length c 2) Sample.half
    (AddTriangle Sample.unit_length b Sample.dec None None Sample.half 1).1.
Proof.
  apply (AddTriangle_corner_rule Sample.unit_length GLTriangleBatch_new 8
           [Sample.bare Sample.abc Sample.half 1] Sample.dec None None Sample.half 1).
  - lia.
  - vm_compute. discriminate.
  - lia.
Defined.

(** With a range of 1, the third corner of the second triangle is matched
    with vertex 2, which lies before [V - range = 4]: the window start was
    fixed at [3 - 1 = 2] on entry to the call. *)
Lemma window_start_not_recomputed :
  let b := add_triangles Sample.unit_length (BeginMesh GLTriangleBatch_new 8)
             [Sample.bare Sample.abc Sample.half 1] in
  let c := Call Sample.dec None None Sample.half 1 in
  let b' := (AddTriangle Sample.unit_length b Sample.dec None None Sample.half 1).1 in
  nNumIndexes b + 3 <= nMaxIndexes b /\
  nNumVerts b' = 5 /\ take 6 (cells (pIndexes b')) = [0; 1; 2; 3; 4; 2] /\
  ~ triangle_rule (fun b'' => Z.max 0 (nNumVerts b'' - 1))
      (release_channels b (map3 Sample.unit_length <$> None) None)
      (corner_of Sample.unit_length c 0) (corner_of Sample.unit_length c 1)
      (corner_of Sample.unit_length c 2) Sample.half b'.
Proof.
  cbn zeta. split; [vm_compute; discriminate|].
  split; [by vm_compute|]. split; [by vm_compute|].
  intros H. apply triangle_rule_result_spec in H.
  apply (f_equal nNumVerts) in H. vm_compute in H. discriminate.
Qed.

(** C2.  The same triangle added twice to a batch begun with four slots: the
    second call passes the entry check with [I = 3], its three corners all
    match, and each match stores an index and counts it without looking at
    the capacity, so the call ends with [I = 6 > N_max = 4] (two stores fall
    past the end of the index array), against the invariant [I <= N_max]. *)
Theorem index_count_exceeds_capacity :
  let b := add_triangles Sample.unit_length (BeginMesh GLTriangleBatch_new 4)
             [Sample.bare Sample.abc Sample.half 64;
              Sample.bare Sample.abc Sample.half 64] in
  nMaxIndexes b = 4 /\ nNumIndexes b = 6 /\ nNumVerts b = 3 /\
  length (cells (pIndexes b)) = 4%nat.
Proof. vm_compute. done. Qed.

(** Two calls with the same triangle and a tolerance of zero: corner 0 and
    corner 3 are the same, and they are given the indices 0 and 3. *)
Lemma zero_epsilon_never_matches :
  let b := BeginMesh GLTriangleBatch_new 8 in
  let cs := [Sample.bare Sample.abc f32_zero 64; Sample.bare Sample.abc f32_zero 64] in
  Forall (fun c => call_epsilon c = f32_zero) cs /\
  ranges_cover Sample.unit_length b cs /\
  nNumIndexes b + 3 * Z.of_nat (length cs) <= nMaxIndexes b /\
  corners Sample.unit_length cs !! 0%nat = corners Sample.unit_length cs !! 3%nat /\
  cells (pIndexes (add_triangles Sample.unit_length b cs)) !! 0%nat = Some 0 /\
  cells (pIndexes (add_triangles Sample.unit_length b cs)) !! 3%nat = Some 3.
Proof.
  cbn zeta. split; [by repeat constructor|].
  split; [vm_compute; repeat split; discriminate|].
  split; [vm_compute; discriminate|].
  split; [done|]. split; vm_compute; done.
Qed.

(** A corner with a NaN in its position does not match the vertex stored
    for it, whatever the tolerance. *)
Example nan_corner_is_stored_again :
  let b := add_triangles Sample.unit_length (Sample.begun 8)
             [Sample.bare Sample.nan_bc Sample.half 64;
              Sample.bare Sample.nan_bc Sample.half 64] in
  nNumVerts b = 4 /\ take 6 (cells (pIndexes b)) = [0; 1; 2; 3; 1; 2].
Proof. by vm_compute. Qed.

(** Corners whose normal is the zero vector: the caller's attributes are
    finite and the same in both calls, but the normalizer of the sample
    data leaves NaN, which is what is stored and compared, and nothing
    matches. *)
Example zero_normal_corner_is_stored_again :
  let zero := (Sample.pos 0 0 0, Sample.pos 0 0 0, Sample.pos 0 0 0) in
  let b := add_triangles Sample.unit_length (Sample.begun 8)
             [Call Sample.abc (Some zero) None Sample.half 64;
              Call Sample.abc (Some zero) None Sample.half 64] in
  at_norm (corner_of Sample.unit_length (Call Sample.abc (Some zero) None Sample.half 64) 0)
  = Vec3 S754_nan S754_nan S754_nan /\
  nNumVerts b = 6 /\ take 6 (cells (pIndexes b)) = [0; 1; 2; 3; 4; 5].
Proof. by vm_compute. Qed.

(** The second corner of the first call is stored as vertex 1, for its
    texture coordinates differ from those of vertex 0; once the second call
    has released the texture channel, a corner at the same position is given
    vertex 0. *)
Example released_channel_changes_first_match :
  let b := add_triangles Sample.unit_length (Sample.begun 8)
             [Call Sample.aab None (Some Sample.uv) Sample.half 64;
              Sample.bare Sample.aab Sample.half 64] in
  take 6 (cells (pIndexes b)) = [0; 1; 2; 0; 0; 2].
Proof. by vm_compute. Qed.

Lemma same_corner_same_index_holds :
  let b := add_triangles Sample.unit_length (BeginMesh GLTriangleBatch_new 8) [] in
  let cs := [Sample.full Sample.abc Sample.half 64;
             Sample.full Sample.abc Sample.half 64] in
  exists i,
    cells (pIndexes (add_triangles Sample.unit_length b cs))
      !! Z.to_nat (nNumIndexes b + Z.of_nat 0) = Some i /\
    cells (pIndexes (add_triangles Sample.unit_length b cs))
      !! Z.to_nat (nNumIndexes b + Z.of_nat 3) = Some i.
Proof.
  apply (same_corner_same_index Sample.unit_length GLTriangleBatch_new 8 []
           [Sample.full Sample.abc Sample.half 64; Sample.full Sample.abc Sample.half 64]
           Sample.half 0 3
           (corner_of Sample.unit_length (Sample.full Sample.abc Sample.half 64) 0)
           (corner_of Sample.unit_length (Sample.full Sample.abc Sample.half 64) 0)).
  - lia.
  - reflexivity.
  - vm_compute. discriminate.
  - repeat constructor; intros _; eexists; reflexivity.
  - vm_compute. repeat split; discriminate.
  - reflexivity.
  - reflexivity.
  - repeat split; reflexivity.
  - vm_compute. repeat split; reflexivity.
Defined.

(** The same triangle added twice to a batch begun with four slots: the
    index emitted at position 4, past the end of the array, is 1. *)
Lemma index_validity_holds :
  let cs := [Sample.bare Sample.abc Sample.half 64;
             Sample.bare Sample.abc Sample.half 64] in
  let b := add_triangles Sample.unit_length (BeginMesh GLTriangleBatch_new 4) cs in
  exists v,
    indexes_written Sample.unit_length (BeginMesh GLTriangleBatch_new 4) cs !! 4
    = Some v /\
    0 <= v < nNumVerts b /\
    (4 < nMaxIndexes b -> cells (pIndexes b) !! Z.to_nat 4 = Some v) /\
    (nMaxIndexes b <= 4 -> cells (pIndexes b) !! Z.to_nat 4 = None).
Proof.
  apply (index_validity Sample.unit_length GLTriangleBatch_new 4
           [Sample.bare Sample.abc Sample.half 64;
            Sample.bare Sample.abc Sample.half 64] 4).
  - lia.
  - vm_compute. split; [discriminate|reflexivity].
Defined.

Example index_past_the_array :
  let cs := [Sample.bare Sample.abc Sample.half 64;
             Sample.bare Sample.abc Sample.half 64] in
  indexes_written Sample.unit_length (BeginMesh GLTriangleBatch_new 4) cs
  = {[ 0 := 0; 1 := 1; 2 := 2; 3 := 0; 4 := 1; 5 := 2 ]}.
Proof. apply map_eq. intros k. by vm_compute. Qed.

Lemma full_batch_drops_call_holds :
  let b := add_triangles Sample.unit_length (BeginMesh GLTriangleBatch_new 3)
             [Sample.bare Sample.abc Sample.half 64] in
  AddTriangle Sample.unit_length b Sample.def (Some Sample.up) None Sample.half 64
  = (b, Some Sample.up).
Proof.
  apply (full_batch_drops_call Sample.unit_length
           (add_triangles Sample.unit_length (BeginMesh GLTriangleBatch_new 3)
              [Sample.bare Sample.abc Sample.half 64])
           Sample.def (Some Sample.up) None Sample.half 64).
  vm_compute. discriminate.
Defined.

(** A batch begun with four slots holds one triangle: [I + 3 <= N_max] does
    not hold, yet the next call is not dropped; its first corner is stored
    and indexed. *)
Lemma call_short_of_room_not_dropped :
  let b := add_triangles Sample.unit_length (BeginMesh GLTriangleBatch_new 4)
             [Sample.bare Sample.abc Sample.half 64] in
  let b' := (AddTriangle Sample.unit_length b Sample.def None None Sample.half 64).1 in
  ~ nNumIndexes b + 3 <= nMaxIndexes b /\
  b' <> b /\ nNumIndexes b = 3 /\ nNumIndexes b' = 4 /\
  nNumVerts b = 3 /\ nNumVerts b' = 4.
Proof.
  cbn zeta. split; [vm_compute; by intros H|].
  split; [|by vm_compute].
  intros H. apply (f_equal nNumIndexes) in H. vm_compute in H. discriminate.
Qed.

Lemma released_channel_stays_released_holds :
  let b := BeginMesh GLTriangleBatch_new 8 in
  let b1 := (AddTriangle Sample.unit_length b Sample.abc None None Sample.half 64).1 in
  let b2 := add_triangles Sample.unit_length b1 [Sample.full Sample.def Sample.half 64] in
  nNumIndexes b < nMaxIndexes b /\
  (pNorms b1 = nullptr /\ pNorms b2 = nullptr /\ hasN b2 = false) /\
  (pTexCoords b1 = nullptr /\ pTexCoords b2 = nullptr /\ hasT b2 = false).
Proof.
  cbn zeta.
  destruct (released_channel_stays_released Sample.unit_length
              (BeginMesh GLTriangleBatch_new 8) Sample.abc None None Sample.half 64
              [Sample.full Sample.def Sample.half 64]) as (Hn & Ht).
  - vm_compute. reflexivity.
  - split; [vm_compute; reflexivity|].
    destruct (Hn eq_refl) as (N1 & N2 & N3 & _).
    destruct (Ht eq_refl) as (T1 & T2 & T3 & _).
    by repeat split.
Defined.

(** A batch begun with three slots is full after one triangle with normals
    and texture coordinates; the next call, given neither, is dropped at the
    entry check and both channels stay. *)
Lemma dropped_call_keeps_channels :
  let b := add_triangles Sample.unit_length (BeginMesh GLTriangleBatch_new 3)
             [Sample.full Sample.abc Sample.half 64] in
  let b' := (AddTriangle Sample.unit_length b Sample.def None None Sample.half 64).1 in
  hasN b' = true /\ hasT b' = true /\
  length (cells (pNorms b')) = 3%nat /\ length (cells (pTexCoords b')) = 3%nat.
Proof. by vm_compute. Qed.

(** C7.  A call with a range of -1 on an empty batch with room for three
    triangles: the window starts at [0 - (-1) = 1], past [V = 0]; the loop
    is not entered, [iMatch == nNumVerts] fails for each corner, and the
    call ends with [I = 0], where every call that is not cut short for
    capacity is to add three indices. *)
Theorem negative_range_adds_nothing :
  let b := BeginMesh GLTriangleBatch_new 9 in
  let b' := add_triangle Sample.unit_length b (Sample.bare Sample.abc Sample.half (-1)) in
  nNumIndexes b + 3 <= nMaxIndexes b /\
  nNumIndexes b = 0 /\ nNumIndexes b' = 0 /\ nNumVerts b' = 0.
Proof. cbn zeta. split; [vm_compute; discriminate|by vm_compute]. Qed.

(** C8.  Scenario S1 after [End] holds three vertices and nine indices;
    [SaveMesh] returns [true] and leaves the stream as it found it, and
    [LoadMesh] of what was written into a fresh batch reports success with
    no vertex and no index. *)
Theorem SaveMesh_writes_nothing :
  let saved := SaveMesh Sample.s1 [] in
  let loaded := LoadMesh GLTriangleBatch_new saved.2 false false in
  nNumVerts Sample.s1 = 3 /\ nNumIndexes Sample.s1 = 9 /\
  INDEX_DATA (bufferObjects Sample.s1) = Some [0; 1; 2; 0; 1; 2; 0; 1; 2] /\
  saved = (true, []) /\
  loaded.1.1 = true /\
  nNumVerts loaded.1.2 = 0 /\ nNumIndexes loaded.1.2 = 0 /\
  INDEX_DATA (bufferObjects loaded.1.2) = Some [].
Proof. by vm_compute. Qed.

Lemma LoadMesh_tolerates_short_read_holds :
  let geometry := load_geometry GLTriangleBatch_new Sample.short_stream in
  let normals := load_normals geometry.1 geometry.2 true in
  let loaded := LoadMesh GLTriangleBatch_new Sample.short_stream true true in
  nNumVerts geometry.1 = 3 /\ length geometry.2 = 2%nat /\
  (fread (12 * nNumVerts geometry.1) geometry.2).1 = None /\
  (fread (8 * nNumVerts normals.1) normals.2).1 = None /\
  loaded.1.1 = true /\
  (pNorms loaded.1.2 = nullptr /\ hasN loaded.1.2 = false /\
   NORMAL_DATA (bufferObjects loaded.1.2) = None) /\
  (pTexCoords loaded.1.2 = nullptr /\ hasT loaded.1.2 = false /\
   TEXTURE_DATA (bufferObjects loaded.1.2) = None).
Proof.
  cbn zeta.
  destruct (LoadMesh_tolerates_short_read GLTriangleBatch_new Sample.short_stream
              true true) as (Hok & Hn & Ht).
  split; [reflexivity|]. split; [reflexivity|].
  split; [reflexivity|]. split; [reflexivity|].
  split; [exact Hok|].
  split; [apply Hn|apply Ht]; reflexivity.
Defined.

Lemma normals_normalized_in_place_holds :
  let b := add_triangles Sample.unit_length (BeginMesh GLTriangleBatch_new 8)
             [Sample.bare Sample.abc Sample.half 64] in
  hasN b = false /\
  (AddTriangle Sample.unit_length b Sample.def (Some Sample.up) None Sample.half 64).2
  = Some (Sample.pos 0 0 1, Sample.pos 0 0 1, Sample.pos 0 0 1) /\
  pNorms (AddTriangle Sample.unit_length b Sample.def (Some Sample.up) None
            Sample.half 64).1 = nullptr.
Proof.
  cbn zeta.
  pose proof (normals_normalized_in_place Sample.unit_length
                (add_triangles Sample.unit_length (BeginMesh GLTriangleBatch_new 8)
                   [Sample.bare Sample.abc Sample.half 64])
                Sample.def (Sample.pos 0 0 2) (Sample.pos 0 0 3) (Sample.pos 0 0 4)
                None Sample.half 64) as H.
  destruct H as (Hout & _ & Hnull); [vm_compute; reflexivity|].
  split; [reflexivity|]. split; [exact Hout|]. apply Hnull. reflexivity.
Defined.

(** * Further properties of the code *)

(** ** What a corner leaves alone *)

Lemma add_corner_frame b start v n t eps :
  let b' := add_corner b start v n t eps in
  nMaxIndexes b' = nMaxIndexes b /\ bufferObjects b' = bufferObjects b /\
  bMadeStuff b' = bMadeStuff b /\ boundingSphereRadius b' = boundingSphereRadius b /\
  non_null (pNorms b') = non_null (pNorms b) /\
  non_null (pTexCoords b') = non_null (pTexCoords b).
Proof.
  cbn zeta.
  destruct (add_corner_outcome b start v n t eps)
    as [(i & _ & ->)|[(_ & _ & _ & _ & ->)|(_ & _ & ->)]]; [| |done].
  - by destruct b.
  - destruct b as [pI pV pN pT nMax nI nV g m r]. by destruct pN, pT.
Qed.

Lemma add_corner_step b start v n t eps :
  batch_ok b -> nNumIndexes b < 2 ^ 32 - 1 ->
  let b' := add_corner b start v n t eps in
  nNumVerts b <= nNumVerts b' /\
  nNumIndexes b <= nNumIndexes b' <= nNumIndexes b + 1 /\
  nNumVerts b' - nNumVerts b <= nNumIndexes b' - nNumIndexes b /\
  (forall k, 0 <= k < nNumVerts b ->
     cells (pVerts b') !! Z.to_nat k = cells (pVerts b) !! Z.to_nat k /\
     cells (pNorms b') !! Z.to_nat k = cells (pNorms b) !! Z.to_nat k /\
     cells (pTexCoords b') !! Z.to_nat k = cells (pTexCoords b) !! Z.to_nat k) /\
  (forall k, 0 <= k < nNumIndexes b ->
     cells (pIndexes b') !! Z.to_nat k = cells (pIndexes b) !! Z.to_nat k).
Proof.
  intros Hok HI. cbn zeta.
  assert (0 <= nNumVerts b <= nMaxIndexes b /\ nMaxIndexes b < 2 ^ 32 /\
          0 <= nNumIndexes b) as HV0
    by (destruct Hok as (? & ? & ? & _); lia).
  destruct (add_corner_outcome b start v n t eps)
    as [(i & _ & ->)|[(_ & _ & HV & _ & ->)|(_ & _ & ->)]].
  - destruct b as [pI pV pN pT nMax nI nV g m r]. cbn in *.
    rewrite GLuint_of_small by lia.
    split; [lia|]. split; [lia|]. split; [lia|]. split; [done|].
    intros k Hk. rewrite cells_poke. apply list_lookup_insert_ne. lia.
  - destruct b as [pI pV pN pT nMax nI nV g m r]. cbn in *.
    assert (forall k, 0 <= k < nV -> Z.to_nat nV <> Z.to_nat k) as Hne by lia.
    assert (forall k, 0 <= k < nI -> Z.to_nat nI <> Z.to_nat k) as HneI by lia.
    destruct pN, pT; cbn; rewrite !GLuint_of_small by lia;
      (split; [lia|]; split; [lia|]; split; [lia|]; split;
       [intros k Hk; rewrite ?cells_poke; repeat split; try done;
        apply list_lookup_insert_ne; by apply Hne
       |intros k Hk; rewrite ?cells_poke; apply list_lookup_insert_ne; by apply HneI]).
  - repeat split; try done; lia.
Qed.

Lemma continues_refl b : continues b b.
Proof. unfold continues. repeat split; try done; try lia; by right. Qed.

Lemma continues_trans b1 b2 b3 :
  continues b1 b2 -> continues b2 b3 -> continues b1 b3.
Proof.
  intros (V12 & I12 & D12 & (N12 & G12 & M12 & R12) & (Pn12 & Pt12) & C12 & X12)
         (V23 & I23 & D23 & (N23 & G23 & M23 & R23) & (Pn23 & Pt23) & C23 & X23).
  unfold continues.
  split; [lia|]. split; [lia|]. split; [lia|].
  split; [repeat split; congruence|].
  split; [split; auto|].
  split.
  - intros k Hk.
    destruct (C12 k Hk) as (Cv & Cn & Ct).
    destruct (C23 k) as (Cv' & Cn' & Ct'); [lia|].
    split; [congruence|]. split.
    + destruct Cn' as [?|Cn']; [by left|].
      destruct Cn as [Cn|Cn]; [left; by apply Pn23|right; congruence].
    + destruct Ct' as [?|Ct']; [by left|].
      destruct Ct as [Ct|Ct]; [left; by apply Pt23|right; congruence].
  - intros k Hk. rewrite X23 by lia. by apply X12.
Qed.

Lemma add_corner_continues b start v n t eps :
  batch_ok b -> nNumIndexes b < 2 ^ 32 - 1 ->
  continues b (add_corner b start v n t eps).
Proof.
  intros Hok HI.
  destruct (add_corner_step b start v n t eps Hok HI) as (HV & HI' & HD & HC & HX).
  destruct (add_corner_frame b start v n t eps) as (HN & HG & HM & HR & _).
  destruct (add_corner_pointers b start v n t eps) as (Pn & Pt).
  unfold continues.
  split; [done|]. split; [lia|]. split; [done|]. split; [done|]. split; [done|].
  split; [|done].
  intros k Hk. destruct (HC k Hk) as (Cv & Cn & Ct). split; [done|]. split; by right.
Qed.

Lemma release_channels_continues b vNorms vTexCoords :
  continues b (release_channels b vNorms vTexCoords).
Proof.
  destruct b as [pI pV pN pT nMax nI nV g m r].
  unfold continues, release_channels; cbn.
  repeat case_match; cbn; repeat split; try done; try lia; try (by left); by right.
Qed.

(** ** The graphics side is carried along *)

Lemma search_graphics pI pV pN pT nMax nI nV g m r g' m' r' v n t eps trips i :
  search (Batch pI pV pN pT nMax nI nV g' m' r') v n t eps trips i
  = search (Batch pI pV pN pT nMax nI nV g m r) v n t eps trips i.
Proof.
  revert i. induction trips as [|trips IH]; intros i; [done|].
  cbn [search]. rewrite IH. done.
Qed.

Lemma add_corner_graphics b g m r start v n t eps :
  add_corner (set_boundingSphereRadius (set_bMadeStuff (set_bufferObjects b g) m) r)
             start v n t eps
  = set_boundingSphereRadius
      (set_bMadeStuff (set_bufferObjects (add_corner b start v n t eps) g) m) r.
Proof.
  destruct b as [pI pV pN pT nMax nI nV g0 m0 r0].
  unfold add_corner. cbn [set_boundingSphereRadius set_bMadeStuff set_bufferObjects
    pIndexes pVerts pNorms pTexCoords nMaxIndexes nNumIndexes nNumVerts
    bufferObjects bMadeStuff boundingSphereRadius].
  rewrite (search_graphics pI pV pN pT nMax nI nV g0 m0 r0 g m r).
  destruct (search _ v n t eps _ start) as [[] i]; cbn;
    repeat case_match; try done; by destruct pN, pT.
Qed.

(** ** Comparing binary32 values *)

Lemma SFltb_irrefl (x : GLfloat) : SFltb x x = false.
Proof.
  unfold SFltb, SFcompare.
  destruct x as [s|s| |s m e]; try done; destruct s; try done;
    rewrite Z.compare_refl; change (Pos.compare_cont Eq m m) with (Pos.compare m m);
    by rewrite Pos.compare_refl.
Qed.

Lemma SFltb_finite_pos (m1 m2 : positive) (e1 e2 : Z) :
  SFltb (S754_finite false m1 e1) (S754_finite false m2 e2) = true
  <-> e1 < e2 \/ (e1 = e2 /\ (m1 < m2)%positive).
Proof.
  unfold SFltb, SFcompare.
  change (Pos.compare_cont Eq m1 m2) with (Pos.compare m1 m2).
  destruct (Z.compare_spec e1 e2); [|split; intros; try lia; done|split; intros; try lia; done].
  destruct (Pos.compare_spec m1 m2); split; intros; try lia; try done.
Qed.

Lemma SFltb_finite_neg (m1 m2 : positive) (e1 e2 : Z) :
  SFltb (S754_finite true m1 e1) (S754_finite true m2 e2) = true
  <-> e2 < e1 \/ (e1 = e2 /\ (m2 < m1)%positive).
Proof.
  unfold SFltb, SFcompare.
  change (Pos.compare_cont Eq m1 m2) with (Pos.compare m1 m2).
  destruct (Z.compare_spec e1 e2); [|split; intros; try lia; done|split; intros; try lia; done].
  destruct (Pos.compare_spec m1 m2); cbn; split; intros; try lia; try done.
Qed.

Lemma SFltb_trans (x y z : GLfloat) :
  SFltb x y = true -> SFltb y z = true -> SFltb x z = true.
Proof.
  destruct x as [[]|[]| |[] mx ex], y as [[]|[]| |[] my ey], z as [[]|[]| |[] mz ez];
    try done; rewrite ?SFltb_finite_pos, ?SFltb_finite_neg; lia.
Qed.

(** ** The finalizer *)

Lemma largest_of_fold (f : Z -> GLfloat) (l : list Z) : forall acc r,
  r = foldl (fun radius i => if SFltb radius (f i) then f i else radius) acc l ->
  (forall y, SFltb acc y = false -> SFltb r y = false) /\
  (forall k, k ∈ l -> SFltb r (f k) = false) /\
  (r = acc \/ exists k, k ∈ l /\ r = f k).
Proof.
  induction l as [|i l IH]; intros acc r Hr.
  - cbn in Hr. subst r. split; [done|]. split; [|by left].
    intros k Hk. by apply elem_of_nil in Hk.
  - cbn [foldl] in Hr.
    destruct (IH (if SFltb acc (f i) then f i else acc) r Hr) as (Hdom & Hall & Hin).
    clear IH Hr.
    assert (forall y, SFltb acc y = false ->
              SFltb (if SFltb acc (f i) then f i else acc) y = false) as Hdom1.
    { intros y Hy. destruct (SFltb acc (f i)) eqn:Hlt; [|done].
      destruct (SFltb (f i) y) eqn:Hlt2; [|done].
      by rewrite (SFltb_trans _ _ _ Hlt Hlt2) in Hy. }
    assert (SFltb (if SFltb acc (f i) then f i else acc) (f i) = false) as Hi.
    { destruct (SFltb acc (f i)) eqn:Hlt; [apply SFltb_irrefl|done]. }
    split; [auto|]. split.
    + intros k Hk. apply elem_of_cons in Hk as [->|Hk]; auto.
    + destruct Hin as [Hr|(k & Hk & Hr)]; rewrite Hr.
      * destruct (SFltb acc (f i)); [right|by left].
        exists i. split; [apply elem_of_cons; by left|done].
      * right. exists k. split; [apply elem_of_cons; by right|done].
Qed.

Lemma End_buffers b :
  VERTEX_DATA (bufferObjects (End_ b))
  = Some (take (Z.to_nat (nNumVerts b)) (cells (pVerts b))) /\
  INDEX_DATA (bufferObjects (End_ b))
  = Some (take (Z.to_nat (nNumIndexes b)) (cells (pIndexes b))) /\
  NORMAL_DATA (bufferObjects (End_ b))
  = (if hasN b then Some (take (Z.to_nat (nNumVerts b)) (cells (pNorms b))) else None) /\
  TEXTURE_DATA (bufferObjects (End_ b))
  = (if hasT b then Some (take (Z.to_nat (nNumVerts b)) (cells (pTexCoords b)))
     else None).
Proof.
  destruct b as [pI pV pN pT nMax nI nV g m r]. unfold hasN, hasT.
  by destruct pN, pT.
Qed.

Lemma End_counts b :
  nNumVerts (End_ b) = nNumVerts b /\ nNumIndexes (End_ b) = nNumIndexes b /\
  nMaxIndexes (End_ b) = nMaxIndexes b /\ bMadeStuff (End_ b) = true /\
  boundingSphereRadius (End_ b) = f32_sqrt (largest_length_squared b).
Proof.
  destruct b as [pI pV pN pT nMax nI nV g m r]. by destruct pN, pT.
Qed.

(** X10.  [End] sets the bounding radius to the square root of a squared
    length [m] that no stored position exceeds; [m] is the squared length
    of one of the stored positions, or zero (which it is for an empty
    batch). *)
Theorem End_bounding_radius (b : GLTriangleBatch) :
  let m := largest_length_squared b in
  boundingSphereRadius (End_ b) = f32_sqrt m /\
  (forall k, 0 <= k < nNumVerts b ->
     SFltb m (m3dGetVectorLengthSquared3 (peek (pVerts b) k)) = false) /\
  (m = f32_zero \/
   exists k, 0 <= k < nNumVerts b /\
             m = m3dGetVectorLengthSquared3 (peek (pVerts b) k)) /\
  (nNumVerts b <= 0 -> m = f32_zero /\ boundingSphereRadius (End_ b) = f32_zero).
Proof.
  cbn zeta. split; [apply End_counts|].
  unfold largest_length_squared.
  destruct (largest_of_fold (fun i => m3dGetVectorLengthSquared3 (peek (pVerts b) i))
              (seqZ 0 (nNumVerts b)) f32_zero _ eq_refl) as (_ & Hall & Hin).
  split; [|split].
  - intros k Hk. apply Hall. apply elem_of_seqZ. lia.
  - destruct Hin as [?|(k & Hk & ?)]; [by left|right].
    exists k. apply elem_of_seqZ in Hk. split; [lia|done].
  - intros HV. destruct (End_counts b) as (_ & _ & _ & _ & ->).
    unfold largest_length_squared. rewrite seqZ_nil by lia. split; [done|].
    by vm_compute.
Qed.

(** ** Where the stored vertices come from *)


Section Stored.

Variable m3dNormalizeVector3 : M3DVector3f -> M3DVector3f.







End Stored.

Section More.

Variable m3dNormalizeVector3 : M3DVector3f -> M3DVector3f.

Lemma AddTriangle_continues b verts vNorms vTexCoords eps range :
  batch_ok b -> nMaxIndexes b <= 2 ^ 16 ->
  continues b (AddTriangle m3dNormalizeVector3 b verts vNorms vTexCoords eps range).1.
Proof.
  intros Hok HN. unfold AddTriangle.
  destruct (nMaxIndexes b <=? nNumIndexes b) eqn:Hfull; [apply continues_refl|].
  apply Z.leb_gt in Hfull. cbn [fst foldl].
  set (vn := map3 m3dNormalizeVector3 <$> vNorms).
  set (b0 := release_channels b vn vTexCoords).
  destruct (release_channels_counters b vn vTexCoords) as (EV & EI & EN).
  fold b0 in EV, EI, EN.
  assert (batch_ok b0) as Hok0 by by apply release_channels_ok.
  assert (continues b b0) as C0 by apply release_channels_continues.
  set (start := search_start b0 range).
  set (b1 := add_corner b0 start (at3 verts 0) (at3_opt vn 0) (at3_opt vTexCoords 0) eps).
  assert (continues b0 b1) as C1 by (apply add_corner_continues; [done|lia]).
  assert (batch_ok b1) as Hok1 by by apply add_corner_ok.
  destruct (add_corner_step b0 start (at3 verts 0) (at3_opt vn 0)
              (at3_opt vTexCoords 0) eps Hok0) as (_ & I1 & _); [lia|].
  fold b1 in I1.
  set (b2 := add_corner b1 start (at3 verts 1) (at3_opt vn 1) (at3_opt vTexCoords 1) eps).
  assert (continues b1 b2) as C2 by (apply add_corner_continues; [done|lia]).
  assert (batch_ok b2) as Hok2 by by apply add_corner_ok.
  destruct (add_corner_step b1 start (at3 verts 1) (at3_opt vn 1)
              (at3_opt vTexCoords 1) eps Hok1) as (_ & I2 & _); [lia|].
  fold b2 in I2.
  set (b3 := add_corner b2 start (at3 verts 2) (at3_opt vn 2) (at3_opt vTexCoords 2) eps).
  assert (continues b2 b3) as C3 by (apply add_corner_continues; [done|lia]).
  eauto using continues_trans.
Qed.

Lemma add_triangles_continues cs : forall b,
  batch_ok b -> nMaxIndexes b <= 2 ^ 16 ->
  continues b (add_triangles m3dNormalizeVector3 b cs).
Proof.
  induction cs as [|c cs IH]; intros b Hok HN; [apply continues_refl|].
  change (add_triangles m3dNormalizeVector3 b (c :: cs))
    with (add_triangles m3dNormalizeVector3 (add_triangle m3dNormalizeVector3 b c) cs).
  assert (continues b (add_triangle m3dNormalizeVector3 b c)) as C1
    by by apply AddTriangle_continues.
  apply (continues_trans _ _ _ C1). apply IH.
  - by apply AddTriangle_batch_ok.
  - destruct C1 as (_ & _ & _ & (-> & _) & _). done.
Qed.


Lemma AddTriangle_frame b verts vNorms vTexCoords eps range :
  let b' := (AddTriangle m3dNormalizeVector3 b verts vNorms vTexCoords eps range).1 in
  nMaxIndexes b' = nMaxIndexes b /\ bufferObjects b' = bufferObjects b /\
  bMadeStuff b' = bMadeStuff b /\ boundingSphereRadius b' = boundingSphereRadius b.
Proof.
  cbn zeta. unfold AddTriangle. case_match; [done|]. cbn [fst foldl].
  set (vn := map3 m3dNormalizeVector3 <$> vNorms).
  set (b0 := release_channels b vn vTexCoords).
  assert (nMaxIndexes b0 = nMaxIndexes b /\ bufferObjects b0 = bufferObjects b /\
          bMadeStuff b0 = bMadeStuff b /\
          boundingSphereRadius b0 = boundingSphereRadius b) as (N0 & G0 & M0 & R0).
  { subst b0. destruct b as [pI pV pN pT nMax nI nV g m r].
    unfold release_channels; cbn. by repeat case_match. }
  set (start := search_start b0 range).
  set (b1 := add_corner b0 start (at3 verts 0) (at3_opt vn 0) (at3_opt vTexCoords 0) eps).
  destruct (add_corner_frame b0 start (at3 verts 0) (at3_opt vn 0)
              (at3_opt vTexCoords 0) eps) as (N1 & G1 & M1 & R1 & _).
  fold b1 in N1, G1, M1, R1.
  set (b2 := add_corner b1 start (at3 verts 1) (at3_opt vn 1) (at3_opt vTexCoords 1) eps).
  destruct (add_corner_frame b1 start (at3 verts 1) (at3_opt vn 1)
              (at3_opt vTexCoords 1) eps) as (N2 & G2 & M2 & R2 & _).
  fold b2 in N2, G2, M2, R2.
  destruct (add_corner_frame b2 start (at3 verts 2) (at3_opt vn 2)
              (at3_opt vTexCoords 2) eps) as (N3 & G3 & M3 & R3 & _).
  repeat split; congruence.
Qed.

Lemma add_triangles_frame cs : forall b,
  nMaxIndexes (add_triangles m3dNormalizeVector3 b cs) = nMaxIndexes b /\
  bufferObjects (add_triangles m3dNormalizeVector3 b cs) = bufferObjects b /\
  bMadeStuff (add_triangles m3dNormalizeVector3 b cs) = bMadeStuff b /\
  boundingSphereRadius (add_triangles m3dNormalizeVector3 b cs)
  = boundingSphereRadius b.
Proof.
  induction cs as [|c cs IH]; intros b; [done|].
  change (add_triangles m3dNormalizeVector3 b (c :: cs))
    with (add_triangles m3dNormalizeVector3 (add_triangle m3dNormalizeVector3 b c) cs).
  destruct (IH (add_triangle m3dNormalizeVector3 b c)) as (N & G & M & R).
  destruct (AddTriangle_frame b (call_verts c) (call_norms c) (call_tex c)
              (call_epsilon c) (call_range c)) as (N' & G' & M' & R').
  unfold add_triangle in *. repeat split; congruence.
Qed.

(** X1.  Whatever the batch and whatever the calls, [AddTriangle] leaves
    the capacity, the buffer objects, [bMadeStuff] and the bounding radius
    as they were. *)
Theorem AddTriangle_leaves_graphics_side (b : GLTriangleBatch) (cs : list call) :
  let b' := add_triangles m3dNormalizeVector3 b cs in
  nMaxIndexes b' = nMaxIndexes b /\ bufferObjects b' = bufferObjects b /\
  bMadeStuff b' = bMadeStuff b /\ boundingSphereRadius b' = boundingSphereRadius b.
Proof. exact (add_triangles_frame cs b). Qed.


(** X3.  After any calls on a batch begun with at most [2^16] slots, the
    vertex count is at most the index count, and the index count is at most
    two above the capacity. *)
Theorem counts_stay_ordered (b0 : GLTriangleBatch) (n : Z) (cs : list call) :
  0 <= n <= 2 ^ 16 ->
  let b := add_triangles m3dNormalizeVector3 (BeginMesh b0 n) cs in
  0 <= nNumVerts b <= nNumIndexes b /\ nNumIndexes b <= n + 2.
Proof.
  intros Hn b.
  destruct (begun_counts m3dNormalizeVector3 b0 n cs Hn) as (Hok & HVI & HN). fold b in Hok, HVI, HN.
  destruct Hok as (_ & HV & _). lia.
Qed.

(** X4.  In a batch begun with at most [2^16] slots, a run of calls with
    ranges that are not negative, all of which find room, adds three
    indices per call. *)
Theorem three_indices_per_call (b0 : GLTriangleBatch) (n : Z) (before cs : list call) :
  0 <= n <= 2 ^ 16 ->
  nNumIndexes (add_triangles m3dNormalizeVector3 (BeginMesh b0 n) before)
    + 3 * Z.of_nat (length cs) <= n ->
  Forall (fun c => 0 <= call_range c < 2 ^ 31) cs ->
  let b := add_triangles m3dNormalizeVector3 (BeginMesh b0 n) before in
  nNumIndexes (add_triangles m3dNormalizeVector3 b cs)
  = nNumIndexes b + 3 * Z.of_nat (length cs).
Proof.
  intros Hn Hroom Hall b. fold b in Hroom.
  destruct (begun_counts m3dNormalizeVector3 b0 n before Hn) as (Hok & HVI & HN). fold b in Hok, HVI, HN.
  apply triangle_count_from; try done; lia.
Qed.

(** X5.  In a batch begun with at most [2^16] slots, later calls never
    lower the vertex count and never overwrite a stored vertex: slot [k]
    below the vertex count holds the same position afterwards, and the same
    normal and texture coordinates unless that channel was released. *)
Theorem stored_vertices_stay (b0 : GLTriangleBatch) (n : Z) (before cs : list call)
    (k : Z) :
  0 <= n <= 2 ^ 16 ->
  0 <= k < nNumVerts (add_triangles m3dNormalizeVector3 (BeginMesh b0 n) before) ->
  let b := add_triangles m3dNormalizeVector3 (BeginMesh b0 n) before in
  let b' := add_triangles m3dNormalizeVector3 b cs in
  nNumVerts b <= nNumVerts b' /\
  cells (pVerts b') !! Z.to_nat k = cells (pVerts b) !! Z.to_nat k /\
  (hasN b' = true ->
   cells (pNorms b') !! Z.to_nat k = cells (pNorms b) !! Z.to_nat k) /\
  (hasT b' = true ->
   cells (pTexCoords b') !! Z.to_nat k = cells (pTexCoords b) !! Z.to_nat k).
Proof.
  intros Hn Hk b b'. fold b in Hk.
  destruct (begun_counts m3dNormalizeVector3 b0 n before Hn) as (Hok & HVI & HN). fold b in Hok, HVI, HN.
  destruct (add_triangles_continues cs b Hok) as (HV & _ & _ & _ & _ & HC & _); [lia|].
  fold b' in HV, HC. destruct (HC k Hk) as (Cv & Cn & Ct).
  split; [done|]. split; [done|]. unfold hasN, hasT. split; intros H.
  - destruct Cn as [E|?]; [by rewrite E in H|done].
  - destruct Ct as [E|?]; [by rewrite E in H|done].
Qed.

(** X6.  In a batch begun with at most [2^16] slots, later calls never
    lower the index count, add no more vertices than indices, and never
    overwrite an emitted index: slot [k] below the index count holds the
    same value afterwards. *)
Theorem emitted_indices_stay (b0 : GLTriangleBatch) (n : Z) (before cs : list call)
    (k : Z) :
  0 <= n <= 2 ^ 16 ->
  0 <= k < nNumIndexes (add_triangles m3dNormalizeVector3 (BeginMesh b0 n) before) ->
  let b := add_triangles m3dNormalizeVector3 (BeginMesh b0 n) before in
  let b' := add_triangles m3dNormalizeVector3 b cs in
  nNumIndexes b <= nNumIndexes b' /\
  nNumVerts b' - nNumVerts b <= nNumIndexes b' - nNumIndexes b /\
  cells (pIndexes b') !! Z.to_nat k = cells (pIndexes b) !! Z.to_nat k.
Proof.
  intros Hn Hk b b'. fold b in Hk.
  destruct (begun_counts m3dNormalizeVector3 b0 n before Hn) as (Hok & HVI & HN). fold b in Hok, HVI, HN.
  destruct (add_triangles_continues cs b Hok) as (_ & HI & HD & _ & _ & _ & HX); [lia|].
  fold b' in HI, HD, HX. split; [done|]. split; [done|]. by apply HX.
Qed.

Lemma add_triangles_full b cs :
  nMaxIndexes b <= nNumIndexes b ->
  add_triangles m3dNormalizeVector3 b cs = b.
Proof.
  intros Hfull. induction cs as [|c cs IH]; [done|].
  change (add_triangles m3dNormalizeVector3 b (c :: cs))
    with (add_triangles m3dNormalizeVector3 (add_triangle m3dNormalizeVector3 b c) cs).
  assert (add_triangle m3dNormalizeVector3 b c = b) as ->; [|done].
  unfold add_triangle, AddTriangle. apply Z.leb_le in Hfull. by rewrite Hfull.
Qed.

(** X7.  Once the index count has reached the capacity, no run of calls
    changes the batch any more. *)
Theorem full_batch_is_final (b : GLTriangleBatch) (cs : list call) :
  nMaxIndexes b <= nNumIndexes b ->
  add_triangles m3dNormalizeVector3 b cs = b.
Proof. exact (add_triangles_full b cs). Qed.

(** X20.  A batch fresh from the constructor, and a batch begun with no
    slot, take no triangle: every call is dropped at the entry check. *)
Theorem unbegun_batch_takes_no_triangle (b : GLTriangleBatch) (cs : list call) :
  add_triangles m3dNormalizeVector3 GLTriangleBatch_new cs = GLTriangleBatch_new /\
  add_triangles m3dNormalizeVector3 (BeginMesh b 0) cs = BeginMesh b 0.
Proof. split; by apply add_triangles_full. Qed.

(** X8.  A call that passes the entry check with a negative range, the
    difference [V - range] fitting an [int], stores no vertex and emits no
    index, whatever its corners: it only releases the channels whose
    argument is null. *)
Theorem negative_range_skips_triangle (b : GLTriangleBatch)
    (verts : array3 M3DVector3f) (vNorms : option (array3 M3DVector3f))
    (vTexCoords : option (array3 M3DVector2f)) (epsilon : GLfloat) (nCheckRange : Z) :
  nNumIndexes b < nMaxIndexes b ->
  nCheckRange < 0 -> nNumVerts b - nCheckRange < 2 ^ 31 -> 0 <= nNumVerts b ->
  (AddTriangle m3dNormalizeVector3 b verts vNorms vTexCoords epsilon nCheckRange).1
  = release_channels b (map3 m3dNormalizeVector3 <$> vNorms) vTexCoords.
Proof.
  intros Hroom Hneg Hint HV. unfold AddTriangle.
  apply Z.leb_gt in Hroom. rewrite Hroom. cbn [fst foldl].
  set (vn := map3 m3dNormalizeVector3 <$> vNorms).
  set (b0 := release_channels b vn vTexCoords).
  destruct (release_channels_counters b vn vTexCoords) as (EV & _). fold b0 in EV.
  rewrite search_start_window by lia. rewrite EV.
  assert (forall v n t, add_corner b0 (Z.max 0 (nNumVerts b - nCheckRange)) v n t epsilon
                        = b0) as Hskip.
  { intros v n t.
    destruct (add_corner_outcome b0 (Z.max 0 (nNumVerts b - nCheckRange)) v n t epsilon)
      as [(i & (Hi & _) & _)|[(_ & Hs & _)|(_ & _ & ->)]]; [lia|lia|done]. }
  by rewrite !Hskip.
Qed.

Lemma AddTriangle_graphics b g m r verts vNorms vTexCoords eps range :
  AddTriangle m3dNormalizeVector3
    (set_boundingSphereRadius (set_bMadeStuff (set_bufferObjects b g) m) r)
    verts vNorms vTexCoords eps range
  = (set_boundingSphereRadius
       (set_bMadeStuff
          (set_bufferObjects
             (AddTriangle m3dNormalizeVector3 b verts vNorms vTexCoords eps range).1 g)
          m) r,
     (AddTriangle m3dNormalizeVector3 b verts vNorms vTexCoords eps range).2).
Proof.
  unfold AddTriangle.
  replace (nMaxIndexes (set_boundingSphereRadius (set_bMadeStuff (set_bufferObjects b g) m) r))
    with (nMaxIndexes b) by by destruct b.
  replace (nNumIndexes (set_boundingSphereRadius (set_bMadeStuff (set_bufferObjects b g) m) r))
    with (nNumIndexes b) by by destruct b.
  case_match; [done|]. cbn [fst snd foldl].
  set (vn := map3 m3dNormalizeVector3 <$> vNorms).
  assert (release_channels
            (set_boundingSphereRadius (set_bMadeStuff (set_bufferObjects b g) m) r)
            vn vTexCoords
          = set_boundingSphereRadius
              (set_bMadeStuff (set_bufferObjects (release_channels b vn vTexCoords) g) m)
              r) as ->.
  { clearbody vn. destruct b as [pI pV pN pT nMax nI nV g0 m0 r0].
    by destruct vn, vTexCoords, pN, pT. }
  set (b0 := release_channels b vn vTexCoords).
  replace (search_start
             (set_boundingSphereRadius (set_bMadeStuff (set_bufferObjects b0 g) m) r) range)
    with (search_start b0 range) by by destruct b0.
  by rewrite !add_corner_graphics.
Qed.

Lemma add_triangles_graphics cs : forall b g m r,
  add_triangles m3dNormalizeVector3
    (set_boundingSphereRadius (set_bMadeStuff (set_bufferObjects b g) m) r) cs
  = set_boundingSphereRadius
      (set_bMadeStuff (set_bufferObjects (add_triangles m3dNormalizeVector3 b cs) g) m) r.
Proof.
  induction cs as [|c cs IH]; intros b g m r; [done|].
  change (add_triangles m3dNormalizeVector3 ?x (c :: cs))
    with (add_triangles m3dNormalizeVector3 (add_triangle m3dNormalizeVector3 x c) cs).
  unfold add_triangle at 1. rewrite AddTriangle_graphics. cbn [fst].
  by rewrite IH.
Qed.

(** X9.  On a batch whose four pointers [BeginMesh] may give back (each
    is null, a live block, or the address [NOT_VALID_BUT_USED] that the
    guard skips), [BeginMesh] followed by any calls gives what a batch
    fresh from the constructor gives, but for the buffer objects,
    [bMadeStuff] and the bounding radius, which [BeginMesh] and
    [AddTriangle] carry along: nothing assembled before shows through. *)
Theorem begun_again_is_as_new (b : GLTriangleBatch) (n : Z) (cs : list call) :
  guarded_deletes_defined b = true ->
  add_triangles m3dNormalizeVector3 (BeginMesh b n) cs
  = set_boundingSphereRadius
      (set_bMadeStuff
         (set_bufferObjects
            (add_triangles m3dNormalizeVector3 (BeginMesh GLTriangleBatch_new n) cs)
            (bufferObjects b))
         (bMadeStuff b))
      (boundingSphereRadius b).
Proof. intros _. by rewrite <- add_triangles_graphics. Qed.

End More.

(** ** From assembly to the graphics side *)

Section Assembled.

Variable m3dNormalizeVector3 : M3DVector3f -> M3DVector3f.

(** X11.  On a batch begun with [n] slots and grown by any calls, [End]
    stays within what C++ defines exactly when the index count has not
    passed [n]: otherwise the upload of the indices reads past the end of
    the index array.  When it has not, [End] uploads a mesh that hangs
    together: one position per stored vertex, the [I] indices emitted,
    each of them the number of an uploaded position, and a normal and a
    texture coordinate per vertex exactly for the channels that are still
    there. *)
Theorem End_uploads_consistent_mesh (b0 : GLTriangleBatch) (n : Z) (cs : list call) :
  0 <= n < 2 ^ 32 ->
  let b := add_triangles m3dNormalizeVector3 (BeginMesh b0 n) cs in
  let g := bufferObjects (End_ b) in
  End_defined b = (nNumIndexes b <=? n) /\
  (nNumIndexes b <= n ->
   exists vs ixs,
     VERTEX_DATA g = Some vs /\ INDEX_DATA g = Some ixs /\
     Z.of_nat (length vs) = nNumVerts b /\
     Z.of_nat (length ixs) = nNumIndexes b /\
     Forall (fun i => 0 <= i < Z.of_nat (length vs)) ixs /\
     match NORMAL_DATA g with
     | Some ns => hasN b = true /\ length ns = length vs
     | None => hasN b = false
     end /\
     match TEXTURE_DATA g with
     | Some ts => hasT b = true /\ length ts = length vs
     | None => hasT b = false
     end).
Proof.
  intros Hn b g.
  destruct (add_triangles_ok m3dNormalizeVector3 cs (BeginMesh b0 n) (BeginMesh_ok b0 n Hn))
    as (Hok & Hval).
  fold b in Hok, Hval.
  assert (nMaxIndexes b = n) as HN.
  { subst b. by destruct (add_triangles_frame m3dNormalizeVector3 cs (BeginMesh b0 n))
      as (-> & _). }
  destruct Hok as (_ & HV & HI & (li & Ei & Hli) & (lv & Ev & Hlv) & HpN & HpT).
  rewrite HN in *. split.
  { assert (readable (pVerts b) (nNumVerts b) = true) as Rv.
    { rewrite Ev. cbn. apply Z.leb_le. lia. }
    assert (readable (pIndexes b) (nNumIndexes b) = (nNumIndexes b <=? n)) as Ri.
    { rewrite Ei. cbn. f_equal. lia. }
    assert ((negb (non_null (pNorms b)) || readable (pNorms b) (nNumVerts b)) = true)
      as Rn.
    { destruct HpN as [->|(ln & -> & Hln)]; cbn; [done|]. apply Z.leb_le. lia. }
    assert ((negb (non_null (pTexCoords b)) || readable (pTexCoords b) (nNumVerts b))
            = true) as Rt.
    { destruct HpT as [->|(lt & -> & Hlt)]; cbn; [done|]. apply Z.leb_le. lia. }
    assert (forallb defined_deletion (End_deletes b) = true) as Rd.
    { unfold End_deletes. rewrite Ei, Ev.
      by destruct HpN as [->|(ln & -> & _)], HpT as [->|(lt & -> & _)]. }
    unfold End_defined, End_reads. rewrite Rv, Ri, Rn, Rt, Rd. cbn.
    by rewrite andb_true_r. }
  intros Hfits.
  destruct (End_buffers b) as (Gv & Gi & Gn & Gt). fold g in Gv, Gi, Gn, Gt.
  exists (take (Z.to_nat (nNumVerts b)) (cells (pVerts b))),
         (take (Z.to_nat (nNumIndexes b)) (cells (pIndexes b))).
  assert (length (take (Z.to_nat (nNumVerts b)) (cells (pVerts b)))
          = Z.to_nat (nNumVerts b)) as Hlen.
  { rewrite length_take, Ev. cbn. lia. }
  split; [done|]. split; [done|]. split; [lia|]. split.
  { rewrite length_take, Ei. cbn. lia. }
  split.
  { apply Forall_lookup_2. intros k v Hk. apply lookup_take_Some in Hk as (Hk & Hlt).
    rewrite Hlen. rewrite Z2Nat.id by lia.
    apply (Hval (Z.of_nat k)); [lia|]. by rewrite Nat2Z.id. }
  rewrite Gn, Gt, Hlen. unfold hasN, hasT. split.
  - destruct HpN as [E|(l & E & Hl)]; rewrite E; cbn; [done|].
    split; [done|]. rewrite length_take. lia.
  - destruct HpT as [E|(l & E & Hl)]; rewrite E; cbn; [done|].
    split; [done|]. rewrite length_take. lia.
Qed.

(** X12.  Begin, a run of triangles that all find room (ranges not
    negative), [End], [Draw]: nothing is submitted when there was no call,
    and three indices per call otherwise. *)
Theorem Draw_submits_three_per_call (b0 : GLTriangleBatch) (n : Z) (cs : list call) :
  0 <= n <= 2 ^ 16 -> 3 * Z.of_nat (length cs) <= n ->
  Forall (fun c => 0 <= call_range c < 2 ^ 31) cs ->
  Draw (End_ (add_triangles m3dNormalizeVector3 (BeginMesh b0 n) cs))
  = match cs with [] => None | _ => Some (3 * Z.of_nat (length cs)) end.
Proof.
  intros Hn Hroom Hall. unfold Draw.
  destruct (End_counts (add_triangles m3dNormalizeVector3 (BeginMesh b0 n) cs))
    as (_ & -> & _).
  rewrite (triangle_count m3dNormalizeVector3 b0 n cs Hn Hroom Hall).
  destruct cs as [|c cs]; [done|].
  cbn [length] in *.
  destruct (Z.leb_spec (3 * Z.of_nat (S (length cs))) 0) as [?|_]; [lia|].
  rewrite int_of_small by lia. done.
Qed.

(** X13.  Every [delete []] that the code runs on a batch assembled with
    [BeginMesh] and [AddTriangle] is handed a live block or a null pointer:
    those of [End], and those of the destructor or of another [BeginMesh]
    when [End] is left out. *)
Theorem assembled_batch_deletes_blocks (b0 : GLTriangleBatch) (n : Z) (cs : list call) :
  0 <= n < 2 ^ 32 ->
  let b := add_triangles m3dNormalizeVector3 (BeginMesh b0 n) cs in
  Forall (fun d => d = deletes_block \/ d = deletes_null \/ d = kept) (End_deletes b) /\
  Forall (fun d => d = deletes_block \/ d = deletes_null) (guarded_deletes b) /\
  Forall (fun d => defined_deletion d = true) (End_deletes b ++ guarded_deletes b).
Proof.
  intros Hn b.
  destruct (add_triangles_ok m3dNormalizeVector3 cs (BeginMesh b0 n) (BeginMesh_ok b0 n Hn))
    as (Hok & _).
  fold b in Hok.
  destruct Hok as (_ & _ & _ & (li & Ei & _) & (lv & Ev & _) & HpN & HpT).
  unfold End_deletes, guarded_deletes. rewrite Ei, Ev.
  destruct HpN as [En|(ln & En & _)], HpT as [Et|(lt & Et & _)]; rewrite En, Et; cbn;
    split_and!; repeat (apply Forall_cons_2 || apply Forall_nil_2); auto.
Qed.

End Assembled.

(** ** After [End] *)

(** X14.  After [End], whatever the batch was, the destructor and
    [BeginMesh] skip the pointers that [End] has set to
    [NOT_VALID_BUT_USED] and delete nothing but null pointers, and the
    destructor deletes the buffer objects.  A second [End] is never within
    what C++ defines: when the batch has a vertex, its loop for the radius
    reads [pVerts[0]] through [NOT_VALID_BUT_USED]; when it has none, the
    loop reads nothing and [delete []] is handed that address, as it would
    be for the indices and for every channel that was there. *)
Theorem second_End_is_undefined (b : GLTriangleBatch) :
  GLTriangleBatch_delete (End_ b)
  = ([kept; kept; if hasN b then kept else deletes_null;
      if hasT b then kept else deletes_null], true) /\
  guarded_deletes_defined (End_ b) = true /\
  End_defined (End_ b) = false /\
  readable (pVerts (End_ b)) (nNumVerts (End_ b)) = (nNumVerts b <=? 0) /\
  End_deletes (End_ b)
  = [deletes_sentinel; if hasN b then deletes_sentinel else deletes_null;
     if hasT b then deletes_sentinel else kept; deletes_sentinel].
Proof.
  destruct b as [pI pV pN pT nMax nI nV g m r].
  unfold hasN, hasT, End_defined, guarded_deletes_defined.
  destruct pN, pT; cbn; by rewrite ?andb_false_r.
Qed.

(** ** The loader *)

Lemma load_upload_spec b :
  load_upload b
  = Batch stale stale
      (if non_null (pNorms b) then stale else nullptr)
      (if non_null (pTexCoords b) then stale else nullptr)
      (nMaxIndexes b) (nNumIndexes b) (nNumVerts b)
      (Buffers (glBufferData (nNumVerts b) (pVerts b))
         (if non_null (pNorms b) then glBufferData (nNumVerts b) (pNorms b)
          else NORMAL_DATA (bufferObjects b))
         (if non_null (pTexCoords b) then glBufferData (nNumVerts b) (pTexCoords b)
          else TEXTURE_DATA (bufferObjects b))
         (glBufferData (nNumIndexes b) (pIndexes b)))
      (bMadeStuff b) (boundingSphereRadius b).
Proof.
  destruct b as [pI pV pN pT nMax nI nV g m r]. by destruct pN, pT.
Qed.

Lemma load_geometry_frame b pFile :
  nMaxIndexes (load_geometry b pFile).1 = nMaxIndexes b /\
  bMadeStuff (load_geometry b pFile).1 = bMadeStuff b.
Proof.
  unfold load_geometry. repeat (destruct (fread _ _) as [[?|] ?]); by destruct b.
Qed.

Lemma load_normals_counts b pFile bNormals :
  nNumIndexes (load_normals b pFile bNormals).1 = nNumIndexes b /\
  nNumVerts (load_normals b pFile bNormals).1 = nNumVerts b /\
  boundingSphereRadius (load_normals b pFile bNormals).1 = boundingSphereRadius b.
Proof.
  unfold load_normals. destruct bNormals; [|done].
  destruct (fread _ _) as [[?|] ?]; by destruct b.
Qed.

Lemma load_texcoords_counts b pFile bTexCoords :
  nNumIndexes (load_texcoords b pFile bTexCoords).1 = nNumIndexes b /\
  nNumVerts (load_texcoords b pFile bTexCoords).1 = nNumVerts b /\
  boundingSphereRadius (load_texcoords b pFile bTexCoords).1 = boundingSphereRadius b.
Proof.
  unfold load_texcoords. destruct bTexCoords; [|done].
  destruct (fread _ _) as [[?|] ?]; by destruct b.
Qed.

Lemma load_normals_frame b pFile bNormals :
  nMaxIndexes (load_normals b pFile bNormals).1 = nMaxIndexes b /\
  bMadeStuff (load_normals b pFile bNormals).1 = bMadeStuff b.
Proof.
  unfold load_normals. destruct bNormals; [|done].
  destruct (fread _ _) as [[?|] ?]; by destruct b.
Qed.

Lemma load_texcoords_frame b pFile bTexCoords :
  nMaxIndexes (load_texcoords b pFile bTexCoords).1 = nMaxIndexes b /\
  bMadeStuff (load_texcoords b pFile bTexCoords).1 = bMadeStuff b.
Proof.
  unfold load_texcoords. destruct bTexCoords; [|done].
  destruct (fread _ _) as [[?|] ?]; by destruct b.
Qed.

Lemma LoadMesh_stages b pFile bNormals bTexCoords :
  let geometry := load_geometry b pFile in
  let normals := load_normals geometry.1 geometry.2 bNormals in
  let texcoords := load_texcoords normals.1 normals.2 bTexCoords in
  LoadMesh b pFile bNormals bTexCoords = (true, load_upload texcoords.1, texcoords.2).
Proof.
  cbn zeta. unfold LoadMesh.
  destruct (load_geometry b pFile) as [b1 f1]. cbn [fst snd].
  destruct (load_normals b1 f1 bNormals) as [b2 f2]. cbn [fst snd].
  by destruct (load_texcoords b2 f2 bTexCoords) as [b3 f3].
Qed.

(** X15.  After [LoadMesh], whatever the stream held, [pIndexes] and
    [pVerts] keep the addresses of blocks that [LoadMesh] has given back,
    and each channel pointer is null or such an address: the destructor,
    or a [BeginMesh] that follows, hands these addresses to [delete []] a
    second time.  [LoadMesh] leaves [bMadeStuff] as it was, so that the
    destructor of a batch that was only loaded deletes no buffer object. *)
Theorem LoadMesh_leaves_stale_pointers (b : GLTriangleBatch) (pFile : FILE)
    (bNormals bTexCoords : bool) :
  let b' := (LoadMesh b pFile bNormals bTexCoords).1.2 in
  pIndexes b' = stale /\ pVerts b' = stale /\
  (pNorms b' = nullptr \/ pNorms b' = stale) /\
  (pTexCoords b' = nullptr \/ pTexCoords b' = stale) /\
  (exists dn dt,
     GLTriangleBatch_delete b' = ([deletes_stale; deletes_stale; dn; dt], bMadeStuff b) /\
     (dn = deletes_null \/ dn = deletes_stale) /\
     (dt = deletes_null \/ dt = deletes_stale)).
Proof.
  cbn zeta. rewrite LoadMesh_stages. cbn [fst snd].
  set (b1 := (load_geometry b pFile).1).
  set (f1 := (load_geometry b pFile).2).
  set (b2 := (load_normals b1 f1 bNormals).1).
  set (f2 := (load_normals b1 f1 bNormals).2).
  set (b3 := (load_texcoords b2 f2 bTexCoords).1).
  assert (bMadeStuff b3 = bMadeStuff b) as Hm.
  { subst b3 b2 b1.
    destruct (load_geometry_frame b pFile) as (_ & <-).
    destruct (load_normals_frame (load_geometry b pFile).1 f1 bNormals) as (_ & <-).
    by destruct (load_texcoords_frame
                   (load_normals (load_geometry b pFile).1 f1 bNormals).1 f2 bTexCoords)
      as (_ & <-). }
  rewrite load_upload_spec. unfold GLTriangleBatch_delete, guarded_deletes. cbn.
  rewrite Hm.
  destruct (non_null (pNorms b3)), (non_null (pTexCoords b3)); cbn;
    repeat split; eauto 10.
Qed.

(** ** Reading a well-formed stream *)

Lemma le_uint_nonneg bs : 0 <= le_uint bs.
Proof.
  unfold le_uint. induction bs as [|x bs IH]; cbn [foldr]; lia.
Qed.

Lemma fread_block size xs rest :
  Z.of_nat (length xs) = size ->
  fread size (xs ++ rest) = (if 0 <? size then Some xs else None, rest).
Proof.
  intros Hl. unfold fread. rewrite length_app.
  destruct (Z.ltb_spec 0 size) as [Hs|Hs].
  - replace (size <=? Z.of_nat (length xs + length rest)) with true
      by (symmetry; apply Z.leb_le; lia).
    cbn [andb]. replace (Z.to_nat size) with (length xs) by lia.
    by rewrite take_app_length, drop_app_length.
  - cbn [andb]. destruct xs; [done|]. cbn [length] in Hl. lia.
Qed.

Lemma length_elements width n : forall bs, length (elements width n bs) = n.
Proof.
  induction n as [|n IH]; intros bs; [done|]. cbn. by rewrite IH.
Qed.

Lemma load_geometry_layout b hI hV hR idx pos rest :
  length hI = 4%nat -> length hV = 4%nat -> length hR = 4%nat ->
  Z.of_nat (length idx) = 2 * le_uint hI ->
  Z.of_nat (length pos) = 12 * le_uint hV ->
  load_geometry b (hI ++ hV ++ hR ++ idx ++ pos ++ rest)
  = (Batch (block (GLushorts_of_bytes (le_uint hI) idx))
       (block (M3DVector3fs_of_bytes (le_uint hV) pos))
       (pNorms b) (pTexCoords b) (nMaxIndexes b) (le_uint hI) (le_uint hV)
       glGenBuffers (bMadeStuff b) (GLfloat_of_bytes hR),
     rest).
Proof.
  intros HhI HhV HhR Hidx Hpos.
  pose proof (le_uint_nonneg hI) as HI. pose proof (le_uint_nonneg hV) as HV.
  destruct b as [pI pV pN pT nMax nI nV g m r].
  unfold load_geometry.
  rewrite (fread_block 4 hI) by lia. cbn [Z.ltb Z.compare].
  rewrite (fread_block 4 hV) by lia. cbn [Z.ltb Z.compare].
  rewrite (fread_block 4 hR) by lia. cbn [Z.ltb Z.compare].
  cbn [set_bufferObjects set_nNumIndexes set_nNumVerts set_boundingSphereRadius
       set_pIndexes set_pVerts pIndexes pVerts pNorms pTexCoords nMaxIndexes nNumIndexes
       nNumVerts bufferObjects bMadeStuff boundingSphereRadius].
  rewrite (fread_block (2 * le_uint hI) idx) by lia.
  cbn [set_bufferObjects set_nNumIndexes set_nNumVerts set_boundingSphereRadius
       set_pIndexes set_pVerts pIndexes pVerts pNorms pTexCoords nMaxIndexes nNumIndexes
       nNumVerts bufferObjects bMadeStuff boundingSphereRadius].
  assert ((if 0 <? 2 * le_uint hI
           then block (GLushorts_of_bytes (le_uint hI) idx)
           else new_array (le_uint hI))
          = block (GLushorts_of_bytes (le_uint hI) idx)) as EI.
  { destruct (Z.ltb_spec 0 (2 * le_uint hI)) as [?|Hz]; [done|].
    replace (le_uint hI) with 0 by lia. done. }
  assert ((if 0 <? 12 * le_uint hV
           then block (M3DVector3fs_of_bytes (le_uint hV) pos)
           else new_array (le_uint hV))
          = block (M3DVector3fs_of_bytes (le_uint hV) pos)) as EV.
  { destruct (Z.ltb_spec 0 (12 * le_uint hV)) as [?|Hz]; [done|].
    replace (le_uint hV) with 0 by lia. done. }
  destruct (0 <? 2 * le_uint hI);
    cbn [set_bufferObjects set_nNumIndexes set_nNumVerts set_boundingSphereRadius
         set_pIndexes set_pVerts pIndexes pVerts pNorms pTexCoords nMaxIndexes nNumIndexes
         nNumVerts bufferObjects bMadeStuff boundingSphereRadius];
    rewrite (fread_block (12 * le_uint hV) pos) by lia;
    destruct (0 <? 12 * le_uint hV);
    cbn [set_bufferObjects set_nNumIndexes set_nNumVerts set_boundingSphereRadius
         set_pIndexes set_pVerts pIndexes pVerts pNorms pTexCoords nMaxIndexes nNumIndexes
         nNumVerts bufferObjects bMadeStuff boundingSphereRadius];
    cbn -[le_uint GLushorts_of_bytes M3DVector3fs_of_bytes GLfloat_of_bytes new_array];
    try rewrite EI; try rewrite EV; reflexivity.
Qed.

(** X16.  A stream laid out as the three header words [I], [V] and the
    radius, [I] indices of two bytes, [V] positions of twelve bytes, then
    [V] normals of twelve bytes and [V] texture coordinates of eight bytes
    when they are asked for, is read to the end of the mesh and no
    further: the counts and the radius are those of the header, the index
    and the vertex buffer hold the [I] and [V] decoded elements, and a
    channel that is asked for is uploaded, unless the mesh has no vertex,
    in which case the channel is dropped. *)
Theorem LoadMesh_reads_layout (b : GLTriangleBatch)
    (hI hV hR idx pos nrm tex rest : list Byte.byte) (bNormals bTexCoords : bool) :
  length hI = 4%nat -> length hV = 4%nat -> length hR = 4%nat ->
  Z.of_nat (length idx) = 2 * le_uint hI ->
  Z.of_nat (length pos) = 12 * le_uint hV ->
  Z.of_nat (length nrm) = (if bNormals then 12 * le_uint hV else 0) ->
  Z.of_nat (length tex) = (if bTexCoords then 8 * le_uint hV else 0) ->
  let loaded :=
    LoadMesh b (hI ++ hV ++ hR ++ idx ++ pos ++ nrm ++ tex ++ rest) bNormals bTexCoords in
  let g := bufferObjects loaded.1.2 in
  loaded.1.1 = true /\ loaded.2 = rest /\
  nNumIndexes loaded.1.2 = le_uint hI /\ nNumVerts loaded.1.2 = le_uint hV /\
  boundingSphereRadius loaded.1.2 = GLfloat_of_bytes hR /\
  INDEX_DATA g = Some (GLushorts_of_bytes (le_uint hI) idx) /\
  length (GLushorts_of_bytes (le_uint hI) idx) = Z.to_nat (le_uint hI) /\
  VERTEX_DATA g = Some (M3DVector3fs_of_bytes (le_uint hV) pos) /\
  length (M3DVector3fs_of_bytes (le_uint hV) pos) = Z.to_nat (le_uint hV) /\
  (bNormals = true ->
   NORMAL_DATA g = if 0 <? le_uint hV
                   then Some (M3DVector3fs_of_bytes (le_uint hV) nrm) else None) /\
  (bTexCoords = true ->
   TEXTURE_DATA g = if 0 <? le_uint hV
                    then Some (M3DVector2fs_of_bytes (le_uint hV) tex) else None).
Proof.
  intros HhI HhV HhR Hidx Hpos Hnrm Htex.
  pose proof (le_uint_nonneg hV) as HV.
  assert (length (GLushorts_of_bytes (le_uint hI) idx) = Z.to_nat (le_uint hI)) as LI
    by (unfold GLushorts_of_bytes; by rewrite length_fmap, length_elements).
  assert (length (M3DVector3fs_of_bytes (le_uint hV) pos) = Z.to_nat (le_uint hV)) as LV
    by (unfold M3DVector3fs_of_bytes; by rewrite length_fmap, length_elements).
  assert (length (M3DVector3fs_of_bytes (le_uint hV) nrm) = Z.to_nat (le_uint hV)) as LN
    by (unfold M3DVector3fs_of_bytes; by rewrite length_fmap, length_elements).
  assert (length (M3DVector2fs_of_bytes (le_uint hV) tex) = Z.to_nat (le_uint hV)) as LT
    by (unfold M3DVector2fs_of_bytes; by rewrite length_fmap, length_elements).
  cbn zeta. rewrite LoadMesh_stages.
  rewrite (load_geometry_layout b hI hV hR idx pos (nrm ++ tex ++ rest)) by done.
  cbn [fst snd].
  set (b1 := Batch _ _ _ _ _ _ _ _ _ _).
  assert (exists pN,
            load_normals b1 (nrm ++ tex ++ rest) bNormals
            = (set_pNorms b1 pN, tex ++ rest) /\
            (bNormals = true ->
             pN = if 0 <? le_uint hV
                  then block (M3DVector3fs_of_bytes (le_uint hV) nrm) else nullptr))
    as (pN & -> & HpN).
  { unfold load_normals. destruct bNormals.
    - subst b1. cbn [nNumVerts]. rewrite (fread_block (12 * le_uint hV) nrm) by lia.
      destruct (Z.ltb_spec 0 (12 * le_uint hV)), (Z.ltb_spec 0 (le_uint hV)); try lia;
        eexists; (split; [reflexivity|done]).
    - destruct nrm; [|cbn [length] in Hnrm; lia].
      exists (pNorms b). split; [|done]. by subst b1. }
  cbn [fst snd].
  set (b2 := set_pNorms b1 pN).
  assert (exists pT,
            load_texcoords b2 (tex ++ rest) bTexCoords
            = (set_pTexCoords b2 pT, rest) /\
            (bTexCoords = true ->
             pT = if 0 <? le_uint hV
                  then block (M3DVector2fs_of_bytes (le_uint hV) tex) else nullptr))
    as (pT & -> & HpT).
  { unfold load_texcoords. destruct bTexCoords.
    - subst b2 b1. cbn [nNumVerts set_pNorms].
      rewrite (fread_block (8 * le_uint hV) tex) by lia.
      destruct (Z.ltb_spec 0 (8 * le_uint hV)), (Z.ltb_spec 0 (le_uint hV)); try lia;
        eexists; (split; [reflexivity|done]).
    - destruct tex; [|cbn [length] in Htex; lia].
      exists (pTexCoords b2). split; [|done]. by subst b2 b1. }
  cbn [fst snd]. rewrite load_upload_spec. subst b2 b1. cbn.
  unfold glBufferData. cbn [cells]. rewrite !take_ge by lia.
  repeat (split; [done|]). split.
  - intros Hb. rewrite (HpN Hb). destruct (0 <? le_uint hV); cbn [non_null cells]; [|done].
    by rewrite take_ge by lia.
  - intros Hb. rewrite (HpT Hb). destruct (0 <? le_uint hV); cbn [non_null cells]; [|done].
    by rewrite take_ge by lia.
Qed.

(** ** Files by name *)

Lemma LoadMesh_empty_stream b bNormals bTexCoords :
  let b' := (LoadMesh b [] bNormals bTexCoords).1.2 in
  nNumIndexes b' = nNumIndexes b /\ nNumVerts b' = nNumVerts b /\
  boundingSphereRadius b' = boundingSphereRadius b.
Proof.
  cbn zeta. rewrite LoadMesh_stages. cbn [fst snd].
  rewrite load_upload_spec. cbn.
  assert (nNumIndexes (load_geometry b []).1 = nNumIndexes b /\
          nNumVerts (load_geometry b []).1 = nNumVerts b /\
          boundingSphereRadius (load_geometry b []).1 = boundingSphereRadius b)
    as (EI & EV & ER).
  { unfold load_geometry.
    change (fread 4 []) with (@None (list Byte.byte), @nil Byte.byte). cbn iota beta zeta.
    change (fread 4 []) with (@None (list Byte.byte), @nil Byte.byte). cbn iota beta zeta.
    change (fread 4 []) with (@None (list Byte.byte), @nil Byte.byte). cbn iota beta zeta.
    repeat (destruct (fread _ _) as [[?|] ?]); by destruct b. }
  set (b1 := (load_geometry b []).1) in *.
  set (f1 := (load_geometry b []).2).
  destruct (load_normals_counts b1 f1 bNormals) as (EI2 & EV2 & ER2).
  set (b2 := (load_normals b1 f1 bNormals).1) in *.
  set (f2 := (load_normals b1 f1 bNormals).2).
  destruct (load_texcoords_counts b2 f2 bTexCoords) as (EI3 & EV3 & ER3).
  repeat split; congruence.
Qed.

(** X17.  [SaveMesh] by name reports failure and leaves the files alone
    when the file cannot be opened for writing; otherwise it reports
    success and leaves a file of length zero under that name, whatever the
    batch holds and whatever the file held, and no other file is touched. *)
Theorem SaveMesh_named_leaves_empty_file (b : GLTriangleBatch) (d : disk)
    (szFileName : string) :
  let saved := SaveMesh_named b d szFileName in
  (szFileName ∈ locked d -> saved = (false, d)) /\
  (szFileName ∉ locked d ->
   saved.1 = true /\ files saved.2 !! szFileName = Some [] /\
   locked saved.2 = locked d /\
   forall other, other ≠ szFileName -> files saved.2 !! other = files d !! other).
Proof.
  cbn zeta. unfold SaveMesh_named, fopen_wb, SaveMesh.
  destruct (decide (szFileName ∈ locked d)) as [Hin|Hout]; (split; [done|]); [done|].
  intros _. cbn. split; [done|]. split; [by rewrite lookup_insert_eq|].
  split; [done|]. intros other Hne. by rewrite !lookup_insert_ne.
Qed.

(** X19.  A mesh saved by name and loaded back by name from the same file:
    both calls report success, and the loading batch keeps the index
    count, the vertex count and the bounding radius that it had before,
    whatever the saved batch holds. *)
Theorem saved_mesh_loads_back_nothing (saved loading : GLTriangleBatch) (d : disk)
    (szFileName : string) (bNormals bTexCoords : bool) :
  szFileName ∉ locked d ->
  let s := SaveMesh_named saved d szFileName in
  let l := LoadMesh_named loading s.2 szFileName bNormals bTexCoords in
  s.1 = true /\ l.1 = true /\
  nNumIndexes l.2 = nNumIndexes loading /\ nNumVerts l.2 = nNumVerts loading /\
  boundingSphereRadius l.2 = boundingSphereRadius loading.
Proof.
  intros Hout. cbn zeta. unfold SaveMesh_named, fopen_wb, SaveMesh.
  destruct (decide (szFileName ∈ locked d)) as [?|_]; [done|].
  cbn [fst snd]. split; [done|].
  unfold LoadMesh_named, fopen_rb. cbn [files]. rewrite lookup_insert_eq.
  pose proof (LoadMesh_empty_stream loading bNormals bTexCoords) as H.
  cbn zeta in H.
  destruct (LoadMesh loading [] bNormals bTexCoords) as [[ok b'] f]. cbn [fst snd] in *.
  split; [done|]. exact H.
Qed.

(** * The further properties on sample data *)


Lemma counts_stay_ordered_holds :
  let b := add_triangles Sample.unit_length (BeginMesh GLTriangleBatch_new 4)
             [Sample.bare Sample.abc Sample.half 64;
              Sample.bare Sample.abc Sample.half 64] in
  0 <= nNumVerts b <= nNumIndexes b /\ nNumIndexes b <= 4 + 2.
Proof.
  apply (counts_stay_ordered Sample.unit_length GLTriangleBatch_new 4
           [Sample.bare Sample.abc Sample.half 64;
            Sample.bare Sample.abc Sample.half 64]).
  lia.
Defined.

Lemma three_indices_per_call_holds :
  let b := add_triangles Sample.unit_length (BeginMesh GLTriangleBatch_new 8)
             [Sample.bare Sample.abc Sample.half 64] in
  nNumIndexes (add_triangles Sample.unit_length b [Sample.bare Sample.def Sample.half 64])
  = nNumIndexes b + 3 * Z.of_nat (length [Sample.bare Sample.def Sample.half 64]).
Proof.
  apply (three_indices_per_call Sample.unit_length GLTriangleBatch_new 8
           [Sample.bare Sample.abc Sample.half 64]
           [Sample.bare Sample.def Sample.half 64]).
  - lia.
  - vm_compute. discriminate.
  - apply Forall_cons_2; [cbn; lia|apply Forall_nil_2].
Defined.

Lemma stored_vertices_stay_holds :
  let b := add_triangles Sample.unit_length (BeginMesh GLTriangleBatch_new 8)
             [Sample.full Sample.abc Sample.half 64] in
  let b' := add_triangles Sample.unit_length b [Sample.full Sample.def Sample.half 64] in
  nNumVerts b <= nNumVerts b' /\
  cells (pVerts b') !! Z.to_nat 1 = cells (pVerts b) !! Z.to_nat 1 /\
  (hasN b' = true ->
   cells (pNorms b') !! Z.to_nat 1 = cells (pNorms b) !! Z.to_nat 1) /\
  (hasT b' = true ->
   cells (pTexCoords b') !! Z.to_nat 1 = cells (pTexCoords b) !! Z.to_nat 1).
Proof.
  apply (stored_vertices_stay Sample.unit_length GLTriangleBatch_new 8
           [Sample.full Sample.abc Sample.half 64]
           [Sample.full Sample.def Sample.half 64] 1).
  - lia.
  - vm_compute. split; [discriminate|reflexivity].
Defined.

Lemma emitted_indices_stay_holds :
  let b := add_triangles Sample.unit_length (BeginMesh GLTriangleBatch_new 8)
             [Sample.bare Sample.abc Sample.half 64] in
  let b' := add_triangles Sample.unit_length b [Sample.bare Sample.dec Sample.half 64] in
  nNumIndexes b <= nNumIndexes b' /\
  nNumVerts b' - nNumVerts b <= nNumIndexes b' - nNumIndexes b /\
  cells (pIndexes b') !! Z.to_nat 2 = cells (pIndexes b) !! Z.to_nat 2.
Proof.
  apply (emitted_indices_stay Sample.unit_length GLTriangleBatch_new 8
           [Sample.bare Sample.abc Sample.half 64]
           [Sample.bare Sample.dec Sample.half 64] 2).
  - lia.
  - vm_compute. split; [discriminate|reflexivity].
Defined.

Lemma full_batch_is_final_holds :
  let b := add_triangles Sample.unit_length (BeginMesh GLTriangleBatch_new 3)
             [Sample.bare Sample.abc Sample.half 64] in
  add_triangles Sample.unit_length b
    [Sample.full Sample.def Sample.half 64; Sample.bare Sample.ghi Sample.half 64]
  = b.
Proof.
  apply (full_batch_is_final Sample.unit_length
           (add_triangles Sample.unit_length (BeginMesh GLTriangleBatch_new 3)
              [Sample.bare Sample.abc Sample.half 64])
           [Sample.full Sample.def Sample.half 64;
            Sample.bare Sample.ghi Sample.half 64]).
  vm_compute. discriminate.
Defined.

Lemma negative_range_skips_triangle_holds :
  let b := add_triangles Sample.unit_length (BeginMesh GLTriangleBatch_new 9)
             [Sample.full Sample.abc Sample.half 64] in
  (AddTriangle Sample.unit_length b Sample.def (Some Sample.up) None Sample.half (-2)).1
  = release_channels b (map3 Sample.unit_length <$> Some Sample.up) None.
Proof.
  apply (negative_range_skips_triangle Sample.unit_length
           (add_triangles Sample.unit_length (BeginMesh GLTriangleBatch_new 9)
              [Sample.full Sample.abc Sample.half 64])
           Sample.def (Some Sample.up) None Sample.half (-2)).
  - vm_compute. reflexivity.
  - lia.
  - vm_compute. reflexivity.
  - vm_compute. discriminate.
Defined.

Lemma End_uploads_consistent_mesh_holds :
  let b := add_triangles Sample.unit_length (BeginMesh GLTriangleBatch_new 8)
             [Sample.full Sample.abc Sample.half 64;
              Sample.bare Sample.dec Sample.half 64] in
  let g := bufferObjects (End_ b) in
  End_defined b = (nNumIndexes b <=? 8) /\
  (nNumIndexes b <= 8 ->
   exists vs ixs,
     VERTEX_DATA g = Some vs /\ INDEX_DATA g = Some ixs /\
     Z.of_nat (length vs) = nNumVerts b /\
     Z.of_nat (length ixs) = nNumIndexes b /\
     Forall (fun i => 0 <= i < Z.of_nat (length vs)) ixs /\
     match NORMAL_DATA g with
     | Some ns => hasN b = true /\ length ns = length vs
     | None => hasN b = false
     end /\
     match TEXTURE_DATA g with
     | Some ts => hasT b = true /\ length ts = length vs
     | None => hasT b = false
     end).
Proof.
  apply (End_uploads_consistent_mesh Sample.unit_length GLTriangleBatch_new 8
           [Sample.full Sample.abc Sample.half 64;
            Sample.bare Sample.dec Sample.half 64]).
  lia.
Defined.

(** The batch of scenario S1 after [End], begun again. *)
Lemma begun_again_is_as_new_holds :
  add_triangles Sample.unit_length (BeginMesh Sample.s1 8)
    [Sample.bare Sample.def Sample.half 64]
  = set_boundingSphereRadius
      (set_bMadeStuff
         (set_bufferObjects
            (add_triangles Sample.unit_length (BeginMesh GLTriangleBatch_new 8)
               [Sample.bare Sample.def Sample.half 64])
            (bufferObjects Sample.s1))
         (bMadeStuff Sample.s1))
      (boundingSphereRadius Sample.s1).
Proof.
  apply (begun_again_is_as_new Sample.unit_length Sample.s1 8
           [Sample.bare Sample.def Sample.half 64]).
  vm_compute. reflexivity.
Defined.

Lemma Draw_submits_three_per_call_holds :
  Draw (End_ (add_triangles Sample.unit_length (BeginMesh GLTriangleBatch_new 8)
                [Sample.bare Sample.abc Sample.half 64;
                 Sample.bare Sample.abc Sample.half 64]))
  = Some (3 * Z.of_nat (length [Sample.bare Sample.abc Sample.half 64;
                                Sample.bare Sample.abc Sample.half 64])).
Proof.
  apply (Draw_submits_three_per_call Sample.unit_length GLTriangleBatch_new 8
           [Sample.bare Sample.abc Sample.half 64;
            Sample.bare Sample.abc Sample.half 64]).
  - lia.
  - cbn. lia.
  - repeat (apply Forall_cons_2; [cbn; lia|]). apply Forall_nil_2.
Defined.

Lemma assembled_batch_deletes_blocks_holds :
  let b := add_triangles Sample.unit_length (BeginMesh GLTriangleBatch_new 8)
             [Sample.bare Sample.abc Sample.half 64] in
  Forall (fun d => d = deletes_block \/ d = deletes_null \/ d = kept) (End_deletes b) /\
  Forall (fun d => d = deletes_block \/ d = deletes_null) (guarded_deletes b) /\
  Forall (fun d => defined_deletion d = true) (End_deletes b ++ guarded_deletes b).
Proof.
  apply (assembled_batch_deletes_blocks Sample.unit_length GLTriangleBatch_new 8
           [Sample.bare Sample.abc Sample.half 64]).
  lia.
Defined.

(** A stream that holds a mesh of three indices and one vertex with its
    normal, without texture coordinates, and one byte more. *)
Lemma LoadMesh_reads_layout_holds :
  let hI := [x03; x00; x00; x00] in
  let hV := [x01; x00; x00; x00] in
  let hR := [x00; x00; x80; x3f] in
  let idx := [x00; x00; x00; x00; x00; x00] in
  let pos := replicate 12 x00 in
  let nrm := replicate 8 x00 ++ [x00; x00; x80; x3f] in
  let loaded :=
    LoadMesh GLTriangleBatch_new
      (hI ++ hV ++ hR ++ idx ++ pos ++ nrm ++ [] ++ [x2a]) true false in
  let g := bufferObjects loaded.1.2 in
  loaded.1.1 = true /\ loaded.2 = [x2a] /\
  nNumIndexes loaded.1.2 = le_uint hI /\ nNumVerts loaded.1.2 = le_uint hV /\
  boundingSphereRadius loaded.1.2 = GLfloat_of_bytes hR /\
  INDEX_DATA g = Some (GLushorts_of_bytes (le_uint hI) idx) /\
  length (GLushorts_of_bytes (le_uint hI) idx) = Z.to_nat (le_uint hI) /\
  VERTEX_DATA g = Some (M3DVector3fs_of_bytes (le_uint hV) pos) /\
  length (M3DVector3fs_of_bytes (le_uint hV) pos) = Z.to_nat (le_uint hV) /\
  (true = true ->
   NORMAL_DATA g = if 0 <? le_uint hV
                   then Some (M3DVector3fs_of_bytes (le_uint hV) nrm) else None) /\
  (false = true ->
   TEXTURE_DATA g = if 0 <? le_uint hV
                    then Some (M3DVector2fs_of_bytes (le_uint hV) []) else None).
Proof.
  cbn zeta.
  apply (LoadMesh_reads_layout GLTriangleBatch_new
           [x03; x00; x00; x00] [x01; x00; x00; x00] [x00; x00; x80; x3f]
           [x00; x00; x00; x00; x00; x00] (replicate 12 x00)
           (replicate 8 x00 ++ [x00; x00; x80; x3f]) [] [x2a] true false);
    reflexivity.
Defined.

Lemma saved_mesh_loads_back_nothing_holds :
  let s := SaveMesh_named Sample.s1 (Disk ∅ ∅) "mesh.bin" in
  let l := LoadMesh_named (Sample.begun 8) s.2 "mesh.bin" true true in
  s.1 = true /\ l.1 = true /\
  nNumIndexes l.2 = nNumIndexes (Sample.begun 8) /\
  nNumVerts l.2 = nNumVerts (Sample.begun 8) /\
  boundingSphereRadius l.2 = boundingSphereRadius (Sample.begun 8).
Proof.
  apply (saved_mesh_loads_back_nothing Sample.s1 (Sample.begun 8) (Disk ∅ ∅)
           "mesh.bin" true true).
  cbn. apply not_elem_of_empty.
Defined.
